(** * DTaaS prediction service: feature-vector construction and scaling

    Shallow embedding of [src/ai/app/services/predict.py] and proofs about
    the pipeline [predict_with_model] (called [run] in the specification).

    Modelling conventions.
    - A Python float is a [float]: a finite number, one of the two
      infinities, or NaN.  Finite numbers are exact rationals ([Q]) and
      arithmetic on them is exact: rounding, overflow, underflow and the
      sign of zero are outside the model.  Comparisons and arithmetic with
      infinities and NaN follow IEEE 754 as Python exposes it.  The constant
      [1e-8] is the rational [1 # 100000000].
    - Feature names are ASCII strings.
    - A Python exception is a value of [PyExc]; a computation that may raise
      is a [result].  Every [raise] site of the source has its own message
      constructor, so that the theorems can tell the sites apart.
    - The feature map is a finite map from names to dynamically typed
      values ([PyVal]), the values a JSON document can hold; [float(...)]
      on a string is a parameter of the development ([float_of_str]). *)

From Stdlib Require Import QArith Qabs Qminmax Lqa ZArith String Ascii List Lia.
From stdpp Require Import base option gmap strings list sorting.

Local Open Scope string_scope.

(** ** Exceptions and fallible computations *)

(** The messages of the exceptions the module raises, one per site. *)
Inductive Msg : Type :=
| MsgFeatureNamesRequired            (* "metadata.feature_names is required." *)
| MsgWindowSizePositive              (* "metadata.window_size must be > 0." *)
| MsgNoiseBounds                     (* "noise_scaling max_abs_db must be greater than min_abs_db." *)
| MsgNoHistFeatures                  (* "Model metadata exposes no DL_hist_* features." *)
| MsgMissingHistory (missing : list string)  (* str(KeyError(f"Missing history features: {missing_hist}")) *)
| MsgKey (name : string)             (* str(KeyError(name)) *)
| MsgHistNotNumeric                  (* "DL_hist_* values must be numeric." *)
| MsgHistNotPositive                 (* "All DL_hist_* values must be > 0." *)
| MsgUnknownMode (mode : string)     (* f"Unknown window_scale_mode: {mode}" *)
| MsgMissingNoise (name : string)    (* f"Missing noise feature '{name}'." *)
| MsgNotNumeric (name : string)      (* f"Feature '{name}' must be numeric." *)
| MsgFloatOfString (s : string).     (* "could not convert string to float: ..." *)

(** Python exception classes that occur, with their payload. *)
Inductive PyExc : Type :=
| ValueError (m : Msg)
| KeyError (m : Msg)
| TypeError
| IndexError
| ZeroDivisionError
| OverflowError     (* float(n) for an integer too large for a float *)
| EstimatorError.   (* whatever model.predict raises *)

(** The class of an exception, as [type(e)] would give it. *)
Inductive PyClass : Type :=
| ClsValueError | ClsKeyError | ClsTypeError | ClsIndexError
| ClsZeroDivisionError | ClsOverflowError | ClsEstimatorError.

Definition exc_class (e : PyExc) : PyClass :=
  match e with
  | ValueError _ => ClsValueError
  | KeyError _ => ClsKeyError
  | TypeError => ClsTypeError
  | IndexError => ClsIndexError
  | ZeroDivisionError => ClsZeroDivisionError
  | OverflowError => ClsOverflowError
  | EstimatorError => ClsEstimatorError
  end.

Inductive result (A : Type) : Type :=
| Ok (a : A)
| Raise (e : PyExc).

Arguments Ok {A} a.
Arguments Raise {A} e.

#[global] Instance result_ret : MRet result := fun A a => Ok a.
#[global] Instance result_bind : MBind result := fun A B f c =>
  match c with
  | Ok a => f a
  | Raise e => Raise e
  end.

#[global] Instance result_fmap : FMap result := fun A B f c =>
  match c with
  | Ok a => Ok (f a)
  | Raise e => Raise e
  end.

(** [try: c except e: h e] *)
Definition try_except {A} (c : result A) (h : PyExc -> result A) : result A :=
  match c with
  | Ok a => Ok a
  | Raise e => h e
  end.

(** ** Floats *)

Inductive float : Type :=
| Fin (q : Q)   (* a finite number *)
| PInf          (* float("inf") *)
| NInf          (* float("-inf") *)
| NaN.          (* float("nan") *)

(** [a <= b] and [a < b]: every comparison with NaN is false. *)
Definition float_le (a b : float) : bool :=
  match a, b with
  | NaN, _ | _, NaN => false
  | NInf, _ => true
  | _, PInf => true
  | Fin p, Fin q => Qle_bool p q
  | _, _ => false
  end.

Definition float_lt (a b : float) : bool :=
  match a, b with
  | NaN, _ | _, NaN => false
  | Fin p, Fin q => negb (Qle_bool q p)
  | PInf, _ => false
  | _, NInf => false
  | _, _ => true
  end.

(** [-a] and [abs(a)] *)
Definition float_opp (a : float) : float :=
  match a with
  | Fin q => Fin (- q)
  | PInf => NInf
  | NInf => PInf
  | NaN => NaN
  end.

Definition float_abs (a : float) : float :=
  match a with
  | Fin q => Fin (Qabs q)
  | PInf | NInf => PInf
  | NaN => NaN
  end.

(** [a + b] and [a - b]: opposite infinities cancel to NaN. *)
Definition float_add (a b : float) : float :=
  match a, b with
  | NaN, _ | _, NaN => NaN
  | Fin p, Fin q => Fin (p + q)
  | PInf, NInf | NInf, PInf => NaN
  | PInf, _ | _, PInf => PInf
  | NInf, _ | _, NInf => NInf
  end.

Definition float_sub (a b : float) : float :=
  match a, b with
  | NaN, _ | _, NaN => NaN
  | Fin p, Fin q => Fin (p - q)
  | PInf, PInf | NInf, NInf => NaN
  | PInf, _ | _, NInf => PInf
  | NInf, _ | _, PInf => NInf
  end.

(** An infinity multiplied or divided by a finite number [p]: NaN for
    zero, the infinity or its opposite by the sign of [p]. *)
Definition signed_inf (p : Q) (inf : float) : float :=
  if Qeq_bool p 0 then NaN else if Qle_bool 0 p then inf else float_opp inf.

(** [a * b] *)
Definition float_mul (a b : float) : float :=
  match a, b with
  | NaN, _ | _, NaN => NaN
  | Fin p, Fin q => Fin (p * q)
  | Fin p, inf | inf, Fin p => signed_inf p inf
  | PInf, PInf | NInf, NInf => PInf
  | PInf, NInf | NInf, PInf => NInf
  end.

(** The quotient of [a] by a divisor [b] that is not zero. *)
Definition float_div (a b : float) : float :=
  match a, b with
  | NaN, _ | _, NaN => NaN
  | Fin p, Fin q => Fin (p / q)
  | Fin _, _ => Fin 0
  | inf, Fin q => signed_inf q inf
  | _, _ => NaN
  end.

(** ** Python builtins used by the module *)

(** [max(a, b)] keeps its first argument unless the second is strictly
    greater; [min(a, b)] keeps the first unless the second is strictly
    smaller.  With a NaN argument the first one is kept. *)
Definition py_max (a b : float) : float := if float_lt a b then b else a.
Definition py_min (a b : float) : float := if float_lt b a then b else a.

(** [a / b] on floats raises [ZeroDivisionError] when [b] is zero, whatever
    [a] is. *)
Definition py_div (a b : float) : result float :=
  match b with
  | Fin q => if Qeq_bool q 0 then Raise ZeroDivisionError else Ok (float_div a b)
  | _ => Ok (float_div a b)
  end.

(** [str.startswith] *)
Definition startswith (s p : string) : bool := String.prefix p s.

(** [s.split(sep)] for a one-character separator: never empty. *)
Fixpoint split (sep : ascii) (s : string) : list string :=
  match s with
  | EmptyString => [EmptyString]
  | String c rest =>
      if Ascii.eqb c sep then EmptyString :: split sep rest
      else match split sep rest with
           | seg :: segs => String c seg :: segs
           | [] => [String c EmptyString]
           end
  end.

(** [l[-1]] *)
Definition last_item {A} (l : list A) : result A :=
  match last l with
  | Some a => Ok a
  | None => Raise IndexError
  end.

(** Characters [int] treats as white space: tab to carriage return, the
    four separators 0x1c-0x1f, and the blank. *)
Definition is_space (c : ascii) : bool :=
  let n := nat_of_ascii c in
  ((9 <=? n)%nat && (n <=? 13)%nat) || ((28 <=? n)%nat && (n <=? 31)%nat) || (n =? 32)%nat.

Definition is_digit (c : ascii) : bool :=
  let n := nat_of_ascii c in (48 <=? n)%nat && (n <=? 57)%nat.

Fixpoint lstrip (l : list ascii) : list ascii :=
  match l with
  | c :: r => if is_space c then lstrip r else l
  | [] => []
  end.

Definition strip (l : list ascii) : list ascii := rev (lstrip (rev (lstrip l))).

Fixpoint digits_value (l : list ascii) (acc : Z) : option Z :=
  match l with
  | [] => Some acc
  | c :: r =>
      if is_digit c
      then digits_value r (10 * acc + (Z.of_nat (nat_of_ascii c) - 48))%Z
      else None
  end.

(** [int(s)] for an ASCII string without underscore (the strings it is
    applied to are segments produced by [split("_")]): optional white space
    around an optional sign followed by at least one decimal digit.  [None]
    stands for the [ValueError] that [int] raises. *)
Definition py_int (s : string) : option Z :=
  match strip (list_ascii_of_string s) with
  | [] => None
  | c :: r =>
      if Ascii.eqb c "+" then
        match r with [] => None | _ => digits_value r 0 end
      else if Ascii.eqb c "-" then
        match r with [] => None | _ => Z.opp <$> digits_value r 0 end
      else digits_value (c :: r) 0
  end.

(** [sorted(l, key=...)] is stable; [l] holds the items already paired with
    their keys.  Stable insertion sort: an item is put before the first item
    whose key is not smaller, so equal keys keep their input order. *)
Fixpoint insert_by_key {A} (x : Z * A) (l : list (Z * A)) : list (Z * A) :=
  match l with
  | [] => [x]
  | y :: r => if (x.1 <=? y.1)%Z then x :: y :: r else y :: insert_by_key x r
  end.

Definition sorted_by_key {A} (l : list (Z * A)) : list A :=
  (foldr insert_by_key [] l).*2.

(** [float(np.mean(l))]: the sum divided by the count; NaN (with a warning,
    no exception) for the empty list. *)
Definition np_mean (l : list float) : float :=
  match l with
  | [] => NaN
  | _ => float_div (foldl float_add (Fin 0) l) (Fin (inject_Z (Z.of_nat (length l))))
  end.

(** ** Dynamically typed values of the feature map *)

Inductive PyVal : Type :=
| PyFloat (f : float)
| PyInt (z : Z)
| PyBool (b : bool)
| PyStr (s : string)
| PyNone
| PyContainer.   (* a list or a dictionary *)

(** ** Data model *)

(** The [noise_scaling] dictionary; a missing key is [None]. *)
Record NoiseScaling : Type := {
  min_abs_db : option float;
  max_abs_db : option float
}.

(** The two scaling keys, which the source looks up first in
    [metadata["scaling"]] and then in [metadata] itself. *)
Record ScalingConfig : Type := {
  window_scale_mode : option string;
  noise_scaling : option NoiseScaling
}.

(** The metadata dictionary of a model; a missing key is [None].
    [top_level] holds the scaling keys found in the dictionary itself. *)
Record Metadata : Type := {
  feature_names : option (list string);
  feature_names_in : option (list string);
  window_size : option Z;
  scaling : option ScalingConfig;
  top_level : ScalingConfig
}.

(** The dictionary [predict_with_model] returns. *)
Module Res.
Record t : Type := {
  y_pred : float;
  y_pred_scaled : float;
  base : float;
  x_vector : list float;
  feature_names : list string
}.
End Res.

(** ** Helpers of the module *)

(** [l[i]] and [l[i] = v] raise [IndexError] out of range. *)
Definition getitem {A} (l : list A) (i : nat) : result A :=
  match l !! i with
  | Some a => Ok a
  | None => Raise IndexError
  end.

Definition setitem {A} (l : list A) (i : nat) (v : A) : result (list A) :=
  if bool_decide (i < length l)%nat then Ok (<[i := v]> l) else Raise IndexError.

(** [enumerate(l)] *)
Definition enumerate {A} (l : list A) : list (nat * A) := imap pair l.

Definition split_indices (names : list string) : list nat * list nat * list nat :=
  let hist_idx := (List.filter (fun p => startswith p.2 "DL_hist_") (enumerate names)).*1 in
  let noise_idx := (List.filter (fun p => startswith p.2 "noise_") (enumerate names)).*1 in
  let taken : gset nat := list_to_set (hist_idx ++ noise_idx) in
  let other_idx := List.filter (fun i => bool_decide (i ∉ taken)) (seq 0 (length names)) in
  (hist_idx, noise_idx, other_idx).

(** The sort key of a history name: [int(str(name).split("_")[-1])]. *)
Definition hist_key (name : string) : option Z :=
  py_int (List.last (split "_" name) EmptyString).

Definition order_hist_positions (feature_names : list string) (hist_idx : list nat)
  : result (list nat) :=
  match hist_idx with
  | [] => Ok []
  | _ =>
      hist_names ← mapM (getitem feature_names) hist_idx;
      match mapM hist_key hist_names with
      | Some keys =>
          let order := sorted_by_key (zip keys (seq 0 (length hist_idx))) in
          Ok ((fun k => default 0%nat (hist_idx !! k)) <$> order)
      | None => Ok hist_idx
      end
  end.

Definition compute_window_base (hist_raw : list float) (mode : string) : result float :=
  b ← (if String.eqb mode "window_mean" then Ok (np_mean hist_raw)
       else if String.eqb mode "window_anchor" then last_item hist_raw
       else if String.eqb mode "none" then Ok (Fin 1)
       else Raise (ValueError (MsgUnknownMode mode)));
  Ok (py_max b (Fin 1e-8)).

Definition scale_noise_abs_db (val_db vmin vmax : float) : result float :=
  let v := float_abs val_db in
  r ← py_div (float_sub v vmin) (float_sub vmax vmin);
  Ok (py_min (py_max r (Fin 0)) (Fin 1)).

(** [for a in l: s = body(s, a)], stopping at the first exception. *)
Fixpoint for_each {A S} (l : list A) (body : S -> A -> result S) (s : S) : result S :=
  match l with
  | [] => Ok s
  | a :: r => s' ← body s a; for_each r body s'
  end.

(** [name in features] *)
Definition contains (features : gmap string PyVal) (name : string) : bool :=
  bool_decide (is_Some (features !! name)).

(** [features[name]] *)
Definition get_feature (features : gmap string PyVal) (name : string) : result PyVal :=
  match features !! name with
  | Some v => Ok v
  | None => Raise (KeyError (MsgKey name))
  end.

Definition empty_scaling : ScalingConfig :=
  {| window_scale_mode := None; noise_scaling := None |}.

Definition default_noise_scaling : NoiseScaling :=
  {| min_abs_db := Some (Fin 50); max_abs_db := Some (Fin 150) |}.

(** ** Reading the metadata (lines 83-96 of the source) *)

(** [list(metadata.get("feature_names") or metadata.get("feature_names_in") or [])]:
    an empty or missing [feature_names] gives way to [feature_names_in]. *)
Definition md_feature_names (metadata : Metadata) : list string :=
  match feature_names metadata with
  | Some (n :: l) => n :: l
  | _ => default [] (feature_names_in metadata)
  end.

(** [int(metadata.get("window_size", 0))] *)
Definition md_window_size (metadata : Metadata) : Z :=
  default 0%Z (window_size metadata).

(** [metadata.get("scaling") or {}] *)
Definition md_scaling (metadata : Metadata) : ScalingConfig :=
  default empty_scaling (scaling metadata).

(** [scaling.get("window_scale_mode", metadata.get("window_scale_mode", "window_mean"))] *)
Definition md_window_scale_mode (metadata : Metadata) : string :=
  default (default "window_mean" (window_scale_mode (top_level metadata)))
          (window_scale_mode (md_scaling metadata)).

(** [scaling.get("noise_scaling", metadata.get("noise_scaling", {...}))] *)
Definition md_noise_cfg (metadata : Metadata) : NoiseScaling :=
  default (default default_noise_scaling (noise_scaling (top_level metadata)))
          (noise_scaling (md_scaling metadata)).

(** [float(noise_cfg.get("min_abs_db", 50.0))] and its companion. *)
Definition md_vmin (metadata : Metadata) : float :=
  default (Fin 50) (min_abs_db (md_noise_cfg metadata)).

Definition md_vmax (metadata : Metadata) : float :=
  default (Fin 150) (max_abs_db (md_noise_cfg metadata)).

(** Lines 104-109: the ordered history positions, cut to [window_size] when
    the number of history features differs from it. *)
Definition select_hist_positions (feature_names : list string) (hist_idx : list nat)
    (window_size : Z) : result (list nat) :=
  if negb (Z.of_nat (length hist_idx) =? window_size)%Z
  then take (Z.to_nat window_size) <$> order_hist_positions feature_names hist_idx
  else order_hist_positions feature_names hist_idx.

(** The integers from which [float] raises [OverflowError]: half an ulp
    above the largest finite float, [2**1024 - 2**971]. *)
Definition float_int_bound : Z := (2 ^ 1024 - 2 ^ 970)%Z.

Section Pipeline.

(** [float(s)] on a string: [None] when it raises [ValueError]. *)
Variable float_of_str : string -> option float.

(** [float(v)]: an integer converts when it rounds to a finite float, that
    is when its magnitude is below [float_int_bound]. *)
Definition py_float (v : PyVal) : result float :=
  match v with
  | PyFloat f => Ok f
  | PyInt z =>
      if (Z.abs z <? float_int_bound)%Z then Ok (Fin (inject_Z z))
      else Raise OverflowError
  | PyBool b => Ok (Fin (if b then 1 else 0))
  | PyStr s =>
      match float_of_str s with
      | Some f => Ok f
      | None => Raise (ValueError (MsgFloatOfString s))
      end
  | PyNone | PyContainer => Raise TypeError
  end.

(** [float(features[name])] *)
Definition feature_float (features : gmap string PyVal) (name : string)
  : result float :=
  v ← get_feature features name; py_float v.

(** The body of the noise loop. *)
Definition noise_step (feature_names : list string) (features : gmap string PyVal)
    (vmin vmax : float) (x : list float) (pos : nat) : result (list float) :=
  name ← getitem feature_names pos;
  if negb (contains features name) then Raise (ValueError (MsgMissingNoise name))
  else
    f ← feature_float features name;
    s ← scale_noise_abs_db f vmin vmax;
    setitem x pos s.

(** The body of the loop over the other features. *)
Definition other_step (feature_names : list string) (features : gmap string PyVal)
    (x : list float) (pos : nat) : result (list float) :=
  name ← getitem feature_names pos;
  if contains features name then
    try_except
      (f ← feature_float features name; setitem x pos f)
      (fun _ => Raise (ValueError (MsgNotNumeric name)))
  else Ok x.

(** The [try] block that collects the raw history, with its two handlers. *)
Definition collect_history (feature_names : list string) (features : gmap string PyVal)
    (ordered_hist_positions : list nat) : result (list float) :=
  try_except
    (hist_names_ordered ← mapM (getitem feature_names) ordered_hist_positions;
     let missing_hist :=
       List.filter (fun n => negb (contains features n)) hist_names_ordered in
     match missing_hist with
     | _ :: _ => Raise (KeyError (MsgMissingHistory missing_hist))
     | [] => mapM (feature_float features) hist_names_ordered
     end)
    (fun e =>
       match e with
       | KeyError m => Raise (ValueError m)
       | _ => Raise (ValueError MsgHistNotNumeric)
       end).

(** Lines 129-153: scale the history and fill the input vector. *)
Definition build_vector (feature_names : list string) (features : gmap string PyVal)
    (window_scale_mode : string) (vmin vmax : float)
    (ordered_hist_positions noise_idx other_idx : list nat)
    (hist_raw : list float) (base : float) : result (list float) :=
  hist_scaled ←
    (if String.eqb window_scale_mode "none" then Ok hist_raw
     else mapM (fun v => py_div v base) hist_raw);
  let x := replicate (length feature_names) (Fin 0) in
  x ← for_each (zip ordered_hist_positions hist_scaled)
         (fun x pv => setitem x pv.1 pv.2) x;
  x ← for_each noise_idx (noise_step feature_names features vmin vmax) x;
  for_each other_idx (other_step feature_names features) x.

(** The service.  [model x] stands for [float(model.predict([x])[0])], [None]
    when the estimator raises.  The guard [if noise_idx:] around the noise
    loop is left out: the loop over an empty list does nothing. *)
Definition predict_with_model (model : list float -> option float) (metadata : Metadata)
    (features : gmap string PyVal) : result Res.t :=
  (* metadata essentials *)
  let feature_names := md_feature_names metadata in
  if bool_decide (feature_names = []) then Raise (ValueError MsgFeatureNamesRequired) else
  let window_size := md_window_size metadata in
  if (window_size <=? 0)%Z then Raise (ValueError MsgWindowSizePositive) else
  (* scaling config *)
  let window_scale_mode := md_window_scale_mode metadata in
  let vmin := md_vmin metadata in
  let vmax := md_vmax metadata in
  if float_le vmax vmin then Raise (ValueError MsgNoiseBounds) else
  (* derive groups and sanity checks *)
  let '(hist_idx, noise_idx, other_idx) := split_indices feature_names in
  if (length hist_idx =? 0)%nat then Raise (ValueError MsgNoHistFeatures) else
  ordered_hist_positions ← select_hist_positions feature_names hist_idx window_size;
  (* collect raw history in order *)
  hist_raw ← collect_history feature_names features ordered_hist_positions;
  if existsb (fun v => float_le v (Fin 0)) hist_raw
  then Raise (ValueError MsgHistNotPositive) else
  (* compute base, scale history, fill the vector *)
  base ← compute_window_base hist_raw window_scale_mode;
  x ← build_vector feature_names features window_scale_mode vmin vmax
        ordered_hist_positions noise_idx other_idx hist_raw base;
  (* predict on scaled target, then unscale *)
  y_pred_scaled ←
    match model x with
    | Some y => Ok y
    | None => Raise EstimatorError
    end;
  Ok {| Res.y_pred := float_mul y_pred_scaled base;
        Res.y_pred_scaled := y_pred_scaled;
        Res.base := base;
        Res.x_vector := x;
        Res.feature_names := feature_names |}.

End Pipeline.

(** ** Vocabulary of the statements *)

Definition hist_idx_of (names : list string) : list nat := (split_indices names).1.1.
Definition noise_idx_of (names : list string) : list nat := (split_indices names).1.2.
Definition other_idx_of (names : list string) : list nat := (split_indices names).2.

(** The three values of [window_scale_mode] that [compute_window_base] knows. *)
Definition recognised_mode (mode : string) : bool :=
  String.eqb mode "window_mean" || String.eqb mode "window_anchor" || String.eqb mode "none".

(** The metadata passes the four configuration checks of lines 84-103. *)
Definition passes_config_checks (md : Metadata) : bool :=
  negb (bool_decide (md_feature_names md = []))
  && negb (md_window_size md <=? 0)%Z
  && negb (float_le (md_vmax md) (md_vmin md))
  && negb (length (hist_idx_of (md_feature_names md)) =? 0)%nat.

(** Valid metadata: the configuration checks pass and the mode is known. *)
Definition valid_metadata (md : Metadata) : bool :=
  passes_config_checks md && recognised_mode (md_window_scale_mode md).

(** Messages of the configuration errors and of the client-input errors. *)
Definition is_config_msg (m : Msg) : bool :=
  match m with
  | MsgFeatureNamesRequired | MsgWindowSizePositive | MsgNoiseBounds
  | MsgNoHistFeatures | MsgUnknownMode _ => true
  | _ => false
  end.


(** The clamp of the specification: [r] cut to the interval from 0 to 1. *)
Definition clamp01 (r : Q) : Q :=
  if Qle_bool r 0 then 0%Q else if Qle_bool 1 r then 1%Q else r.

(** The arithmetic mean as the specification has it: the sum divided by
    the count. *)
Definition arithmetic_mean (l : list Q) : Q :=
  (fold_right Qplus 0 l / inject_Z (Z.of_nat (length l)))%Q.

(** The name at an index of [names] (the empty string out of range), and
    the sort key of the history name at an index. *)
Definition name_at (names : list string) (i : nat) : string :=
  default EmptyString (names !! i).

Definition key_at (names : list string) (i : nat) : option Z :=
  hist_key (name_at names i).

(** [i] comes no later than [j] in the order of the integer suffixes. *)
Definition key_le (names : list string) (i j : nat) : Prop :=
  match key_at names i, key_at names j with
  | Some a, Some b => (a <= b)%Z
  | _, _ => False
  end.

(** The pure part of [scale_noise_abs_db] and of the history scaling. *)
Definition noise_scaled (val_db vmin vmax : float) : float :=
  py_min (py_max (float_div (float_sub (float_abs val_db) vmin) (float_sub vmax vmin))
            (Fin 0)) (Fin 1).

Definition hist_scaled_value (mode : string) (base v : float) : float :=
  if String.eqb mode "none" then v else float_div v base.

(** The history positions [predict_with_model] works with (line 104-109);
    the empty list stands for an exception of the ordering step. *)
Definition selected_positions (md : Metadata) : list nat :=
  match select_hist_positions (md_feature_names md)
          (hist_idx_of (md_feature_names md)) (md_window_size md) with
  | Ok l => l
  | Raise _ => []
  end.

Section Vocabulary.

Variable float_of_str : string -> option float.

(** The float of the feature named by index [i], 0 when there is none. *)
Definition raw_at (names : list string) (features : gmap string PyVal) (i : nat)
  : float :=
  match feature_float float_of_str features (name_at names i) with
  | Ok f => f
  | Raise _ => Fin 0
  end.

Definition is_numeric (features : gmap string PyVal) (name : string) : bool :=
  match feature_float float_of_str features name with
  | Ok _ => true
  | Raise _ => false
  end.

(** The value converts to a float above 0 (NaN is not). *)
Definition is_positive (features : gmap string PyVal) (name : string) : bool :=
  match feature_float float_of_str features name with
  | Ok f => float_lt (Fin 0) f
  | Raise _ => false
  end.

(** The value converts to a float that the check [v <= 0.0] of line 124
    lets through: a float above 0, or NaN. *)
Definition passes_sign_check (features : gmap string PyVal) (name : string) : bool :=
  match feature_float float_of_str features name with
  | Ok f => negb (float_le f (Fin 0))
  | Raise _ => false
  end.

(** The raw history in the order of the selected positions. *)
Definition hist_raw_of (md : Metadata) (features : gmap string PyVal) : list float :=
  raw_at (md_feature_names md) features <$> selected_positions md.

(** The three conditions on the feature map under which the pipeline
    reaches the estimator: every selected history feature is present,
    numeric and positive; every noise feature is present and numeric;
    every other feature that is present is numeric. *)
Definition history_ok (md : Metadata) (features : gmap string PyVal) : bool :=
  forallb (fun i => is_positive features (name_at (md_feature_names md) i))
          (selected_positions md).

(** What the history validation of lines 112-125 lets through: every
    selected history feature is present, numeric and passes the check
    [v <= 0.0]. *)
Definition history_accepted (md : Metadata) (features : gmap string PyVal) : bool :=
  forallb (fun i => passes_sign_check features (name_at (md_feature_names md) i))
          (selected_positions md).

Definition noise_ok (md : Metadata) (features : gmap string PyVal) : bool :=
  forallb (fun i => is_numeric features (name_at (md_feature_names md) i))
          (noise_idx_of (md_feature_names md)).

Definition others_ok (md : Metadata) (features : gmap string PyVal) : bool :=
  forallb (fun i => let name := name_at (md_feature_names md) i in
                    negb (contains features name) || is_numeric features name)
          (other_idx_of (md_feature_names md)).

(** The entry of the input vector at index [i], by the group of the
    feature name there: a selected history feature is scaled by the base,
    a noise feature by the absolute-dB rule, a history feature beyond the
    selected ones stays 0, another feature is passed through (0 when the
    map has none). *)
Definition group_transform (md : Metadata) (features : gmap string PyVal)
    (base : float) (i : nat) : float :=
  let names := md_feature_names md in
  let name := name_at names i in
  if bool_decide (i ∈ selected_positions md)
  then hist_scaled_value (md_window_scale_mode md) base (raw_at names features i)
  else if startswith name "noise_"
  then noise_scaled (raw_at names features i) (md_vmin md) (md_vmax md)
  else if startswith name "DL_hist_" then Fin 0
  else if contains features name then raw_at names features i
  else Fin 0.

Definition expected_vector (md : Metadata) (features : gmap string PyVal)
    (base : float) : list float :=
  group_transform md features base <$> seq 0 (length (md_feature_names md)).

End Vocabulary.

(** The three messages of the history validation (lines 116-125). *)
Definition is_history_msg (m : Msg) : bool :=
  match m with
  | MsgMissingHistory _ | MsgHistNotNumeric | MsgHistNotPositive => true
  | _ => false
  end.

(** The names of the selected history features, in order, and those among
    them that the feature map lacks ([missing_hist] of the source). *)
Definition hist_names_ordered (md : Metadata) : list string :=
  name_at (md_feature_names md) <$> selected_positions md.

Definition missing_hist (md : Metadata) (features : gmap string PyVal) : list string :=
  List.filter (fun n => negb (contains features n)) (hist_names_ordered md).

(** The message of the first configuration check that fails, in the order
    of lines 84-103; [None] when all four pass. *)
Definition config_failure (md : Metadata) : option Msg :=
  if bool_decide (md_feature_names md = []) then Some MsgFeatureNamesRequired
  else if (md_window_size md <=? 0)%Z then Some MsgWindowSizePositive
  else if float_le (md_vmax md) (md_vmin md) then Some MsgNoiseBounds
  else if (length (hist_idx_of (md_feature_names md)) =? 0)%nat then Some MsgNoHistFeatures
  else None.

(** ** Fixtures of the examples *)

(** A [float] on strings that accepts none, an estimator that answers with
    the first entry of its row, and metadata with top-level keys only. *)
Definition no_str_floats : string -> option float := fun _ => None.

Definition first_entry (x : list float) : option float :=
  Some (default (Fin 0) (x !! 0%nat)).

Definition metadata_of (names : list string) (w : Z) (mode : string) : Metadata :=
  {| feature_names := Some names;
     feature_names_in := None;
     window_size := Some w;
     scaling := None;
     top_level := {| window_scale_mode := Some mode; noise_scaling := None |} |}.

(** The same without any scaling key. *)
Definition bare_metadata (names : list string) (w : Z) : Metadata :=
  {| feature_names := Some names;
     feature_names_in := None;
     window_size := Some w;
     scaling := None;
     top_level := empty_scaling |}.

Definition features_of (l : list (string * PyVal)) : gmap string PyVal := list_to_map l.

(** Three history features named as in the service's examples, under
    [window_anchor]. *)
Definition md_anchor : Metadata :=
  metadata_of ["DL_hist_t_minus_0"; "DL_hist_t_minus_1"; "DL_hist_t_minus_2"] 3
    "window_anchor".

(** Raw values 100, 200, 300 along the ascending suffixes. *)
Definition features_ascending : gmap string PyVal :=
  features_of [("DL_hist_t_minus_0", PyFloat (Fin 100)); ("DL_hist_t_minus_1", PyFloat (Fin 200));
               ("DL_hist_t_minus_2", PyFloat (Fin 300))].

(** The same values with 300 at suffix 0 and 100 at suffix 2. *)
Definition features_descending : gmap string PyVal :=
  features_of [("DL_hist_t_minus_0", PyFloat (Fin 300)); ("DL_hist_t_minus_1", PyFloat (Fin 200));
               ("DL_hist_t_minus_2", PyFloat (Fin 100))].

(** The metadata of the missing-feature scenario. *)
Definition md_two_hist : Metadata :=
  metadata_of ["noise_target"; "DL_hist_t_minus_0"; "DL_hist_t_minus_1"] 2 "window_mean".

(** One noise, one history and one other feature. *)
Definition md_mixed : Metadata :=
  metadata_of ["DL_hist_0"; "noise_a"; "extra"] 1 "window_mean".

(** One noise and one history feature. *)
Definition md_noise_hist : Metadata :=
  metadata_of ["noise_target"; "DL_hist_t_minus_0"] 1 "window_mean".

(** A feature map for [md_mixed] whose other feature is not a number. *)
Definition features_bad_extra : gmap string PyVal :=
  features_of [("DL_hist_0", PyFloat (Fin 1)); ("noise_a", PyFloat (Fin (-100)));
               ("extra", PyStr "fast")].

(** A feature map for [md_noise_hist] without the noise feature and with a
    negative history value. *)
Definition features_negative_history : gmap string PyVal :=
  features_of [("DL_hist_t_minus_0", PyFloat (Fin (-5)))].

(** Three history features for a window of two, all supplied. *)
Definition md_narrow_window : Metadata :=
  metadata_of ["DL_hist_0"; "DL_hist_1"; "DL_hist_2"] 2 "window_mean".

Definition features_three_hist : gmap string PyVal :=
  features_of [("DL_hist_0", PyFloat (Fin 3)); ("DL_hist_1", PyFloat (Fin 3));
               ("DL_hist_2", PyFloat (Fin 3))].

(** Two history features for a window of five. *)
Definition md_wide_window : Metadata :=
  metadata_of ["DL_hist_1"; "DL_hist_0"; "noise_a"] 5 "window_mean".

Definition features_two_hist : gmap string PyVal :=
  features_of [("DL_hist_0", PyFloat (Fin 2)); ("DL_hist_1", PyFloat (Fin 4));
               ("noise_a", PyFloat (Fin (-100)))].

(** A feature map for [md_two_hist] with NaN as a history value. *)
Definition features_nan_history : gmap string PyVal :=
  features_of [("noise_target", PyFloat (Fin (-100))); ("DL_hist_t_minus_0", PyFloat NaN);
               ("DL_hist_t_minus_1", PyFloat (Fin 6))].

(** Metadata without any scaling key, and a feature map for it. *)
Definition md_bare : Metadata := bare_metadata ["DL_hist_0"; "noise_a"] 1.

Definition features_bare : gmap string PyVal :=
  features_of [("DL_hist_0", PyFloat (Fin 2)); ("noise_a", PyFloat (Fin (-100)))].

(** ** The HTTP layer (routes/predict.py)

    The registry maps a tag to a model and its metadata.  A request body
    that parses is taken to be a JSON object whose ["model"] value, when
    present, is a string; ["features"] is a dictionary of values or
    something else. *)

Record Entry : Type := {
  entry_model : list float -> option float;
  entry_metadata : Metadata
}.

(** [current_app.extensions]: the registry and the default tag. *)
Record App : Type := {
  app_models : gmap string Entry;
  default_model_name : option string
}.

Inductive FeaturesField : Type :=
| FeaturesDict (d : gmap string PyVal)
| FeaturesOther.

Record Payload : Type := {
  payload_model : option string;
  payload_features : option FeaturesField
}.

(** [request.is_json] and [request.get_json(silent=True)]. *)
Record Request : Type := {
  is_json : bool;
  get_json : option Payload
}.

(** The error bodies of the two routes, one per message. *)
Inductive RouteError : Type :=
| ErrContentType                         (* "Content-Type must be application/json" *)
| ErrInvalidJson                         (* "Invalid JSON body" *)
| ErrRegistry                            (* "Model registry not initialized." *)
| ErrNoModel                             (* "No model specified and no default model configured." *)
| ErrModelNotFound (tag : string)        (* predict: f"Model '{model_tag}' not found." *)
| ErrNotFound (tag : string)             (* schema: f"Model '{model_tag}' not found" *)
| ErrNoFeatureNames (tag : string)       (* f"Model '{model_tag}' has no feature_names in metadata." *)
| ErrFeaturesField                       (* "Field 'features' must be a non-empty object ..." *)
| ErrMissingFeatures (missing : list string)  (* f"Missing required features: {missing}" *)
| ErrNotNumeric (fn : string)            (* f"All feature values must be numeric (failed at '{fn}')" *)
| ErrPredictionFailed (e : PyExc).       (* f"Prediction failed: {e}" *)

(** The body of [GET /schema]. *)
Record SchemaBody : Type := {
  schema_model_tag : string;
  schema_window_size : Z;
  schema_feature_names : list string;
  schema_example_request : Payload
}.

Inductive Body : Type :=
| JsonError (e : RouteError)
| JsonPrediction (prediction : float) (model_tag : string)
| JsonSchema (b : SchemaBody).

(** [a or b] on two optional strings: the empty string is falsy. *)
Definition py_or (a b : option string) : option string :=
  match a with
  | Some (String _ _) => a
  | _ => b
  end.

(** [not m] on a dictionary. *)
Definition dict_is_empty {A} (m : gmap string A) : bool :=
  bool_decide (size m = 0%nat).

(** [example_data] of [schema]. *)
Definition example_data : gmap string PyVal :=
  list_to_map
    [("DL_hist_t_minus_6", PyFloat (Fin 5972.43)); ("DL_hist_t_minus_5", PyFloat (Fin 5676.08));
     ("DL_hist_t_minus_4", PyFloat (Fin 6051.62)); ("DL_hist_t_minus_3", PyFloat (Fin 6071.67));
     ("DL_hist_t_minus_2", PyFloat (Fin 5784.66)); ("DL_hist_t_minus_1", PyFloat (Fin 6240.32));
     ("DL_hist_t_minus_0", PyFloat (Fin 5695.44)); ("noise_target", PyFloat (Fin (-100)));
     ("noise_other_1", PyFloat (Fin (-110)))].

(** The loop of [schema] that builds [example_features]. *)
Definition example_features (feature_names : list string) : gmap string PyVal :=
  foldl (fun acc name =>
           match example_data !! name with
           | Some v => <[name := v]> acc
           | None => <[name := PyFloat (Fin 0)]> acc
           end) ∅ feature_names.

(** [schema()]: [arg] is [request.args.get("model")]. *)
Definition schema_route (app : App) (arg : option string) : Body * Z :=
  match py_or arg (default_model_name app) with
  | Some (String c s) =>
      let model_tag := String c s in
      match app_models app !! model_tag with
      | None => (JsonError (ErrNotFound model_tag), 404%Z)
      | Some entry =>
          let metadata := entry_metadata entry in
          let feature_names := md_feature_names metadata in
          let window_size := md_window_size metadata in
          (JsonSchema {| schema_model_tag := model_tag;
                         schema_window_size := window_size;
                         schema_feature_names := feature_names;
                         schema_example_request :=
                           {| payload_model := Some model_tag;
                              payload_features :=
                                Some (FeaturesDict (example_features feature_names)) |} |},
           200%Z)
      end
  | _ => (JsonError ErrNoModel, 404%Z)
  end.

Section Routes.

Variable float_of_str : string -> option float.

(** The coercion loop of [predict]: [inl fn] when [float(features[fn])]
    raises at [fn], the dictionary of floats otherwise. *)
Fixpoint coerce_features (features : gmap string PyVal) (feature_names : list string)
    (coerced : gmap string PyVal) : string + gmap string PyVal :=
  match feature_names with
  | [] => inr coerced
  | fn :: rest =>
      match feature_float float_of_str features fn with
      | Ok f => coerce_features features rest (<[fn := PyFloat f]> coerced)
      | Raise _ => inl fn
      end
  end.

(** [predict()] *)
Definition predict_route (app : App) (req : Request) : Body * Z :=
  (* content-type / json guard *)
  if negb (is_json req) then (JsonError ErrContentType, 415%Z) else
  match get_json req with
  | None => (JsonError ErrInvalidJson, 400%Z)
  | Some payload =>
  (* model registry check *)
  let models_dct := app_models app in
  if dict_is_empty models_dct then (JsonError ErrRegistry, 500%Z) else
  (* resolve model tag *)
  match py_or (payload_model payload) (default_model_name app) with
  | Some (String c s) =>
      let model_tag := String c s in
      match models_dct !! model_tag with
      | None => (JsonError (ErrModelNotFound model_tag), 404%Z)
      | Some entry =>
          let model := entry_model entry in
          let metadata := entry_metadata entry in
          let feature_names := md_feature_names metadata in
          if bool_decide (feature_names = [])
          then (JsonError (ErrNoFeatureNames model_tag), 500%Z) else
          match payload_features payload with
          | Some (FeaturesDict features) =>
              if dict_is_empty features then (JsonError ErrFeaturesField, 400%Z) else
              let missing :=
                List.filter (fun fn => negb (contains features fn)) feature_names in
              match missing with
              | _ :: _ => (JsonError (ErrMissingFeatures missing), 400%Z)
              | [] =>
                  match coerce_features features feature_names ∅ with
                  | inl fn => (JsonError (ErrNotNumeric fn), 400%Z)
                  | inr coerced_features =>
                      match predict_with_model float_of_str model metadata
                              coerced_features with
                      | Ok result => (JsonPrediction (Res.y_pred result) model_tag, 200%Z)
                      | Raise e => (JsonError (ErrPredictionFailed e), 500%Z)
                      end
                  end
              end
          | _ => (JsonError ErrFeaturesField, 400%Z)
          end
      end
  | _ => (JsonError ErrNoModel, 400%Z)
  end
  end.

(** Two feature maps read alike at a name when membership and [float] of
    the value agree there. *)
Definition same_reading (f1 f2 : gmap string PyVal) (n : string) : Prop :=
  contains f1 n = contains f2 n
  /\ feature_float float_of_str f1 n = feature_float float_of_str f2 n.

End Routes.

(** [requested or default], kept when it is not empty. *)
Definition resolve_tag (app : App) (requested : option string) : option string :=
  match py_or requested (default_model_name app) with
  | Some (String c s) => Some (String c s)
  | _ => None
  end.


(** What [predict] has in hand once the request, the tag and the registry
    entry are resolved and ["features"] is a dictionary. *)
Definition request_context (app : App) (req : Request)
  : option (string * Entry * gmap string PyVal) :=
  if is_json req then
    payload ← get_json req;
    tag ← resolve_tag app (payload_model payload);
    entry ← app_models app !! tag;
    match payload_features payload with
    | Some (FeaturesDict d) => Some (tag, entry, d)
    | _ => None
    end
  else None.

(** The names of [feature_names] that the dictionary lacks. *)
Definition missing_features (md : Metadata) (d : gmap string PyVal) : list string :=
  List.filter (fun fn => negb (contains d fn)) (md_feature_names md).


(** The request that replays the example of a schema answer. *)
Definition example_request (b : SchemaBody) : Request :=
  {| is_json := true; get_json := Some (schema_example_request b) |}.


(** ** Fixtures of the further examples *)

(** A registry with one model, [md_mixed] served by [first_entry], which is
    also the default. *)
Definition entry_mixed : Entry :=
  {| entry_model := first_entry; entry_metadata := md_mixed |}.

Definition app_mixed : App :=
  {| app_models := {[ "mixed" := entry_mixed ]};
     default_model_name := Some "mixed" |}.

Definition request_of (d : gmap string PyVal) : Request :=
  {| is_json := true;
     get_json := Some {| payload_model := None;
                         payload_features := Some (FeaturesDict d) |} |}.

(** An estimator that answers with the entry at position [p] of its row. *)
Definition nth_entry (p : nat) (x : list float) : option float := x !! p.

(** All three features of [md_mixed], the history given as an integer. *)
Definition features_mixed : gmap string PyVal :=
  features_of [("DL_hist_0", PyInt 4); ("noise_a", PyFloat (Fin (-100)));
               ("extra", PyFloat (Fin 7))].

(** The same with an unused key. *)
Definition features_mixed_junk : gmap string PyVal :=
  <["junk" := PyNone]> features_mixed.

(** The same without the other feature. *)
Definition features_no_extra : gmap string PyVal :=
  features_of [("DL_hist_0", PyInt 4); ("noise_a", PyFloat (Fin (-100)))].

(** The metadata [md_mixed] without window scaling. *)
Definition md_none : Metadata :=
  metadata_of ["DL_hist_0"; "noise_a"; "extra"] 1 "none".

(** A history value that is not above 0. *)
Definition features_zero_history : gmap string PyVal :=
  features_of [("DL_hist_0", PyFloat (Fin 0)); ("noise_a", PyFloat (Fin (-100)));
               ("extra", PyFloat (Fin 7))].

(** A noise value that is [None]. *)
Definition features_none_noise : gmap string PyVal :=
  features_of [("DL_hist_0", PyFloat (Fin 4)); ("noise_a", PyNone)].

(** A registry whose model has the names of the example table, and one
    whose model has a history name outside it. *)
Definition entry_table : Entry :=
  {| entry_model := first_entry;
     entry_metadata :=
       metadata_of ["noise_target"; "DL_hist_t_minus_0"; "DL_hist_t_minus_1"] 2
         "window_mean" |}.

Definition app_table : App :=
  {| app_models := {[ "table" := entry_table ]}; default_model_name := Some "table" |}.

Definition entry_outside : Entry :=
  {| entry_model := first_entry;
     entry_metadata := metadata_of ["DL_hist_t_minus_0"; "DL_hist_t_minus_7"] 2
                         "window_mean" |}.

Definition app_outside : App :=
  {| app_models := {[ "outside" := entry_outside ]};
     default_model_name := Some "outside" |}.

(** The body that [schema] answers for [app_table] and for [app_outside]. *)
Definition schema_body_of (app : App) (tag : string) (md : Metadata) : SchemaBody :=
  {| schema_model_tag := tag;
     schema_window_size := md_window_size md;
     schema_feature_names := md_feature_names md;
     schema_example_request :=
       {| payload_model := Some tag;
          payload_features :=
            Some (FeaturesDict (example_features (md_feature_names md))) |} |}.

(** * Proofs *)

(** ** Comparisons and the floor *)

Lemma Qle_bool_false (a b : Q) : Qle_bool a b = false <-> (b < a)%Q.
Proof.
  split; intros H.
  - destruct (Qlt_le_dec b a) as [|Hle]; [done|].
    apply Qle_bool_iff in Hle. congruence.
  - destruct (Qle_bool a b) eqn:E; [|done].
    apply Qle_bool_iff in E. exfalso. by apply (Qlt_not_le b a).
Qed.

Lemma Qle_bool_refl (a : Q) : Qle_bool a a = true.
Proof. apply Qle_bool_iff, Qle_refl. Qed.

Lemma float_lt_irrefl (a : float) : float_lt a a = false.
Proof. destruct a; cbn; try done. by rewrite Qle_bool_refl. Qed.

Lemma float_le_not_lt (a b : float) : float_le b a = true -> float_lt a b = false.
Proof. destruct a, b; cbn; try done. by intros ->. Qed.

Lemma float_lt_not_le (a b : float) : float_lt a b = true -> float_le b a = false.
Proof. destruct a, b; cbn; try done. by intros ->%negb_true_iff. Qed.

(** A float above 0 passes the check [v <= 0.0]; so does NaN. *)
Lemma float_positive_not_le (a : float) :
  float_lt (Fin 0) a = true -> float_le a (Fin 0) = false.
Proof. apply float_lt_not_le. Qed.

Lemma py_max_keep (a b : float) : float_le b a = true -> py_max a b = a.
Proof. intros H. unfold py_max. by rewrite (float_le_not_lt _ _ H). Qed.

(** The floor: [py_max a b] is never below [b]. *)
Lemma py_max_floor (a b : float) : float_lt (py_max a b) b = false.
Proof.
  unfold py_max. destruct (float_lt a b) eqn:E; [apply float_lt_irrefl|done].
Qed.

Lemma py_max_Fin (a b : Q) :
  py_max (Fin a) (Fin b) = Fin (if Qle_bool b a then a else b).
Proof. unfold py_max. cbn. by destruct (Qle_bool b a). Qed.

Lemma py_min_Fin (a b : Q) :
  py_min (Fin a) (Fin b) = Fin (if Qle_bool a b then a else b).
Proof. unfold py_min. cbn. by destruct (Qle_bool a b). Qed.

(** Sums and means of finite numbers are the rational ones. *)
Lemma foldl_float_add_Fin (l : list Q) (a : Q) :
  foldl float_add (Fin a) (Fin <$> l) = Fin (foldl Qplus a l).
Proof. revert a. induction l as [|q l IH]; intros a; [done|]. cbn. apply IH. Qed.

Lemma np_mean_Fin (l : list Q) :
  l <> [] ->
  np_mean (Fin <$> l) = Fin (foldl Qplus 0%Q l / inject_Z (Z.of_nat (length l))).
Proof.
  intros Hl. destruct l as [|q l]; [done|]. unfold np_mean.
  change (Fin <$> q :: l) with (Fin q :: (Fin <$> l)).
  rewrite <- (length_fmap Fin (q :: l)).
  change (Fin <$> q :: l) with (Fin q :: (Fin <$> l)).
  cbn [foldl]. cbn [float_add]. by rewrite foldl_float_add_Fin.
Qed.

(** ** The index groups *)

Lemma elem_of_filter_enumerate (f : string -> bool) (names : list string) (i : nat) :
  i ∈ (List.filter (fun p => f p.2) (enumerate names)).*1
  <-> exists n, names !! i = Some n /\ f n = true.
Proof.
  rewrite list_elem_of_fmap. split.
  - intros [[j n] [-> Hin]].
    apply list_elem_of_In, filter_In in Hin as [Hin Hf].
    apply list_elem_of_In, elem_of_lookup_imap in Hin as (k & x & Heq & Hk).
    inversion Heq; subst. eauto.
  - intros (n & Hn & Hf). exists (i, n). split; [done|].
    apply list_elem_of_In, filter_In. split; [|done].
    apply list_elem_of_In, elem_of_lookup_imap. eauto.
Qed.

Lemma elem_of_hist_idx (names : list string) (i : nat) :
  i ∈ hist_idx_of names
  <-> exists n, names !! i = Some n /\ startswith n "DL_hist_" = true.
Proof. apply (elem_of_filter_enumerate (fun n => startswith n "DL_hist_")). Qed.

Lemma elem_of_noise_idx (names : list string) (i : nat) :
  i ∈ noise_idx_of names
  <-> exists n, names !! i = Some n /\ startswith n "noise_" = true.
Proof. apply (elem_of_filter_enumerate (fun n => startswith n "noise_")). Qed.

Lemma elem_of_other_idx (names : list string) (i : nat) :
  i ∈ other_idx_of names
  <-> ((i < length names)%nat /\ (i ∉ hist_idx_of names) /\ (i ∉ noise_idx_of names)).
Proof.
  unfold other_idx_of, split_indices. cbn [snd].
  rewrite list_elem_of_In, filter_In, in_seq, bool_decide_eq_true.
  rewrite elem_of_list_to_set, elem_of_app.
  unfold hist_idx_of, noise_idx_of, split_indices. cbn [fst snd].
  split; intros H; [|split; [lia|]]; tauto.
Qed.

Lemma prefixes_exclusive (n : string) :
  startswith n "DL_hist_" = true -> startswith n "noise_" = false.
Proof.
  destruct n as [|c n]; [done|]. unfold startswith. cbn [String.prefix].
  destruct (ascii_dec "D" c) as [<-|]; [|done]. intros _.
  by destruct (ascii_dec "n" "D").
Qed.

(** The three groups partition the indices of [names]. *)
Lemma split_indices_partition (names : list string) (i : nat) :
  (i < length names)%nat ->
  (i ∈ hist_idx_of names /\ (i ∉ noise_idx_of names) /\ (i ∉ other_idx_of names))
  \/ ((i ∉ hist_idx_of names) /\ i ∈ noise_idx_of names /\ (i ∉ other_idx_of names))
  \/ ((i ∉ hist_idx_of names) /\ (i ∉ noise_idx_of names) /\ i ∈ other_idx_of names).
Proof.
  intros Hi. rewrite elem_of_other_idx.
  destruct (decide (i ∈ hist_idx_of names)) as [Hh|Hh].
  - left. split; [done|]. split; [|tauto].
    apply elem_of_hist_idx in Hh as (n & Hn & Hp).
    rewrite elem_of_noise_idx. intros (n' & Hn' & Hp').
    rewrite Hn in Hn'. injection Hn' as <-.
    apply prefixes_exclusive in Hp. congruence.
  - destruct (decide (i ∈ noise_idx_of names)); [right; left|right; right]; tauto.
Qed.

Lemma hist_idx_lt (names : list string) (i : nat) :
  i ∈ hist_idx_of names -> (i < length names)%nat.
Proof. intros (n & Hn & _)%elem_of_hist_idx. by eapply lookup_lt_Some. Qed.

Lemma noise_idx_lt (names : list string) (i : nat) :
  i ∈ noise_idx_of names -> (i < length names)%nat.
Proof. intros (n & Hn & _)%elem_of_noise_idx. by eapply lookup_lt_Some. Qed.

(** ** The [result] monad *)

Lemma result_bind_ok {A B} (f : A -> result B) (a : A) : (Ok a ≫= f) = f a.
Proof. done. Qed.

Lemma result_bind_raise {A B} (f : A -> result B) (e : PyExc) :
  (Raise e ≫= f) = Raise e.
Proof. done. Qed.

Lemma mapM_result_ok {A B} (f : A -> result B) (g : A -> B) (l : list A) :
  (forall a, a ∈ l -> f a = Ok (g a)) -> mapM f l = Ok (g <$> l).
Proof.
  induction l as [|a l IH]; intros H; [done|]. cbn.
  rewrite (H a) by left. cbn. rewrite IH; [done|].
  intros b Hb. apply H. by right.
Qed.

Lemma mapM_getitem (names : list string) (idxs : list nat) :
  (forall i, i ∈ idxs -> (i < length names)%nat) ->
  mapM (getitem names) idxs = Ok (name_at names <$> idxs).
Proof.
  intros H. apply mapM_result_ok. intros i Hi. unfold getitem, name_at.
  destruct (lookup_lt_is_Some_2 names i (H i Hi)) as [n ->]. done.
Qed.

(** ** The stable sort *)

Lemma insert_by_key_perm {A} (x : Z * A) (l : list (Z * A)) :
  insert_by_key x l ≡ₚ x :: l.
Proof.
  induction l as [|y l IH]; [done|]. cbn.
  destruct (x.1 <=? y.1)%Z; [done|]. rewrite IH. apply Permutation_swap.
Qed.

Lemma insertion_sort_perm {A} (l : list (Z * A)) :
  foldr insert_by_key [] l ≡ₚ l.
Proof.
  induction l as [|x l IH]; [done|]. cbn.
  by rewrite insert_by_key_perm, IH.
Qed.

Lemma insert_by_key_sorted {A} (x : Z * A) (l : list (Z * A)) :
  StronglySorted (fun a b => (a.1 <= b.1)%Z) l ->
  StronglySorted (fun a b => (a.1 <= b.1)%Z) (insert_by_key x l).
Proof.
  induction 1 as [|y l Hs IH Hall]; cbn.
  - constructor; [constructor|done].
  - destruct (Z.leb_spec x.1 y.1) as [Hle|Hlt].
    + constructor; [by constructor|]. constructor; [done|].
      eapply Forall_impl; [exact Hall|]. cbn. intros; lia.
    + constructor; [done|]. rewrite insert_by_key_perm.
      constructor; [lia|done].
Qed.

Lemma insertion_sort_sorted {A} (l : list (Z * A)) :
  StronglySorted (fun a b => (a.1 <= b.1)%Z) (foldr insert_by_key [] l).
Proof.
  induction l as [|x l IH]; cbn; [constructor|]. by apply insert_by_key_sorted.
Qed.

Lemma StronglySorted_impl_elem {A} (R R' : A -> A -> Prop) (l : list A) :
  (forall a b, a ∈ l -> b ∈ l -> R a b -> R' a b) ->
  StronglySorted R l -> StronglySorted R' l.
Proof.
  intros H Hs. induction Hs as [|a l Hs IH Hall]; [constructor|].
  constructor.
  - apply IH. intros. apply H; [by right|by right|done].
  - apply Forall_forall. intros b Hb. apply H; [left|by right|].
    by eapply (proj1 (Forall_forall _ _) Hall).
Qed.

(** In a sorted list the last item is above every item. *)
Lemma StronglySorted_last {A} (R : A -> A -> Prop) (l : list A) (z a : A) :
  R z z -> StronglySorted R l -> last l = Some z -> a ∈ l -> R a z.
Proof.
  intros Hrefl Hs Hlast Ha. apply last_Some in Hlast as [l' ->].
  apply elem_of_app in Ha as [Ha|Ha%list_elem_of_singleton]; [|by subst].
  induction l' as [|b l' IH]; [by apply elem_of_nil in Ha|].
  cbn in Hs. apply StronglySorted_inv in Hs as [Hs Hall].
  apply elem_of_cons in Ha as [->|Ha]; [|by apply IH].
  apply (proj1 (Forall_forall _ _) Hall). apply elem_of_app. right. left.
Qed.

(** ** [order_hist_positions] *)

Lemma fmap_lookup_seq (idxs : list nat) :
  (fun k => default 0%nat (idxs !! k)) <$> seq 0 (length idxs) = idxs.
Proof.
  apply list_eq. intros i. rewrite list_lookup_fmap.
  destruct (idxs !! i) as [x|] eqn:E.
  - rewrite lookup_seq_lt by (by eapply lookup_lt_Some). cbn. by rewrite E.
  - rewrite lookup_seq_ge; [done|]. by apply lookup_ge_None.
Qed.

(** With every index in range, the function is the match on the parsed
    keys: the sorted order when all parse, the given order otherwise. *)
Lemma order_hist_positions_eq (names : list string) (idxs : list nat) :
  (forall i, i ∈ idxs -> (i < length names)%nat) ->
  order_hist_positions names idxs =
    match mapM hist_key (name_at names <$> idxs) with
    | Some keys =>
        Ok ((fun k => default 0%nat (idxs !! k))
              <$> sorted_by_key (zip keys (seq 0 (length idxs))))
    | None => Ok idxs
    end.
Proof.
  intros H. unfold order_hist_positions. rewrite (mapM_getitem _ _ H).
  destruct idxs; [|done]. done.
Qed.

Lemma keys_of_mapM (names : list string) (idxs : list nat) (keys : list Z) :
  mapM hist_key (name_at names <$> idxs) = Some keys ->
  Forall2 (fun i z => key_at names i = Some z) idxs keys.
Proof. intros H%mapM_Some. by apply Forall2_fmap_l in H. Qed.

Lemma order_hist_positions_perm (names : list string) (idxs : list nat) :
  (forall i, i ∈ idxs -> (i < length names)%nat) ->
  exists l, order_hist_positions names idxs = Ok l /\ l ≡ₚ idxs.
Proof.
  intros H. rewrite (order_hist_positions_eq _ _ H).
  destruct (mapM hist_key _) as [keys|] eqn:E; [|by eexists].
  eexists. split; [done|].
  apply keys_of_mapM, Forall2_length in E.
  unfold sorted_by_key. rewrite insertion_sort_perm.
  rewrite snd_zip by (rewrite length_seq; lia).
  by rewrite fmap_lookup_seq.
Qed.

Lemma order_hist_positions_fallback (names : list string) (idxs : list nat) :
  (forall i, i ∈ idxs -> (i < length names)%nat) ->
  Exists (fun i => key_at names i = None) idxs ->
  order_hist_positions names idxs = Ok idxs.
Proof.
  intros H Hex. rewrite (order_hist_positions_eq _ _ H).
  assert (mapM hist_key (name_at names <$> idxs) = None) as ->; [|done].
  apply mapM_None. by apply Exists_fmap.
Qed.

Lemma sorted_pair_key (names : list string) (idxs : list nat) (keys : list Z)
    (p : Z * nat) :
  Forall2 (fun i z => key_at names i = Some z) idxs keys ->
  p ∈ foldr insert_by_key [] (zip keys (seq 0 (length idxs))) ->
  key_at names (default 0%nat (idxs !! p.2)) = Some p.1.
Proof.
  intros HF Hp. rewrite insertion_sort_perm in Hp.
  apply list_elem_of_lookup in Hp as [k Hk]. destruct p as [z j].
  apply lookup_zip_Some in Hk as [Hz Hj].
  apply lookup_seq in Hj as [-> Hlt]. cbn.
  destruct (Forall2_lookup_r _ _ _ _ _ HF Hz) as (i & Hi & Hkey).
  by rewrite Hi.
Qed.

Lemma order_hist_positions_sorted (names : list string) (idxs l : list nat) :
  (forall i, i ∈ idxs -> (i < length names)%nat) ->
  Forall (fun i => is_Some (key_at names i)) idxs ->
  order_hist_positions names idxs = Ok l ->
  StronglySorted (key_le names) l.
Proof.
  intros H Hall. rewrite (order_hist_positions_eq _ _ H).
  destruct (mapM hist_key _) as [keys|] eqn:E.
  - intros [= <-]. apply keys_of_mapM in E.
    unfold sorted_by_key. rewrite <- list_fmap_compose.
    eapply StronglySorted_fmap; [intros x y Hxy; exact Hxy|].
    eapply StronglySorted_impl_elem; [|apply insertion_sort_sorted].
    intros p q Hp Hq Hle. unfold key_le, compose.
    by rewrite (sorted_pair_key _ _ _ _ E Hp), (sorted_pair_key _ _ _ _ E Hq).
  - apply mapM_None, Exists_fmap, Exists_exists in E as (i & Hi & Hnone).
    apply (proj1 (Forall_forall _ _) Hall) in Hi as [z Hz].
    unfold key_at in Hz. cbn in Hnone. congruence.
Qed.

(** ** Loops that assign vector entries *)

Lemma setitem_ok {A} (l : list A) (i : nat) (v : A) :
  (i < length l)%nat -> setitem l i v = Ok (<[i := v]> l).
Proof. intros H. unfold setitem. by rewrite bool_decide_eq_true_2. Qed.

(** A loop whose body at [pos] either stores [g pos] at [pos] or leaves
    the vector alone ends with exactly these stores done. *)
Lemma for_each_assign (idxs : list nat) (assigns : nat -> bool) (g : nat -> float)
    (body : list float -> nat -> result (list float)) (x : list float) :
  (forall pos, pos ∈ idxs -> (pos < length x)%nat) ->
  (forall pos x', pos ∈ idxs -> length x' = length x ->
     body x' pos = if assigns pos then setitem x' pos (g pos) else Ok x') ->
  exists x', for_each idxs body x = Ok x' /\ length x' = length x
    /\ (forall i, i ∈ idxs -> assigns i = true -> x' !! i = Some (g i))
    /\ (forall i, (i ∉ idxs) \/ assigns i = false -> x' !! i = x !! i).
Proof.
  revert x. induction idxs as [|a idxs IH]; intros x Hlt Hbody.
  - exists x. split; [done|]. split; [done|]. split; [|done].
    intros i Hi. by apply elem_of_nil in Hi.
  - cbn. rewrite (Hbody a x) by (done || left).
    assert (a < length x)%nat as Ha by (apply Hlt; left).
    set (x1 := if assigns a then <[a := g a]> x else x).
    assert (length x1 = length x) as Hlen1.
    { unfold x1. destruct (assigns a); [apply length_insert|done]. }
    assert ((if assigns a then setitem x a (g a) else Ok x) = Ok x1) as ->.
    { unfold x1. destruct (assigns a); [by apply setitem_ok|done]. }
    cbn. destruct (IH x1) as (x' & Hrun & Hlen & Hset & Hkeep).
    { intros pos Hpos. rewrite Hlen1. apply Hlt. by right. }
    { intros pos x' Hpos Hx'. apply Hbody; [by right|congruence]. }
    exists x'. split; [done|]. split; [congruence|]. split.
    + intros i Hi Hass. destruct (decide (i ∈ idxs)) as [Hin|Hnin].
      * by apply Hset.
      * apply elem_of_cons in Hi as [->|]; [|done].
        rewrite Hkeep by (by left). unfold x1. rewrite Hass.
        by apply list_lookup_insert_eq.
    + intros i Hi. rewrite Hkeep.
      * unfold x1. destruct (assigns a) eqn:Hass; [|done].
        apply list_lookup_insert_ne. intros ->.
        destruct Hi as [Hi|Hi]; [apply Hi; left|congruence].
      * destruct Hi as [Hi|Hi]; [left|by right].
        intros Hin. apply Hi. by right.
Qed.

Lemma for_each_zip_fmap (l : list nat) (g : nat -> float) (x : list float) :
  for_each (zip l (g <$> l)) (fun x pv => setitem x pv.1 pv.2) x
  = for_each l (fun x pos => setitem x pos (g pos)) x.
Proof.
  revert x. induction l as [|a l IH]; intros x; [done|]. cbn.
  destruct (setitem x a (g a)); [|done]. cbn. apply IH.
Qed.

Lemma mapM_result_raise {A B} (f : A -> result B) (l : list A) (e : PyExc) :
  mapM f l = Raise e -> exists a, a ∈ l /\ f a = Raise e.
Proof.
  induction l as [|a l IH]; [done|]. cbn.
  destruct (f a) as [b|e'] eqn:E; cbn.
  - destruct (mapM f l) as [k|e'']; [done|]. cbn. intros [= ->].
    destruct IH as (a' & Ha' & Hf); [done|]. exists a'. split; [by right|done].
  - intros [= ->]. exists a. split; [left|done].
Qed.

(** ** The selected history positions *)

Lemma select_hist_positions_ok (names : list string) (w : Z) :
  exists ord,
    order_hist_positions names (hist_idx_of names) = Ok ord
    /\ ord ≡ₚ hist_idx_of names
    /\ select_hist_positions names (hist_idx_of names) w
       = Ok (if negb (Z.of_nat (length (hist_idx_of names)) =? w)%Z
             then take (Z.to_nat w) ord else ord).
Proof.
  destruct (order_hist_positions_perm names (hist_idx_of names))
    as (ord & Hord & Hperm); [apply hist_idx_lt|].
  exists ord. split; [done|]. split; [done|].
  unfold select_hist_positions. rewrite Hord. by destruct (negb _).
Qed.

Lemma selected_positions_eq (md : Metadata) :
  select_hist_positions (md_feature_names md) (hist_idx_of (md_feature_names md))
    (md_window_size md) = Ok (selected_positions md).
Proof.
  unfold selected_positions.
  destruct (select_hist_positions_ok (md_feature_names md) (md_window_size md))
    as (ord & _ & _ & ->). done.
Qed.

Lemma selected_positions_hist (md : Metadata) (i : nat) :
  i ∈ selected_positions md -> i ∈ hist_idx_of (md_feature_names md).
Proof.
  unfold selected_positions.
  destruct (select_hist_positions_ok (md_feature_names md) (md_window_size md))
    as (ord & _ & Hperm & ->).
  intros Hi. rewrite <- Hperm. destruct (negb _); [|done].
  by eapply subseteq_take.
Qed.

Lemma selected_positions_lt (md : Metadata) (i : nat) :
  i ∈ selected_positions md -> (i < length (md_feature_names md))%nat.
Proof. intros H. by apply hist_idx_lt, selected_positions_hist. Qed.

Lemma passes_config_checks_inv (md : Metadata) :
  passes_config_checks md = true ->
  md_feature_names md <> [] /\ (0 < md_window_size md)%Z
  /\ float_le (md_vmax md) (md_vmin md) = false
  /\ hist_idx_of (md_feature_names md) <> [].
Proof.
  unfold passes_config_checks. rewrite !andb_true_iff, !negb_true_iff.
  intros [[[H1 H2] H3] H4]. split; [by apply bool_decide_eq_false in H1|].
  split; [by apply Z.leb_gt|]. split; [done|].
  apply Nat.eqb_neq in H4. intros E. by rewrite E in H4.
Qed.

Lemma selected_positions_nonempty (md : Metadata) :
  passes_config_checks md = true -> selected_positions md <> [].
Proof.
  intros (_ & Hw & _ & Hh)%passes_config_checks_inv.
  unfold selected_positions.
  destruct (select_hist_positions_ok (md_feature_names md) (md_window_size md))
    as (ord & _ & Hperm & ->).
  assert (ord <> []) as Hord.
  { intros ->. by apply Permutation_nil_l in Hperm. }
  destruct (negb _); [|done].
  destruct ord as [|a ord]; [done|].
  destruct (Z.to_nat (md_window_size md)) eqn:E; [lia|done].
Qed.

(** When the history features are no more than [window_size], all of them
    are selected, in the order [order_hist_positions] gives. *)
Lemma selected_positions_all (md : Metadata) :
  (Z.of_nat (length (hist_idx_of (md_feature_names md))) <= md_window_size md)%Z ->
  order_hist_positions (md_feature_names md) (hist_idx_of (md_feature_names md))
  = Ok (selected_positions md).
Proof.
  intros Hle. unfold selected_positions.
  destruct (select_hist_positions_ok (md_feature_names md) (md_window_size md))
    as (ord & Hord & Hperm & ->).
  rewrite Hord. destruct (negb _); [|done].
  rewrite take_ge; [done|]. rewrite Hperm. lia.
Qed.

(** ** Collecting the raw history *)

Section PipelineFacts.

Variable float_of_str : string -> option float.

Lemma feature_float_contains (features : gmap string PyVal) (name : string) (f : float) :
  feature_float float_of_str features name = Ok f -> contains features name = true.
Proof.
  unfold feature_float, get_feature, contains.
  destruct (features !! name) eqn:E; [|done]. intros _.
  by apply bool_decide_eq_true_2.
Qed.

Lemma feature_float_no_key_error (features : gmap string PyVal) (name : string)
    (m : Msg) :
  contains features name = true ->
  feature_float float_of_str features name <> Raise (KeyError m).
Proof.
  unfold feature_float, get_feature, contains.
  intros [v ->]%bool_decide_eq_true. cbn.
  destruct v; cbn; try done.
  - by destruct (_ <? _)%Z.
  - by destruct (float_of_str s).
Qed.

Lemma is_numeric_raw_at (names : list string) (features : gmap string PyVal) (i : nat) :
  is_numeric float_of_str features (name_at names i) = true ->
  feature_float float_of_str features (name_at names i)
  = Ok (raw_at float_of_str names features i).
Proof. unfold is_numeric, raw_at. by destruct (feature_float _ _ _). Qed.

Lemma passes_sign_check_numeric (features : gmap string PyVal) (name : string) :
  passes_sign_check float_of_str features name = true ->
  is_numeric float_of_str features name = true.
Proof. unfold passes_sign_check, is_numeric. by destruct (feature_float _ _ _). Qed.

Lemma passes_sign_check_raw_at (names : list string) (features : gmap string PyVal)
    (i : nat) :
  passes_sign_check float_of_str features (name_at names i) = true ->
  float_le (raw_at float_of_str names features i) (Fin 0) = false.
Proof.
  unfold passes_sign_check, raw_at. destruct (feature_float _ _ _); [|done].
  by intros ?%negb_true_iff.
Qed.

Lemma is_positive_passes (features : gmap string PyVal) (name : string) :
  is_positive float_of_str features name = true ->
  passes_sign_check float_of_str features name = true.
Proof.
  unfold is_positive, passes_sign_check. destruct (feature_float _ _ _); [|done].
  intros H. by rewrite (float_positive_not_le _ H).
Qed.

(** A positive history is an accepted one. *)
Lemma history_ok_accepted (md : Metadata) (features : gmap string PyVal) :
  history_ok float_of_str md features = true ->
  history_accepted float_of_str md features = true.
Proof.
  unfold history_ok, history_accepted. rewrite !forallb_forall.
  intros H i Hi. by apply is_positive_passes, H.
Qed.

(** With the positions in range, the [try] block is a case analysis: a
    missing name first, a value that does not convert second. *)
Lemma collect_history_eq (names : list string) (features : gmap string PyVal)
    (sel : list nat) :
  (forall i, i ∈ sel -> (i < length names)%nat) ->
  collect_history float_of_str names features sel =
    match List.filter (fun n => negb (contains features n)) (name_at names <$> sel) with
    | (_ :: _) as missing => Raise (ValueError (MsgMissingHistory missing))
    | [] =>
        match mapM (feature_float float_of_str features) (name_at names <$> sel) with
        | Ok r => Ok r
        | Raise _ => Raise (ValueError MsgHistNotNumeric)
        end
    end.
Proof.
  intros Hlt. unfold collect_history. rewrite (mapM_getitem _ _ Hlt). cbn.
  destruct (List.filter _ _) as [|n miss] eqn:Hmiss; [|done].
  destruct (mapM _ _) as [r|e] eqn:E; [done|]. cbn.
  destruct e; try done.
  apply mapM_result_raise in E as (a & Ha & Hf). exfalso.
  eapply feature_float_no_key_error; [|exact Hf].
  destruct (contains features a) eqn:Hc; [done|].
  assert (In a (List.filter (fun n => negb (contains features n))
                  (name_at names <$> sel))) as Hin.
  { apply filter_In. split; [by apply list_elem_of_In|by rewrite Hc]. }
  by rewrite Hmiss in Hin.
Qed.

Lemma collect_history_ok (names : list string) (features : gmap string PyVal)
    (sel : list nat) :
  (forall i, i ∈ sel -> (i < length names)%nat) ->
  forallb (fun i => is_numeric float_of_str features (name_at names i)) sel = true ->
  collect_history float_of_str names features sel
  = Ok (raw_at float_of_str names features <$> sel).
Proof.
  intros Hlt Hnum. rewrite (collect_history_eq _ _ _ Hlt).
  rewrite forallb_forall in Hnum.
  assert (List.filter (fun n => negb (contains features n)) (name_at names <$> sel)
          = []) as ->.
  { destruct (List.filter _ _) as [|n miss] eqn:Hmiss; [done|]. exfalso.
    assert (In n (n :: miss)) as Hin by (by left). rewrite <- Hmiss in Hin.
    apply filter_In in Hin as [Hin Hc].
    apply list_elem_of_In, list_elem_of_fmap in Hin as (i & -> & Hi).
    apply list_elem_of_In, Hnum in Hi. unfold is_numeric in Hi.
    destruct (feature_float _ _ _) as [f|] eqn:E; [|done].
    apply feature_float_contains in E. by rewrite E in Hc. }
  assert (mapM (feature_float float_of_str features) (name_at names <$> sel)
          = Ok (raw_at float_of_str names features <$> sel)) as ->; [|done].
  clear Hlt. induction sel as [|i sel IH]; [done|]. cbn.
  rewrite is_numeric_raw_at by (apply Hnum; by left). cbn.
  rewrite IH; [done|]. intros j Hj. apply Hnum. by right.
Qed.

(** ** Filling the vector *)

(** A divisor that is not below the floor is not zero. *)
Lemma py_div_ok (a b : float) :
  float_lt b (Fin 1e-8) = false -> py_div a b = Ok (float_div a b).
Proof.
  intros H. unfold py_div. destruct b as [q| | |]; try done.
  destruct (Qeq_bool q 0) eqn:E; [|done]. exfalso.
  apply Qeq_bool_eq in E. cbn in H. apply negb_false_iff, Qle_bool_iff in H.
  rewrite E in H. by apply Qle_not_lt in H.
Qed.

(** The difference of two bounds that pass the check [vmax <= vmin] is
    not zero. *)
Lemma py_div_bounds (a vmin vmax : float) :
  float_le vmax vmin = false ->
  py_div a (float_sub vmax vmin) = Ok (float_div a (float_sub vmax vmin)).
Proof.
  intros H. unfold py_div. destruct vmax as [p| | |], vmin as [q| | |]; try done.
  cbn in *. destruct (Qeq_bool (p - q) 0) eqn:E; [|done]. exfalso.
  apply Qeq_bool_eq in E. apply Qle_bool_false in H. lra.
Qed.

Lemma scale_noise_abs_db_ok (v vmin vmax : float) :
  float_le vmax vmin = false ->
  scale_noise_abs_db v vmin vmax = Ok (noise_scaled v vmin vmax).
Proof. intros H. unfold scale_noise_abs_db. by rewrite py_div_bounds. Qed.

Lemma noise_step_ok (names : list string) (features : gmap string PyVal)
    (vmin vmax : float) (x : list float) (pos : nat) :
  (pos < length names)%nat ->
  is_numeric float_of_str features (name_at names pos) = true ->
  float_le vmax vmin = false ->
  noise_step float_of_str names features vmin vmax x pos
  = setitem x pos (noise_scaled (raw_at float_of_str names features pos) vmin vmax).
Proof.
  intros Hpos Hnum Hlt. pose proof (is_numeric_raw_at _ _ _ Hnum) as Hraw.
  pose proof (feature_float_contains _ _ _ Hraw) as Hc.
  unfold noise_step, getitem.
  destruct (lookup_lt_is_Some_2 names pos Hpos) as [n Hn].
  assert (name_at names pos = n) as Hna by (unfold name_at; by rewrite Hn).
  rewrite Hna in Hraw, Hc. rewrite Hn. cbn. rewrite Hc, Hraw. cbn.
  by rewrite scale_noise_abs_db_ok.
Qed.

Lemma other_step_ok (names : list string) (features : gmap string PyVal)
    (x : list float) (pos : nat) :
  (pos < length names)%nat -> (pos < length x)%nat ->
  (contains features (name_at names pos) = true ->
   is_numeric float_of_str features (name_at names pos) = true) ->
  other_step float_of_str names features x pos
  = if contains features (name_at names pos)
    then setitem x pos (raw_at float_of_str names features pos) else Ok x.
Proof.
  intros Hpos Hx Hnum. unfold other_step, getitem.
  pose proof (is_numeric_raw_at names features pos) as Hraw.
  destruct (lookup_lt_is_Some_2 names pos Hpos) as [n Hn].
  assert (name_at names pos = n) as Hna by (unfold name_at; by rewrite Hn).
  rewrite Hna in Hraw, Hnum |- *. rewrite Hn. cbn.
  destruct (contains features n); [|done].
  rewrite Hraw by auto. cbn. by rewrite setitem_ok.
Qed.

Lemma hist_scaled_ok (md : Metadata) (features : gmap string PyVal) (base : float) :
  float_lt base (Fin 1e-8) = false ->
  (if String.eqb (md_window_scale_mode md) "none"
   then Ok (hist_raw_of float_of_str md features)
   else mapM (fun v => py_div v base) (hist_raw_of float_of_str md features))
  = Ok ((fun i => hist_scaled_value (md_window_scale_mode md) base
                    (raw_at float_of_str (md_feature_names md) features i))
          <$> selected_positions md).
Proof.
  intros Hb. unfold hist_raw_of, hist_scaled_value.
  destruct (String.eqb _ _); [done|].
  rewrite (mapM_result_ok _ (fun v => float_div v base)).
  - by rewrite <- list_fmap_compose.
  - intros a _. by apply py_div_ok.
Qed.

(** Under the three conditions on the feature map the vector is filled
    entry by entry as [group_transform] says. *)
Lemma build_vector_ok (md : Metadata) (features : gmap string PyVal) (base : float) :
  passes_config_checks md = true ->
  noise_ok float_of_str md features = true ->
  others_ok float_of_str md features = true ->
  float_lt base (Fin 1e-8) = false ->
  build_vector float_of_str (md_feature_names md) features
    (md_window_scale_mode md) (md_vmin md) (md_vmax md)
    (selected_positions md) (noise_idx_of (md_feature_names md))
    (other_idx_of (md_feature_names md))
    (hist_raw_of float_of_str md features) base
  = Ok (expected_vector float_of_str md features base).
Proof.
  intros Hcfg Hn Ho Hb.
  apply passes_config_checks_inv in Hcfg as (_ & _ & Hv & _).
  unfold noise_ok in Hn. unfold others_ok in Ho.
  rewrite forallb_forall in Hn, Ho.
  unfold build_vector. rewrite (hist_scaled_ok _ _ _ Hb), result_bind_ok.
  set (g1 := fun i => hist_scaled_value (md_window_scale_mode md) base
                        (raw_at float_of_str (md_feature_names md) features i)).
  rewrite for_each_zip_fmap.
  set (x0 := replicate (length (md_feature_names md)) (Fin 0)).
  assert (length x0 = length (md_feature_names md)) as Hl0 by apply length_replicate.
  destruct (for_each_assign (selected_positions md) (fun _ => true) g1
              (fun x pos => setitem x pos (g1 pos)) x0)
    as (x1 & -> & Hl1 & Hs1 & Hk1).
  { intros pos Hpos. rewrite Hl0. by apply selected_positions_lt. }
  { done. }
  rewrite result_bind_ok.
  set (g2 := fun i => noise_scaled (raw_at float_of_str (md_feature_names md) features i)
                        (md_vmin md) (md_vmax md)).
  destruct (for_each_assign (noise_idx_of (md_feature_names md)) (fun _ => true) g2
              (noise_step float_of_str (md_feature_names md) features (md_vmin md) (md_vmax md)) x1)
    as (x2 & -> & Hl2 & Hs2 & Hk2).
  { intros pos Hpos. rewrite Hl1, Hl0. by apply noise_idx_lt. }
  { intros pos x' Hpos _. apply noise_step_ok; [by apply noise_idx_lt| |done].
    by apply Hn, list_elem_of_In. }
  rewrite result_bind_ok.
  destruct (for_each_assign (other_idx_of (md_feature_names md))
              (fun i => contains features (name_at (md_feature_names md) i))
              (raw_at float_of_str (md_feature_names md) features)
              (other_step float_of_str (md_feature_names md) features) x2)
    as (x3 & -> & Hl3 & Hs3 & Hk3).
  { intros pos Hpos. rewrite Hl2, Hl1, Hl0. by apply elem_of_other_idx in Hpos as []. }
  { intros pos x' Hpos Hx'.
    assert (pos < length (md_feature_names md))%nat as Hlt by (by apply elem_of_other_idx in Hpos as []).
    apply other_step_ok; [done|rewrite Hx', Hl2, Hl1, Hl0; done|].
    intros Hc. apply list_elem_of_In, Ho in Hpos. cbn in Hpos.
    rewrite Hc in Hpos. done. }
  f_equal. apply list_eq. intros i. unfold expected_vector.
  rewrite list_lookup_fmap.
  destruct (decide (i < length (md_feature_names md))%nat) as [Hi|Hi].
  2: { rewrite lookup_seq_ge by lia. cbn. apply lookup_ge_None. lia. }
  rewrite lookup_seq_lt by done. cbn. unfold group_transform.
  assert (x0 !! i = Some (Fin 0)) as Hx0 by (by apply lookup_replicate_2).
  destruct (split_indices_partition (md_feature_names md) i Hi)
    as [(Hin & Hnn & Hno)|[(Hnh & Hin & Hno)|(Hnh & Hnn & Hio)]].
  - (* a history feature *)
    rewrite (Hk3 i) by (by left). rewrite (Hk2 i) by (by left).
    pose proof Hin as (n & Hname & Hp)%elem_of_hist_idx.
    assert (name_at (md_feature_names md) i = n) as -> by (unfold name_at; by rewrite Hname).
    rewrite (prefixes_exclusive _ Hp), Hp.
    case_bool_decide as Hsel.
    + by rewrite (Hs1 i Hsel).
    + rewrite (Hk1 i) by (by left). done.
  - (* a noise feature *)
    rewrite (Hk3 i) by (by left). rewrite (Hs2 i) by done.
    pose proof Hin as (n & Hname & Hp)%elem_of_noise_idx.
    assert (name_at (md_feature_names md) i = n) as -> by (unfold name_at; by rewrite Hname).
    rewrite Hp. rewrite bool_decide_eq_false_2; [done|].
    intros Hsel. by apply Hnh, selected_positions_hist.
  - (* another feature *)
    rewrite bool_decide_eq_false_2
      by (intros Hsel; by apply Hnh, selected_positions_hist).
    destruct (lookup_lt_is_Some_2 (md_feature_names md) i Hi) as [n Hname].
    assert (startswith n "noise_" = false) as Hp1.
    { destruct (startswith n "noise_") eqn:E; [|done]. exfalso.
      apply Hnn, elem_of_noise_idx. eauto. }
    assert (startswith n "DL_hist_" = false) as Hp2.
    { destruct (startswith n "DL_hist_") eqn:E; [|done]. exfalso.
      apply Hnh, elem_of_hist_idx. eauto. }
    assert (name_at (md_feature_names md) i = n) as Hna by (unfold name_at; by rewrite Hname).
    rewrite Hna, Hp1, Hp2.
    destruct (contains features n) eqn:Hc.
    + rewrite (Hs3 i); [done|done|by rewrite Hna].
    + rewrite (Hk3 i) by (right; by rewrite Hna).
      rewrite (Hk2 i) by (by left). rewrite (Hk1 i) by (left;
        intros Hsel; by apply Hnh, selected_positions_hist). done.
Qed.

(** ** The window base *)

Lemma compute_window_base_floor (l : list float) (mode : string) (b : float) :
  compute_window_base l mode = Ok b -> float_lt b (Fin 1e-8) = false.
Proof.
  unfold compute_window_base.
  destruct (if String.eqb mode "window_mean" then _ else _) as [b0|]; [|done].
  rewrite result_bind_ok. intros [= <-]. apply py_max_floor.
Qed.

Lemma compute_window_base_unknown (l : list float) (mode : string) :
  recognised_mode mode = false ->
  compute_window_base l mode = Raise (ValueError (MsgUnknownMode mode)).
Proof.
  unfold recognised_mode, compute_window_base.
  rewrite !orb_false_iff. by intros [[-> ->] ->].
Qed.

Lemma compute_window_base_recognised (l : list float) (mode : string) :
  l <> [] -> recognised_mode mode = true ->
  exists b, compute_window_base l mode = Ok b.
Proof.
  intros Hl Hm. unfold compute_window_base.
  destruct (String.eqb mode "window_mean") eqn:E1.
  { eexists. reflexivity. }
  destruct (String.eqb mode "window_anchor") eqn:E2.
  { unfold last_item. destruct (last l) eqn:E; [eexists; reflexivity|].
    by apply last_None in E. }
  destruct (String.eqb mode "none") eqn:E3; [eexists; reflexivity|].
  unfold recognised_mode in Hm. by rewrite E1, E2, E3 in Hm.
Qed.

(** ** The pipeline after the configuration checks *)

Lemma predict_with_model_checked (model : list float -> option float) (md : Metadata)
    (features : gmap string PyVal) :
  passes_config_checks md = true ->
  predict_with_model float_of_str model md features =
    (hist_raw ← collect_history float_of_str (md_feature_names md) features
                  (selected_positions md);
     if existsb (fun v => float_le v (Fin 0)) hist_raw
     then Raise (ValueError MsgHistNotPositive) else
     base ← compute_window_base hist_raw (md_window_scale_mode md);
     x ← build_vector float_of_str (md_feature_names md) features
           (md_window_scale_mode md) (md_vmin md) (md_vmax md)
           (selected_positions md) (noise_idx_of (md_feature_names md))
           (other_idx_of (md_feature_names md)) hist_raw base;
     y_pred_scaled ← match model x with
                     | Some y => Ok y
                     | None => Raise EstimatorError
                     end;
     Ok {| Res.y_pred := float_mul y_pred_scaled base;
           Res.y_pred_scaled := y_pred_scaled;
           Res.base := base;
           Res.x_vector := x;
           Res.feature_names := md_feature_names md |}).
Proof.
  unfold passes_config_checks. rewrite !andb_true_iff, !negb_true_iff.
  intros [[[H1 H2] H3] H4]. unfold predict_with_model.
  rewrite H1, H2, H3. unfold hist_idx_of in H4.
  pose proof (selected_positions_eq md) as Hsel.
  unfold hist_idx_of, noise_idx_of, other_idx_of in *.
  destruct (split_indices (md_feature_names md)) as [[h n] o]. cbn [fst snd] in *.
  rewrite H4, Hsel. by rewrite result_bind_ok.
Qed.

Lemma history_accepted_check (md : Metadata) (features : gmap string PyVal) :
  history_accepted float_of_str md features = true ->
  existsb (fun v => float_le v (Fin 0)) (hist_raw_of float_of_str md features) = false.
Proof.
  unfold history_accepted, hist_raw_of. rewrite forallb_forall. intros H.
  destruct (existsb _ _) eqn:E; [|done].
  apply existsb_exists in E as (v & Hv & Hle).
  apply list_elem_of_In, list_elem_of_fmap in Hv as (i & -> & Hi).
  apply list_elem_of_In, H, passes_sign_check_raw_at in Hi. congruence.
Qed.

Lemma history_accepted_collect (md : Metadata) (features : gmap string PyVal) :
  history_accepted float_of_str md features = true ->
  collect_history float_of_str (md_feature_names md) features (selected_positions md)
  = Ok (hist_raw_of float_of_str md features).
Proof.
  intros H. apply collect_history_ok; [apply selected_positions_lt|].
  unfold history_accepted in H. rewrite forallb_forall in *.
  intros i Hi. by apply passes_sign_check_numeric, H.
Qed.

(** Success: with valid metadata and a feature map that the validation
    lets through, the pipeline reaches the estimator with the expected
    vector, and its result is built from the estimator's answer. *)
Lemma predict_with_model_ok (model : list float -> option float) (md : Metadata)
    (features : gmap string PyVal) :
  valid_metadata md = true ->
  history_accepted float_of_str md features = true ->
  noise_ok float_of_str md features = true ->
  others_ok float_of_str md features = true ->
  exists base,
    compute_window_base (hist_raw_of float_of_str md features)
      (md_window_scale_mode md) = Ok base
    /\ float_lt base (Fin 1e-8) = false
    /\ predict_with_model float_of_str model md features =
       match model (expected_vector float_of_str md features base) with
       | Some y =>
           Ok {| Res.y_pred := float_mul y base;
                 Res.y_pred_scaled := y;
                 Res.base := base;
                 Res.x_vector := expected_vector float_of_str md features base;
                 Res.feature_names := md_feature_names md |}
       | None => Raise EstimatorError
       end.
Proof.
  intros [Hcfg Hmode]%andb_true_iff Hh Hn Ho.
  destruct (compute_window_base_recognised
              (hist_raw_of float_of_str md features) (md_window_scale_mode md))
    as [base Hbase]; [|done|].
  { unfold hist_raw_of. intros E%fmap_nil_inv.
    by apply (selected_positions_nonempty md). }
  pose proof (compute_window_base_floor _ _ _ Hbase) as Hfloor.
  exists base. split; [done|]. split; [done|].
  rewrite (predict_with_model_checked _ _ _ Hcfg).
  rewrite (history_accepted_collect _ _ Hh), result_bind_ok.
  rewrite (history_accepted_check _ _ Hh), Hbase, result_bind_ok.
  rewrite build_vector_ok, result_bind_ok; try done.
  by destruct (model _).
Qed.

(** ** Failures of the history validation *)

Lemma mapM_result_inv {A B} (f : A -> result B) (l : list A) (k : list B) :
  mapM f l = Ok k -> Forall2 (fun a b => f a = Ok b) l k.
Proof.
  revert k. induction l as [|a l IH]; intros k; cbn.
  - intros [= <-]. constructor.
  - destruct (f a) as [b|] eqn:E; [|done]. cbn.
    destruct (mapM f l) as [k'|]; [|done]. cbn. intros [= <-].
    constructor; [done|]. by apply IH.
Qed.

Lemma mapM_feature_float_inv (names : list string) (features : gmap string PyVal)
    (sel : list nat) (r : list float) :
  mapM (feature_float float_of_str features) (name_at names <$> sel) = Ok r ->
  r = raw_at float_of_str names features <$> sel
  /\ forallb (fun i => is_numeric float_of_str features (name_at names i)) sel = true.
Proof.
  revert r. induction sel as [|i sel IH]; intros r; cbn.
  - by intros [= <-].
  - unfold raw_at at 1. unfold is_numeric at 1.
    destruct (feature_float _ _ _) as [f|]; [|done]. cbn.
    destruct (mapM _ _) as [k|]; [|done]. cbn. intros [= <-].
    destruct (IH k eq_refl) as [-> ->]. done.
Qed.

Lemma missing_history_raises (model : list float -> option float) (md : Metadata)
    (features : gmap string PyVal) :
  passes_config_checks md = true ->
  missing_hist md features <> [] ->
  predict_with_model float_of_str model md features
  = Raise (ValueError (MsgMissingHistory (missing_hist md features))).
Proof.
  intros Hcfg Hmiss. rewrite (predict_with_model_checked _ _ _ Hcfg).
  rewrite collect_history_eq by apply selected_positions_lt.
  unfold missing_hist, hist_names_ordered in Hmiss.
  unfold missing_hist, hist_names_ordered.
  by destruct (List.filter _ _).
Qed.

Lemma history_not_accepted_raises (model : list float -> option float) (md : Metadata)
    (features : gmap string PyVal) :
  passes_config_checks md = true ->
  history_accepted float_of_str md features = false ->
  exists m, predict_with_model float_of_str model md features = Raise (ValueError m)
            /\ is_history_msg m = true.
Proof.
  intros Hcfg Hbad. rewrite (predict_with_model_checked _ _ _ Hcfg).
  rewrite collect_history_eq by apply selected_positions_lt.
  destruct (List.filter _ _) as [|n miss]; [|by eexists].
  destruct (mapM _ _) as [r|e] eqn:E; [|by eexists].
  apply mapM_feature_float_inv in E as [-> Hnum].
  rewrite result_bind_ok.
  assert (existsb (fun v => float_le v (Fin 0))
            (raw_at float_of_str (md_feature_names md) features
               <$> selected_positions md) = true) as ->; [|by eexists].
  unfold history_accepted in Hbad.
  apply not_true_iff_false in Hbad.
  destruct (existsb _ _) eqn:Hex; [done|]. exfalso. apply Hbad.
  rewrite forallb_forall in *. intros i Hi. specialize (Hnum i Hi).
  unfold passes_sign_check. rewrite (is_numeric_raw_at _ _ _ Hnum).
  destruct (float_le _ (Fin 0)) eqn:Hle; [|done].
  assert (existsb (fun v => float_le v (Fin 0))
            (raw_at float_of_str (md_feature_names md) features
               <$> selected_positions md) = true) as Habs; [|congruence].
  apply existsb_exists. eexists. split; [|exact Hle].
  apply list_elem_of_In, list_elem_of_fmap. exists i.
  split; [done|by apply list_elem_of_In].
Qed.

(** An unknown mode is met only after the history validation. *)
Lemma unknown_mode_raises (model : list float -> option float) (md : Metadata)
    (features : gmap string PyVal) :
  passes_config_checks md = true ->
  recognised_mode (md_window_scale_mode md) = false ->
  history_accepted float_of_str md features = true ->
  predict_with_model float_of_str model md features
  = Raise (ValueError (MsgUnknownMode (md_window_scale_mode md))).
Proof.
  intros Hcfg Hmode Hh. rewrite (predict_with_model_checked _ _ _ Hcfg).
  rewrite (history_accepted_collect _ _ Hh), result_bind_ok.
  rewrite (history_accepted_check _ _ Hh).
  by rewrite (compute_window_base_unknown _ _ Hmode).
Qed.

(** ** A missing noise feature *)

Lemma for_each_app {A S} (l1 l2 : list A) (body : S -> A -> result S) (s : S) :
  for_each (l1 ++ l2) body s = for_each l1 body s ≫= for_each l2 body.
Proof.
  revert s. induction l1 as [|a l1 IH]; intros s; [done|]. cbn.
  destruct (body s a); [|done]. cbn. apply IH.
Qed.

Lemma noise_step_missing (names : list string) (features : gmap string PyVal)
    (vmin vmax : float) (x : list float) (pos : nat) :
  (pos < length names)%nat ->
  contains features (name_at names pos) = false ->
  noise_step float_of_str names features vmin vmax x pos
  = Raise (ValueError (MsgMissingNoise (name_at names pos))).
Proof.
  intros Hpos Hc. unfold noise_step, getitem.
  destruct (lookup_lt_is_Some_2 names pos Hpos) as [n Hn].
  assert (name_at names pos = n) as Hna by (unfold name_at; by rewrite Hn).
  rewrite Hna in Hc |- *. rewrite Hn. cbn. by rewrite Hc.
Qed.

(** With a sound history, the noise loop stops at the first noise
    feature the map lacks, provided the ones before it convert. *)
Lemma missing_noise_raises (model : list float -> option float) (md : Metadata)
    (features : gmap string PyVal) (pre post : list nat) (p : nat) :
  valid_metadata md = true ->
  history_accepted float_of_str md features = true ->
  noise_idx_of (md_feature_names md) = (pre ++ p :: post)%list ->
  forallb (fun i => is_numeric float_of_str features
                      (name_at (md_feature_names md) i)) pre = true ->
  contains features (name_at (md_feature_names md) p) = false ->
  predict_with_model float_of_str model md features
  = Raise (ValueError (MsgMissingNoise (name_at (md_feature_names md) p))).
Proof.
  intros [Hcfg Hmode]%andb_true_iff Hh Hdec Hpre Hc.
  destruct (compute_window_base_recognised
              (hist_raw_of float_of_str md features) (md_window_scale_mode md))
    as [base Hbase]; [|done|].
  { unfold hist_raw_of. intros E%fmap_nil_inv.
    by apply (selected_positions_nonempty md). }
  pose proof (compute_window_base_floor _ _ _ Hbase) as Hb.
  rewrite (predict_with_model_checked _ _ _ Hcfg).
  rewrite (history_accepted_collect _ _ Hh), result_bind_ok.
  rewrite (history_accepted_check _ _ Hh), Hbase, result_bind_ok.
  apply passes_config_checks_inv in Hcfg as (_ & _ & Hv & _).
  unfold build_vector. rewrite (hist_scaled_ok _ _ _ Hb), result_bind_ok.
  set (g1 := fun i => hist_scaled_value (md_window_scale_mode md) base
                        (raw_at float_of_str (md_feature_names md) features i)).
  rewrite for_each_zip_fmap.
  set (x0 := replicate (length (md_feature_names md)) (Fin 0)).
  assert (length x0 = length (md_feature_names md)) as Hl0 by apply length_replicate.
  destruct (for_each_assign (selected_positions md) (fun _ => true) g1
              (fun x pos => setitem x pos (g1 pos)) x0)
    as (x1 & -> & Hl1 & _ & _).
  { intros pos Hpos. rewrite Hl0. by apply selected_positions_lt. }
  { done. }
  rewrite result_bind_ok, Hdec, for_each_app.
  assert (forall i, i ∈ (pre ++ p :: post)%list -> (i < length (md_feature_names md))%nat)
    as Hlt.
  { intros i Hi. rewrite <- Hdec in Hi. by apply noise_idx_lt. }
  rewrite forallb_forall in Hpre.
  destruct (for_each_assign pre (fun _ => true)
              (fun i => noise_scaled
                          (raw_at float_of_str (md_feature_names md) features i)
                          (md_vmin md) (md_vmax md))
              (noise_step float_of_str (md_feature_names md) features
                 (md_vmin md) (md_vmax md)) x1)
    as (x2 & -> & _ & _ & _).
  { intros pos Hpos. rewrite Hl1, Hl0. apply Hlt, elem_of_app. by left. }
  { intros pos x' Hpos _. apply noise_step_ok; [|by apply Hpre, list_elem_of_In|done].
    apply Hlt, elem_of_app. by left. }
  rewrite result_bind_ok. cbn [for_each].
  rewrite noise_step_missing; [done| |done].
  apply Hlt, elem_of_app. right. left.
Qed.

(** ** Where a configuration message can come from *)

Lemma for_each_raise {A S} (l : list A) (body : S -> A -> result S) (s : S)
    (e : PyExc) :
  for_each l body s = Raise e -> exists a s', a ∈ l /\ body s' a = Raise e.
Proof.
  revert s. induction l as [|a l IH]; intros s; [done|]. cbn.
  destruct (body s a) as [s1|e1] eqn:E; cbn.
  - intros (a' & s' & Ha' & Hb)%IH. exists a', s'. split; [by right|done].
  - intros [= ->]. exists a, s. split; [left|done].
Qed.

Lemma setitem_raise {A} (l : list A) (i : nat) (v : A) (e : PyExc) :
  setitem l i v = Raise e -> e = IndexError.
Proof. unfold setitem. destruct (bool_decide _); [done|]. by intros [= <-]. Qed.

Lemma feature_float_raise (features : gmap string PyVal) (name : string) (m : Msg) :
  feature_float float_of_str features name = Raise (ValueError m) ->
  is_config_msg m = false.
Proof.
  unfold feature_float, get_feature. destruct (features !! name) as [v|]; [|done].
  cbn. destruct v; cbn; try done.
  - by destruct (_ <? _)%Z.
  - destruct (float_of_str s); [done|]. by intros [= <-].
Qed.

Lemma py_div_raise (a b : float) (e : PyExc) :
  py_div a b = Raise e -> e = ZeroDivisionError.
Proof.
  unfold py_div. destruct b as [q| | |]; try done.
  destruct (Qeq_bool q 0); [|done]. by intros [= <-].
Qed.

Lemma scale_noise_abs_db_raise (v vmin vmax : float) (e : PyExc) :
  scale_noise_abs_db v vmin vmax = Raise e -> e = ZeroDivisionError.
Proof.
  unfold scale_noise_abs_db. destruct (py_div _ _) eqn:E; [done|].
  intros [= <-]. by eapply py_div_raise.
Qed.

Lemma noise_step_raise (names : list string) (features : gmap string PyVal)
    (vmin vmax : float) (x : list float) (pos : nat) (m : Msg) :
  noise_step float_of_str names features vmin vmax x pos = Raise (ValueError m) ->
  is_config_msg m = false.
Proof.
  unfold noise_step, getitem. destruct (names !! pos) as [n|]; [|done]. cbn.
  destruct (contains features n); cbn; [|by intros [= <-]].
  destruct (feature_float _ _ _) as [f|e] eqn:E; cbn.
  - destruct (scale_noise_abs_db _ _ _) as [r|e] eqn:Es; cbn.
    + by intros ?%setitem_raise.
    + by apply scale_noise_abs_db_raise in Es as ->.
  - intros [= ->]. by eapply feature_float_raise.
Qed.

Lemma other_step_raise (names : list string) (features : gmap string PyVal)
    (x : list float) (pos : nat) (m : Msg) :
  other_step float_of_str names features x pos = Raise (ValueError m) ->
  is_config_msg m = false.
Proof.
  unfold other_step, getitem. destruct (names !! pos) as [n|]; [|done]. cbn.
  destruct (contains features n); [|done].
  destruct (feature_float _ _ _ ≫= _); cbn; [done|]. by intros [= <-].
Qed.

Lemma build_vector_raise (names : list string) (features : gmap string PyVal)
    (mode : string) (vmin vmax : float) (sel noise_idx other_idx : list nat)
    (hist_raw : list float) (base : float) (m : Msg) :
  build_vector float_of_str names features mode vmin vmax sel noise_idx other_idx
    hist_raw base = Raise (ValueError m) ->
  is_config_msg m = false.
Proof.
  unfold build_vector.
  destruct (if String.eqb mode "none" then _ else _) as [hs|e] eqn:Ehs.
  2: { rewrite result_bind_raise. intros [= ->].
       destruct (String.eqb mode "none"); [done|].
       apply mapM_result_raise in Ehs as (a & _ & Ha). by apply py_div_raise in Ha. }
  rewrite result_bind_ok.
  destruct (for_each (zip sel hs) _ _) as [x1|e] eqn:E1.
  2: { rewrite result_bind_raise. intros [= ->].
       apply for_each_raise in E1 as (a & s' & _ & Hs).
       by apply setitem_raise in Hs. }
  rewrite result_bind_ok.
  destruct (for_each noise_idx _ _) as [x2|e] eqn:E2.
  2: { rewrite result_bind_raise. intros [= ->].
       apply for_each_raise in E2 as (a & s' & _ & Hs).
       by eapply noise_step_raise. }
  rewrite result_bind_ok.
  intros (a & s' & _ & Hs)%for_each_raise. by eapply other_step_raise.
Qed.

Lemma collect_history_raise (md : Metadata) (features : gmap string PyVal) (e : PyExc) :
  collect_history float_of_str (md_feature_names md) features (selected_positions md)
  = Raise e ->
  exists m, e = ValueError m /\ is_history_msg m = true.
Proof.
  rewrite collect_history_eq by apply selected_positions_lt.
  destruct (List.filter _ _); [|intros [= <-]; by eexists].
  destruct (mapM _ _); [done|]. intros [= <-]. by eexists.
Qed.

(** After the four checks, the only configuration message left is the
    one of an unknown scale mode. *)
Lemma config_msg_after_checks (model : list float -> option float) (md : Metadata)
    (features : gmap string PyVal) (m : Msg) :
  passes_config_checks md = true ->
  predict_with_model float_of_str model md features = Raise (ValueError m) ->
  is_config_msg m = true ->
  m = MsgUnknownMode (md_window_scale_mode md)
  /\ recognised_mode (md_window_scale_mode md) = false.
Proof.
  intros Hcfg. rewrite (predict_with_model_checked _ _ _ Hcfg).
  destruct (collect_history _ _ _ _) as [hr|e] eqn:Ec.
  2: { rewrite result_bind_raise. intros [= ->].
       apply collect_history_raise in Ec as (m' & [= <-] & Hm).
       destruct m; done. }
  rewrite result_bind_ok. destruct (existsb _ _); [by intros [= <-]|].
  destruct (compute_window_base hr _) as [base|e] eqn:Eb.
  2: { rewrite result_bind_raise. intros [= ->] _.
       destruct (recognised_mode (md_window_scale_mode md)) eqn:Hr.
       - exfalso. revert Eb. unfold compute_window_base, recognised_mode in *.
         destruct (String.eqb _ "window_mean"); [done|].
         destruct (String.eqb _ "window_anchor").
         { unfold last_item. by destruct (last hr). }
         by destruct (String.eqb _ "none").
       - rewrite (compute_window_base_unknown _ _ Hr) in Eb. by injection Eb as <-. }
  rewrite result_bind_ok.
  destruct (build_vector _ _ _ _ _ _ _ _ _ _ _) as [x|e] eqn:Ex.
  2: { rewrite result_bind_raise. intros [= ->] Hm.
       apply build_vector_raise in Ex. congruence. }
  rewrite result_bind_ok. by destruct (model x).
Qed.

(** ** The configuration checks *)

Lemma config_failure_none (md : Metadata) :
  config_failure md = None <-> passes_config_checks md = true.
Proof.
  unfold config_failure, passes_config_checks.
  destruct (bool_decide _); [done|]. destruct (_ <=? _)%Z; [done|].
  destruct (float_le _ _); [done|]. by destruct (_ =? _)%nat.
Qed.

Lemma config_failure_raises (model : list float -> option float) (md : Metadata)
    (features : gmap string PyVal) (m : Msg) :
  config_failure md = Some m ->
  predict_with_model float_of_str model md features = Raise (ValueError m).
Proof.
  unfold config_failure, predict_with_model, hist_idx_of.
  destruct (bool_decide _); [by intros [= <-]|].
  destruct (_ <=? _)%Z; [by intros [= <-]|].
  destruct (float_le _ _); [by intros [= <-]|].
  destruct (split_indices _) as [[h n] o]. cbn [fst snd].
  destruct (_ =? _)%nat; [by intros [= <-]|done].
Qed.

Lemma config_failure_is_config (md : Metadata) (m : Msg) :
  config_failure md = Some m -> is_config_msg m = true.
Proof.
  unfold config_failure.
  repeat (match goal with |- context [if ?b then _ else _] => destruct b end);
    by intros [= <-].
Qed.

(** ** The last selected position *)

Lemma selected_positions_sorted (md : Metadata) :
  Forall (fun i => is_Some (key_at (md_feature_names md) i))
         (hist_idx_of (md_feature_names md)) ->
  StronglySorted (key_le (md_feature_names md)) (selected_positions md).
Proof.
  intros Hkeys. unfold selected_positions.
  destruct (select_hist_positions_ok (md_feature_names md) (md_window_size md))
    as (ord & Hord & _ & ->).
  assert (StronglySorted (key_le (md_feature_names md)) ord) as Hs.
  { eapply order_hist_positions_sorted; [apply hist_idx_lt|done|done]. }
  destruct (negb _); [|done].
  rewrite <- (take_drop (Z.to_nat (md_window_size md)) ord) in Hs.
  by apply StronglySorted_app_1_l in Hs.
Qed.

Lemma selected_positions_last_max (md : Metadata) (p i : nat) :
  Forall (fun i => is_Some (key_at (md_feature_names md) i))
         (hist_idx_of (md_feature_names md)) ->
  last (selected_positions md) = Some p ->
  i ∈ selected_positions md ->
  key_le (md_feature_names md) i p.
Proof.
  intros Hkeys Hlast Hi.
  eapply StronglySorted_last; [|by apply selected_positions_sorted|done|done].
  apply last_Some_elem_of, selected_positions_hist in Hlast.
  apply (proj1 (Forall_forall _ _) Hkeys) in Hlast as [z Hz].
  unfold key_le. rewrite Hz. lia.
Qed.

(** ** The entries of the expected vector, group by group *)

Lemma expected_vector_length (md : Metadata) (features : gmap string PyVal) (base : float) :
  length (expected_vector float_of_str md features base)
  = length (md_feature_names md).
Proof. unfold expected_vector. by rewrite length_fmap, length_seq. Qed.

Lemma expected_vector_lookup (md : Metadata) (features : gmap string PyVal)
    (base : float) (i : nat) :
  (i < length (md_feature_names md))%nat ->
  expected_vector float_of_str md features base !! i
  = Some (group_transform float_of_str md features base i).
Proof.
  intros Hi. unfold expected_vector.
  rewrite list_lookup_fmap, lookup_seq_lt by done. done.
Qed.

Lemma group_transform_selected (md : Metadata) (features : gmap string PyVal)
    (base : float) (i : nat) :
  i ∈ selected_positions md ->
  group_transform float_of_str md features base i
  = hist_scaled_value (md_window_scale_mode md) base
      (raw_at float_of_str (md_feature_names md) features i).
Proof. intros Hi. unfold group_transform. by rewrite bool_decide_eq_true_2. Qed.

Lemma group_transform_not_selected (md : Metadata) (features : gmap string PyVal)
    (base : float) (i : nat) (name : string) :
  md_feature_names md !! i = Some name ->
  i ∉ selected_positions md ->
  group_transform float_of_str md features base i
  = if startswith name "noise_"
    then noise_scaled (raw_at float_of_str (md_feature_names md) features i)
           (md_vmin md) (md_vmax md)
    else if startswith name "DL_hist_" then Fin 0
    else if contains features name
    then raw_at float_of_str (md_feature_names md) features i
    else Fin 0.
Proof.
  intros Hname Hi. unfold group_transform. rewrite bool_decide_eq_false_2 by done.
  unfold name_at. by rewrite Hname.
Qed.

End PipelineFacts.

(** * The claims on the helpers *)

Lemma py_max_Qmax (a b : Q) :
  exists q, py_max (Fin a) (Fin b) = Fin q /\ (q == Qmax a b)%Q.
Proof.
  rewrite py_max_Fin. eexists. split; [done|]. destruct (Qle_bool b a) eqn:E.
  - apply Qle_bool_iff in E. symmetry. by apply Q.max_l.
  - apply Qle_bool_false in E. symmetry. apply Q.max_r. by apply Qlt_le_weak.
Qed.

(** On a finite ratio the two builtins are the clamp of the
    specification. *)
Lemma py_clamp_clamp01 (r : Q) :
  exists c, py_min (py_max (Fin r) (Fin 0)) (Fin 1) = Fin c /\ (c == clamp01 r)%Q.
Proof.
  rewrite py_max_Fin, py_min_Fin. eexists. split; [done|]. unfold clamp01.
  destruct (Qle_bool 0 r) eqn:E1; destruct (Qle_bool r 0) eqn:E2;
    destruct (Qle_bool 1 r) eqn:E3;
    repeat match goal with
      | |- context [Qle_bool ?a ?b] => destruct (Qle_bool a b) eqn:?
      end;
    repeat match goal with
      | H : Qle_bool _ _ = true |- _ => apply Qle_bool_iff in H
      | H : Qle_bool _ _ = false |- _ => apply Qle_bool_false in H
      end; lra.
Qed.

Lemma float_le_Fin_false (a b : Q) : (b < a)%Q -> float_le (Fin a) (Fin b) = false.
Proof. intros H. by apply Qle_bool_false. Qed.

(** The noise scaling of a finite level between finite bounds. *)
Lemma noise_scaled_Fin (v vmin vmax : Q) :
  exists r, noise_scaled (Fin v) (Fin vmin) (Fin vmax) = Fin r
            /\ (r == clamp01 ((Qabs v - vmin) / (vmax - vmin)))%Q.
Proof. apply py_clamp_clamp01. Qed.

(** On a non-empty list of finite values the window base is finite and at
    least the floor. *)
Lemma compute_window_base_Fin (l : list Q) (mode : string) (b : float) :
  l <> [] ->
  compute_window_base (Fin <$> l) mode = Ok b ->
  exists q, b = Fin q /\ (1e-8 <= q)%Q.
Proof.
  assert (forall b0 : Q, exists q, py_max (Fin b0) (Fin 1e-8) = Fin q /\ (1e-8 <= q)%Q)
    as Hmax.
  { intros b0. rewrite py_max_Fin. eexists. split; [done|].
    destruct (Qle_bool _ b0) eqn:E; [by apply Qle_bool_iff|apply Qle_refl]. }
  intros Hl. unfold compute_window_base.
  destruct (String.eqb mode "window_mean").
  { rewrite np_mean_Fin, result_bind_ok by done. intros [= <-]. apply Hmax. }
  destruct (String.eqb mode "window_anchor").
  { unfold last_item. rewrite fmap_last. destruct (last l) as [z|]; [|done].
    cbn. intros [= <-]. apply Hmax. }
  destruct (String.eqb mode "none"); [|done]. intros [= <-]. apply Hmax.
Qed.

Lemma clamp01_bounds (r : Q) : (0 <= clamp01 r /\ clamp01 r <= 1)%Q.
Proof.
  unfold clamp01.
  destruct (Qle_bool r 0) eqn:E1; [lra|].
  destruct (Qle_bool 1 r) eqn:E2; [lra|].
  apply Qle_bool_false in E1, E2. lra.
Qed.

Lemma foldl_Qplus (l : list Q) (a : Q) :
  (foldl Qplus a l == a + fold_right Qplus 0 l)%Q.
Proof.
  revert a. induction l as [|q l IH]; intros a; cbn.
  - ring.
  - rewrite IH. ring.
Qed.

(** C7.  For bounds [vmin < vmax], [scale_noise_abs_db] returns
    [(|v| - vmin) / (vmax - vmin)] clamped to the interval from 0 to 1. *)
Theorem scale_noise_abs_db_clamps (v vmin vmax : Q) :
  (vmin < vmax)%Q ->
  exists r, scale_noise_abs_db (Fin v) (Fin vmin) (Fin vmax) = Ok (Fin r)
            /\ (r == clamp01 ((Qabs v - vmin) / (vmax - vmin)))%Q
            /\ (0 <= r)%Q /\ (r <= 1)%Q.
Proof.
  intros H. destruct (noise_scaled_Fin v vmin vmax) as (r & Hr & Heq).
  exists r. rewrite scale_noise_abs_db_ok, Hr by (by apply float_le_Fin_false).
  split; [done|].
  pose proof (clamp01_bounds ((Qabs v - vmin) / (vmax - vmin))) as [H0 H1].
  split; [done|]. rewrite Heq. by split.
Qed.

(** C6.  For a non-empty list of finite values, [compute_window_base]
    returns the arithmetic mean under [window_mean] and 1 under [none], each
    floored at 1e-8; a mode other than the three known ones raises the
    unknown-mode error; and a base that is returned is never below 1e-8
    (for every list of floats, finite or not). *)
Theorem compute_window_base_modes (l : list Q) :
  l <> [] ->
  (exists b, compute_window_base (Fin <$> l) "window_mean" = Ok (Fin b)
             /\ (b == Qmax (arithmetic_mean l) 1e-8)%Q)
  /\ compute_window_base (Fin <$> l) "none" = Ok (Fin 1)
  /\ (forall mode, mode <> "window_mean" -> mode <> "window_anchor" -> mode <> "none" ->
       compute_window_base (Fin <$> l) mode = Raise (ValueError (MsgUnknownMode mode)))
  /\ (forall mode b, compute_window_base (Fin <$> l) mode = Ok b ->
        exists q, b = Fin q /\ (1e-8 <= q)%Q)
  /\ (forall (h : list float) mode b,
        compute_window_base h mode = Ok b -> float_lt b (Fin 1e-8) = false).
Proof.
  intros Hl. split; [|split; [done|split; [|split]]].
  - destruct (py_max_Qmax (foldl Qplus 0%Q l / inject_Z (Z.of_nat (length l))) 1e-8)
      as (b & Hb & Heq).
    exists b. split.
    + unfold compute_window_base. cbn [String.eqb Ascii.eqb Bool.eqb].
      by rewrite np_mean_Fin, result_bind_ok, Hb.
    + rewrite Heq. apply Q.max_compat; [|done].
      unfold arithmetic_mean. by rewrite foldl_Qplus, Qplus_0_l.
  - intros mode H1 H2 H3. apply compute_window_base_unknown.
    unfold recognised_mode.
    apply String.eqb_neq in H1, H2, H3. by rewrite H1, H2, H3.
  - intros mode b. by apply compute_window_base_Fin.
  - apply compute_window_base_floor.
Qed.

(** C8.  When the suffix of some history name does not parse as an integer,
    [order_hist_positions] returns the history indices in the declared order
    and raises nothing; the pipeline then selects from that order. *)
Theorem order_hist_positions_unparsable (md : Metadata) :
  Exists (fun i => key_at (md_feature_names md) i = None)
         (hist_idx_of (md_feature_names md)) ->
  order_hist_positions (md_feature_names md) (hist_idx_of (md_feature_names md))
  = Ok (hist_idx_of (md_feature_names md))
  /\ selected_positions md
     = if negb (Z.of_nat (length (hist_idx_of (md_feature_names md)))
                =? md_window_size md)%Z
       then take (Z.to_nat (md_window_size md)) (hist_idx_of (md_feature_names md))
       else hist_idx_of (md_feature_names md).
Proof.
  intros Hex.
  assert (order_hist_positions (md_feature_names md) (hist_idx_of (md_feature_names md))
          = Ok (hist_idx_of (md_feature_names md))) as Hord.
  { apply order_hist_positions_fallback; [apply hist_idx_lt|done]. }
  split; [done|].
  unfold selected_positions, select_hist_positions. rewrite Hord.
  by destruct (negb _).
Qed.

(** * The claims on the pipeline *)

Section PipelineClaims.

Variable float_of_str : string -> option float.

Lemma config_msg_origin (model : list float -> option float) (md : Metadata)
    (features : gmap string PyVal) (m : Msg) :
  predict_with_model float_of_str model md features = Raise (ValueError m) ->
  is_config_msg m = true ->
  config_failure md = Some m
  \/ (config_failure md = None /\ m = MsgUnknownMode (md_window_scale_mode md)
      /\ recognised_mode (md_window_scale_mode md) = false).
Proof.
  intros Hrun Hm. destruct (config_failure md) as [m'|] eqn:Hcf.
  - left. rewrite (config_failure_raises _ model md features m' Hcf) in Hrun.
    by injection Hrun as ->.
  - right. split; [done|]. apply config_failure_none in Hcf.
    by eapply config_msg_after_checks.
Qed.

Lemma window_anchor_base_eq (md : Metadata) (features : gmap string PyVal) (base : float) :
  md_window_scale_mode md = "window_anchor" ->
  compute_window_base (hist_raw_of float_of_str md features)
    (md_window_scale_mode md) = Ok base ->
  exists p, last (selected_positions md) = Some p
            /\ base = py_max (raw_at float_of_str (md_feature_names md) features p)
                        (Fin 1e-8).
Proof.
  intros ->. unfold compute_window_base, last_item, hist_raw_of. cbn.
  rewrite fmap_last. destruct (last (selected_positions md)) as [p|]; [|done].
  cbn. intros [= <-]. by exists p.
Qed.

(** C1 (amended).  Under [window_anchor], with valid metadata and a
    feature map that passes the validation, the window base is the raw
    value of the last of the ordered history positions, floored at 1e-8.
    The positions are ordered by ascending integer suffix, so when the
    suffixes parse this is the feature with the largest suffix among the
    selected ones; the scaled history entries are the raw values divided
    by that base. *)
Theorem window_anchor_base_is_last_ordered (model : list float -> option float)
    (md : Metadata) (features : gmap string PyVal) :
  valid_metadata md = true ->
  md_window_scale_mode md = "window_anchor" ->
  history_ok float_of_str md features = true ->
  noise_ok float_of_str md features = true ->
  others_ok float_of_str md features = true ->
  exists p base,
    last (selected_positions md) = Some p
    /\ base = py_max (raw_at float_of_str (md_feature_names md) features p) (Fin 1e-8)
    /\ (float_le (Fin 1e-8) (raw_at float_of_str (md_feature_names md) features p) = true ->
        base = raw_at float_of_str (md_feature_names md) features p)
    /\ predict_with_model float_of_str model md features =
       match model (expected_vector float_of_str md features base) with
       | Some y =>
           Ok {| Res.y_pred := float_mul y base;
                 Res.y_pred_scaled := y;
                 Res.base := base;
                 Res.x_vector := expected_vector float_of_str md features base;
                 Res.feature_names := md_feature_names md |}
       | None => Raise EstimatorError
       end
    /\ (forall i, i ∈ selected_positions md ->
          expected_vector float_of_str md features base !! i
          = Some (float_div (raw_at float_of_str (md_feature_names md) features i) base))
    /\ (Forall (fun i => is_Some (key_at (md_feature_names md) i))
               (hist_idx_of (md_feature_names md)) ->
        forall i, i ∈ selected_positions md -> key_le (md_feature_names md) i p).
Proof.
  intros Hvalid Hmode Hh%history_ok_accepted Hn Ho.
  destruct (predict_with_model_ok float_of_str model md features Hvalid Hh Hn Ho)
    as (base & Hbase & _ & Hrun).
  destruct (window_anchor_base_eq md features base Hmode Hbase) as (p & Hlast & Hb).
  exists p, base. split; [done|]. split; [done|].
  split; [intros Hge; rewrite Hb; by apply py_max_keep|].
  split; [done|]. split.
  - intros i Hi. rewrite expected_vector_lookup by (by apply selected_positions_lt).
    rewrite group_transform_selected by done.
    unfold hist_scaled_value. by rewrite Hmode.
  - intros Hkeys i Hi. by eapply selected_positions_last_max.
Qed.

(** C2 (amended).  Metadata that violates the configuration contract makes
    the pipeline raise a [ValueError] for every feature map: the message
    of the first failing check when one of the four checks fails; with an
    unknown scale mode alone, the unknown-mode message once the history
    passed its validation and a history validation message otherwise.
    The exception class is the one of the client-input errors. *)
Theorem config_violation_raises_value_error (model : list float -> option float)
    (md : Metadata) (features : gmap string PyVal) :
  valid_metadata md = false ->
  exists m,
    predict_with_model float_of_str model md features = Raise (ValueError m)
    /\ exc_class (ValueError m) = ClsValueError
    /\ (forall m', config_failure md = Some m' -> m = m' /\ is_config_msg m = true)
    /\ (config_failure md = None ->
        if history_accepted float_of_str md features
        then m = MsgUnknownMode (md_window_scale_mode md)
        else is_history_msg m = true).
Proof.
  intros Hinv. destruct (config_failure md) as [m'|] eqn:Hcf.
  - exists m'. split; [by apply config_failure_raises|]. split; [done|].
    split; [|done]. intros m'' [= <-]. split; [done|].
    by eapply config_failure_is_config.
  - pose proof (proj1 (config_failure_none md) Hcf) as Hcfg.
    unfold valid_metadata in Hinv. rewrite Hcfg in Hinv. cbn in Hinv.
    destruct (history_accepted float_of_str md features) eqn:Hh.
    + exists (MsgUnknownMode (md_window_scale_mode md)).
      split; [by apply unknown_mode_raises|]. done.
    + destruct (history_not_accepted_raises float_of_str model md features Hcfg Hh)
        as (m & Hrun & Hm).
      exists m. done.
Qed.

(** C3 (amended).  With valid metadata and a feature map in which every
    selected history feature is present, numeric and positive, every noise
    feature is present and numeric, and every other feature that is
    present is numeric, the pipeline reaches the estimator with a vector
    of the length of [feature_names] whose entry at each index is the
    transform of the group of the name there: a selected history value
    divided by the base (unchanged under [none]), a noise value scaled by
    the absolute-dB rule, 0 for a history feature beyond the selected
    ones, and the float of another feature, 0 when the map has none.  It
    returns that vector when the estimator answers. *)
Theorem x_vector_group_transforms (model : list float -> option float)
    (md : Metadata) (features : gmap string PyVal) :
  valid_metadata md = true ->
  history_ok float_of_str md features = true ->
  noise_ok float_of_str md features = true ->
  others_ok float_of_str md features = true ->
  exists base x,
    compute_window_base (hist_raw_of float_of_str md features)
      (md_window_scale_mode md) = Ok base
    /\ predict_with_model float_of_str model md features =
       match model x with
       | Some y =>
           Ok {| Res.y_pred := float_mul y base;
                 Res.y_pred_scaled := y;
                 Res.base := base;
                 Res.x_vector := x;
                 Res.feature_names := md_feature_names md |}
       | None => Raise EstimatorError
       end
    /\ length x = length (md_feature_names md)
    /\ forall i name, md_feature_names md !! i = Some name ->
         exists e, x !! i = Some e
           /\ (i ∈ selected_positions md ->
               e = if String.eqb (md_window_scale_mode md) "none"
                   then raw_at float_of_str (md_feature_names md) features i
                   else float_div (raw_at float_of_str (md_feature_names md) features i)
                          base)
           /\ (startswith name "noise_" = true ->
               e = noise_scaled (raw_at float_of_str (md_feature_names md) features i)
                     (md_vmin md) (md_vmax md))
           /\ (startswith name "DL_hist_" = true -> (i ∉ selected_positions md) ->
               e = Fin 0)
           /\ (startswith name "noise_" = false -> startswith name "DL_hist_" = false ->
               e = if contains features name
                   then raw_at float_of_str (md_feature_names md) features i
                   else Fin 0).
Proof.
  intros Hvalid Hh%history_ok_accepted Hn Ho.
  destruct (predict_with_model_ok float_of_str model md features Hvalid Hh Hn Ho)
    as (base & Hbase & _ & Hrun).
  exists base, (expected_vector float_of_str md features base).
  split; [done|]. split; [done|]. split; [apply expected_vector_length|].
  intros i name Hname.
  assert (i < length (md_feature_names md))%nat as Hi by (by eapply lookup_lt_Some).
  eexists. split; [by apply expected_vector_lookup|].
  assert (i ∈ selected_positions md -> startswith name "DL_hist_" = true) as Hsel.
  { intros (n & Hn' & Hp)%selected_positions_hist%elem_of_hist_idx. congruence. }
  split; [intros Hin; by rewrite group_transform_selected|].
  split; [|split].
  - intros Hp. rewrite (group_transform_not_selected _ _ _ _ _ name Hname).
    + by rewrite Hp.
    + intros Hin. apply Hsel, prefixes_exclusive in Hin. congruence.
  - intros Hp Hnot. rewrite (group_transform_not_selected _ _ _ _ _ name Hname Hnot).
    by rewrite (prefixes_exclusive _ Hp), Hp.
  - intros Hp1 Hp2. rewrite (group_transform_not_selected _ _ _ _ _ name Hname).
    + by rewrite Hp1, Hp2.
    + intros Hin. apply Hsel in Hin. congruence.
Qed.

(** C4 (amended).  With valid metadata: when the feature map lacks some
    selected history name, the pipeline raises the validation error that
    lists exactly the missing history names, in order; when the history is
    sound and the map lacks a noise name, every noise feature before it
    being numeric, it raises the validation error that names this first
    missing noise feature. *)
Theorem missing_feature_is_named (model : list float -> option float)
    (md : Metadata) (features : gmap string PyVal) :
  valid_metadata md = true ->
  (missing_hist md features <> [] ->
   predict_with_model float_of_str model md features
   = Raise (ValueError (MsgMissingHistory (missing_hist md features))))
  /\ (forall pre p post,
        history_ok float_of_str md features = true ->
        noise_idx_of (md_feature_names md) = (pre ++ p :: post)%list ->
        forallb (fun i => is_numeric float_of_str features
                            (name_at (md_feature_names md) i)) pre = true ->
        contains features (name_at (md_feature_names md) p) = false ->
        predict_with_model float_of_str model md features
        = Raise (ValueError (MsgMissingNoise (name_at (md_feature_names md) p)))).
Proof.
  intros Hvalid. split.
  - apply andb_true_iff in Hvalid as [Hcfg _]. by apply missing_history_raises.
  - intros pre p post Hh%history_ok_accepted Hdec Hpre Hc.
    by eapply missing_noise_raises.
Qed.


(** C9.  When neither [metadata["scaling"]] nor the metadata itself has a
    [window_scale_mode], the mode is [window_mean] and the pipeline never
    raises the unknown-mode error; when neither has a [noise_scaling]
    entry, the bounds are 50 and 150 and the pipeline never raises the
    noise-bounds error. *)
Theorem absent_scaling_defaults (model : list float -> option float)
    (md : Metadata) (features : gmap string PyVal) :
  (window_scale_mode (md_scaling md) = None ->
   window_scale_mode (top_level md) = None ->
   md_window_scale_mode md = "window_mean"
   /\ forall mode, predict_with_model float_of_str model md features
                   <> Raise (ValueError (MsgUnknownMode mode)))
  /\ (noise_scaling (md_scaling md) = None ->
      noise_scaling (top_level md) = None ->
      md_vmin md = Fin 50 /\ md_vmax md = Fin 150
      /\ predict_with_model float_of_str model md features
         <> Raise (ValueError MsgNoiseBounds)).
Proof.
  split.
  - intros H1 H2.
    assert (md_window_scale_mode md = "window_mean") as Hmode.
    { unfold md_window_scale_mode. by rewrite H1, H2. }
    split; [done|]. intros mode Hrun.
    apply config_msg_origin in Hrun as [Hcf|(_ & _ & Hrec)]; [|by rewrite Hmode in Hrec|done].
    revert Hcf. unfold config_failure.
    repeat (match goal with |- context [if ?b then _ else _] => destruct b end); done.
  - intros H1 H2.
    assert (md_vmin md = Fin 50 /\ md_vmax md = Fin 150) as [Hmin Hmax].
    { unfold md_vmin, md_vmax, md_noise_cfg. by rewrite H1, H2. }
    split; [done|]. split; [done|]. intros Hrun.
    apply config_msg_origin in Hrun as [Hcf|(_ & [=] & _)]; [|done].
    revert Hcf. unfold config_failure. rewrite Hmin, Hmax.
    repeat (match goal with |- context [if ?b then _ else _] => destruct b eqn:? end);
      done.
Qed.

(** C10.  With valid metadata whose history features are fewer than
    [window_size], all of them are selected, in the order
    [order_hist_positions] gives; with a feature map that passes the
    validation the pipeline reaches the estimator: the window base is
    computed over fewer than [window_size] values and the vector has the
    length of [feature_names]. *)
Theorem fewer_history_than_window (model : list float -> option float)
    (md : Metadata) (features : gmap string PyVal) :
  valid_metadata md = true ->
  (Z.of_nat (length (hist_idx_of (md_feature_names md))) < md_window_size md)%Z ->
  order_hist_positions (md_feature_names md) (hist_idx_of (md_feature_names md))
  = Ok (selected_positions md)
  /\ length (selected_positions md) = length (hist_idx_of (md_feature_names md))
  /\ (history_ok float_of_str md features = true ->
      noise_ok float_of_str md features = true ->
      others_ok float_of_str md features = true ->
      exists base x,
        compute_window_base (hist_raw_of float_of_str md features)
          (md_window_scale_mode md) = Ok base
        /\ (Z.of_nat (length (hist_raw_of float_of_str md features))
            < md_window_size md)%Z
        /\ length x = length (md_feature_names md)
        /\ predict_with_model float_of_str model md features =
           match model x with
           | Some y =>
               Ok {| Res.y_pred := float_mul y base;
                     Res.y_pred_scaled := y;
                     Res.base := base;
                     Res.x_vector := x;
                     Res.feature_names := md_feature_names md |}
           | None => Raise EstimatorError
           end).
Proof.
  intros Hvalid Hlt.
  assert (order_hist_positions (md_feature_names md)
            (hist_idx_of (md_feature_names md)) = Ok (selected_positions md)) as Hord.
  { apply selected_positions_all. lia. }
  assert (length (selected_positions md)
          = length (hist_idx_of (md_feature_names md))) as Hlen.
  { destruct (order_hist_positions_perm (md_feature_names md)
                (hist_idx_of (md_feature_names md))) as (l & Hl & Hperm);
      [apply hist_idx_lt|].
    rewrite Hord in Hl. injection Hl as <-. by rewrite Hperm. }
  split; [done|]. split; [done|]. intros Hh%history_ok_accepted Hn Ho.
  destruct (predict_with_model_ok float_of_str model md features Hvalid Hh Hn Ho)
    as (base & Hbase & _ & Hrun).
  exists base, (expected_vector float_of_str md features base).
  split; [done|]. split; [|split; [apply expected_vector_length|done]].
  unfold hist_raw_of. rewrite length_fmap, Hlen. done.
Qed.

End PipelineClaims.

(** * Examples *)

(** ** The helpers on the inputs of the specification *)

Example noise_minus_200 :
  scale_noise_abs_db (Fin (-200)) (Fin 50) (Fin 150) = Ok (Fin 1).
Proof. reflexivity. Qed.

Example noise_minus_10 :
  scale_noise_abs_db (Fin (-10)) (Fin 50) (Fin 150) = Ok (Fin 0).
Proof. reflexivity. Qed.

Example noise_minus_100 :
  exists r, scale_noise_abs_db (Fin (-100)) (Fin 50) (Fin 150) = Ok (Fin r)
            /\ (r == 0.5)%Q.
Proof. eexists. split; reflexivity. Qed.

(** An infinite level saturates; NaN goes through both builtins. *)
Example noise_infinite :
  scale_noise_abs_db NInf (Fin 50) (Fin 150) = Ok (Fin 1).
Proof. reflexivity. Qed.

Example noise_nan : scale_noise_abs_db NaN (Fin 50) (Fin 150) = Ok NaN.
Proof. reflexivity. Qed.

(** [float] on integers: the largest magnitude that converts. *)
Example float_of_large_int :
  py_float no_str_floats (PyInt (float_int_bound - 1))
  = Ok (Fin (inject_Z (float_int_bound - 1)))
  /\ py_float no_str_floats (PyInt float_int_bound) = Raise OverflowError
  /\ py_float no_str_floats (PyInt (- float_int_bound)) = Raise OverflowError.
Proof. repeat split; vm_compute; reflexivity. Qed.

Example suffixes_sorted_ascending :
  order_hist_positions ["DL_hist_2"; "x"; "DL_hist_0"; "DL_hist_1"] [0; 2; 3]%nat
  = Ok [2; 3; 0]%nat.
Proof. reflexivity. Qed.

Example anchor_of_100_200_300 :
  compute_window_base [Fin 100; Fin 200; Fin 300] "window_anchor" = Ok (Fin 300).
Proof. reflexivity. Qed.

(** The mean of the empty list is NaN, and so is the base. *)
Example mean_of_nothing : compute_window_base [] "window_mean" = Ok NaN.
Proof. reflexivity. Qed.

(** ** C1 *)

(** The value at suffix 0 is 300, and the base is 100, the value at the
    largest suffix. *)
Lemma window_anchor_base_is_not_suffix_0 :
  hist_key "DL_hist_t_minus_0" = Some 0%Z
  /\ feature_float no_str_floats features_descending "DL_hist_t_minus_0" = Ok (Fin 300)
  /\ exists r,
       predict_with_model no_str_floats first_entry md_anchor features_descending = Ok r
       /\ Res.base r = Fin 100 /\ float_lt (Res.base r) (Fin 300) = true.
Proof.
  split; [reflexivity|]. split; [reflexivity|].
  eexists. split; [vm_compute; reflexivity|]. split; reflexivity.
Qed.

Lemma window_anchor_base_witness :
  exists r,
    predict_with_model no_str_floats first_entry md_anchor features_ascending = Ok r
    /\ Res.base r = Fin 300
    /\ Res.x_vector r = [Fin (100 / 300); Fin (200 / 300); Fin (300 / 300)].
Proof.
  destruct (window_anchor_base_is_last_ordered no_str_floats first_entry
              md_anchor features_ascending)
    as (p & base & Hlast & Hb & _ & Hrun & _); [reflexivity..|].
  vm_compute in Hlast. injection Hlast as <-.
  vm_compute in Hb. subst base. rewrite Hrun.
  eexists. split; [vm_compute; reflexivity|]. split; reflexivity.
Defined.

(** ** C2 *)

(** A configuration error and a client-input error have the same class,
    and an unknown mode can be hidden behind a client-input error. *)
Lemma config_and_validation_errors_share_class :
  exists e1 e2 e3,
    predict_with_model no_str_floats first_entry (metadata_of [] 1 "window_mean") ∅
    = Raise e1
    /\ predict_with_model no_str_floats first_entry md_noise_hist
         (features_of [("noise_target", PyFloat (Fin (-100))); ("DL_hist_t_minus_0", PyFloat (Fin (-5)))])
       = Raise e2
    /\ predict_with_model no_str_floats first_entry
         (metadata_of ["DL_hist_t_minus_0"] 1 "bogus") ∅
       = Raise e3
    /\ e1 = ValueError MsgFeatureNamesRequired
    /\ e2 = ValueError MsgHistNotPositive
    /\ e3 = ValueError (MsgMissingHistory ["DL_hist_t_minus_0"])
    /\ exc_class e1 = exc_class e2.
Proof.
  do 3 eexists. split; [vm_compute; reflexivity|].
  split; [vm_compute; reflexivity|]. split; [vm_compute; reflexivity|].
  repeat split.
Qed.

Lemma config_violation_witness :
  predict_with_model no_str_floats first_entry (metadata_of [] 1 "window_mean") ∅
  = Raise (ValueError MsgFeatureNamesRequired)
  /\ predict_with_model no_str_floats first_entry
       (metadata_of ["DL_hist_t_minus_0"] 1 "bogus")
       (features_of [("DL_hist_t_minus_0", PyFloat (Fin 5))])
     = Raise (ValueError (MsgUnknownMode "bogus")).
Proof.
  split.
  - destruct (config_violation_raises_value_error no_str_floats first_entry
                (metadata_of [] 1 "window_mean") ∅) as (m & Hrun & _ & Hcf & _);
      [reflexivity|].
    destruct (Hcf MsgFeatureNamesRequired) as [-> _]; [reflexivity|]. exact Hrun.
  - destruct (config_violation_raises_value_error no_str_floats first_entry
                (metadata_of ["DL_hist_t_minus_0"] 1 "bogus")
                (features_of [("DL_hist_t_minus_0", PyFloat (Fin 5))]))
      as (m & Hrun & _ & _ & Hmode); [reflexivity|].
    rewrite Hrun. f_equal. f_equal. exact (Hmode eq_refl).
Defined.

(** ** C3 *)

(** All history and noise names are supplied, the history is positive, and
    the pipeline still fails: another feature does not convert. *)
Lemma non_numeric_other_feature_fails :
  valid_metadata md_mixed = true
  /\ history_ok no_str_floats md_mixed features_bad_extra = true
  /\ noise_ok no_str_floats md_mixed features_bad_extra = true
  /\ predict_with_model no_str_floats first_entry md_mixed features_bad_extra
     = Raise (ValueError (MsgNotNumeric "extra")).
Proof. repeat split; vm_compute; reflexivity. Qed.

(** With three history features and a window of two, the history feature
    with the largest suffix is supplied (its value is 3, the base is 3) and
    its entry stays 0. *)
Example history_beyond_window_stays_zero :
  feature_float no_str_floats features_three_hist "DL_hist_2" = Ok (Fin 3)
  /\ exists r b,
       predict_with_model no_str_floats first_entry md_narrow_window
         features_three_hist = Ok r
       /\ Res.base r = Fin b /\ (b == 3)%Q
       /\ Res.x_vector r !! 2%nat = Some (Fin 0).
Proof.
  split; [reflexivity|]. do 2 eexists. split; [vm_compute; reflexivity|].
  split; [reflexivity|]. split; reflexivity.
Qed.

Lemma x_vector_group_transforms_witness :
  exists r,
    predict_with_model no_str_floats first_entry md_mixed
      (features_of [("DL_hist_0", PyFloat (Fin 4)); ("noise_a", PyFloat (Fin (-100)))]) = Ok r
    /\ length (Res.x_vector r) = 3%nat
    /\ Res.x_vector r !! 2%nat = Some (Fin 0).
Proof.
  destruct (x_vector_group_transforms no_str_floats first_entry md_mixed
              (features_of [("DL_hist_0", PyFloat (Fin 4)); ("noise_a", PyFloat (Fin (-100)))]))
    as (base & x & _ & Hrun & Hlen & Hentry); [reflexivity..|].
  destruct (Hentry 2%nat "extra" eq_refl) as (e & He & _ & _ & _ & Hother).
  rewrite Hrun. cbn. eexists. split; [reflexivity|]. cbn.
  split; [exact Hlen|]. rewrite He. f_equal. exact (Hother eq_refl eq_refl).
Defined.

(** ** C4 *)

(** The noise feature is missing, and the error that comes back is the one
    of the history value, which names no feature. *)
Lemma missing_noise_is_not_named :
  valid_metadata md_noise_hist = true
  /\ contains features_negative_history "noise_target" = false
  /\ predict_with_model no_str_floats first_entry md_noise_hist
       features_negative_history
     = Raise (ValueError MsgHistNotPositive).
Proof. repeat split; vm_compute; reflexivity. Qed.

Lemma missing_feature_witness :
  predict_with_model no_str_floats first_entry md_two_hist
    (features_of [("noise_target", PyFloat (Fin (-100))); ("DL_hist_t_minus_0", PyFloat (Fin 5))])
  = Raise (ValueError (MsgMissingHistory ["DL_hist_t_minus_1"]))
  /\ predict_with_model no_str_floats first_entry md_two_hist
       (features_of [("DL_hist_t_minus_0", PyFloat (Fin 5)); ("DL_hist_t_minus_1", PyFloat (Fin 6))])
     = Raise (ValueError (MsgMissingNoise "noise_target")).
Proof.
  split.
  - destruct (missing_feature_is_named no_str_floats first_entry md_two_hist
                (features_of [("noise_target", PyFloat (Fin (-100)));
                              ("DL_hist_t_minus_0", PyFloat (Fin 5))]))
      as [Hhist _]; [reflexivity|].
    rewrite Hhist; [reflexivity|]. vm_compute. discriminate.
  - destruct (missing_feature_is_named no_str_floats first_entry md_two_hist
                (features_of [("DL_hist_t_minus_0", PyFloat (Fin 5));
                              ("DL_hist_t_minus_1", PyFloat (Fin 6))]))
      as [_ Hnoise]; [reflexivity|].
    apply (Hnoise [] 0%nat []); reflexivity.
Defined.

(** ** C5 *)



(** ** C6 *)

Lemma compute_window_base_witness :
  (exists b, compute_window_base [Fin 1; Fin 2; Fin 6] "window_mean" = Ok (Fin b)
             /\ (b == 3)%Q)
  /\ compute_window_base [Fin 1; Fin 2; Fin 6] "none" = Ok (Fin 1)
  /\ compute_window_base [Fin 1; Fin 2; Fin 6] "median"
     = Raise (ValueError (MsgUnknownMode "median")).
Proof.
  destruct (compute_window_base_modes [1; 2; 6]%Q) as ((b & Hb & Heq) & Hnone & Hunk & _);
    [discriminate|].
  split; [|split; [exact Hnone|apply Hunk; discriminate]].
  exists b. split; [exact Hb|]. rewrite Heq. reflexivity.
Defined.

(** ** C7 *)

Lemma scale_noise_abs_db_witness :
  (exists r, scale_noise_abs_db (Fin (-200)) (Fin 50) (Fin 150) = Ok (Fin r)
             /\ (r == 1)%Q)
  /\ (exists r, scale_noise_abs_db (Fin (-10)) (Fin 50) (Fin 150) = Ok (Fin r)
                /\ (r == 0)%Q)
  /\ (exists r, scale_noise_abs_db (Fin (-100)) (Fin 50) (Fin 150) = Ok (Fin r)
                /\ (r == 0.5)%Q).
Proof.
  split; [|split].
  - destruct (scale_noise_abs_db_clamps (-200) 50 150) as (r & Hr & Heq & _);
      [reflexivity|].
    exists r. split; [exact Hr|]. rewrite Heq. reflexivity.
  - destruct (scale_noise_abs_db_clamps (-10) 50 150) as (r & Hr & Heq & _);
      [reflexivity|].
    exists r. split; [exact Hr|]. rewrite Heq. reflexivity.
  - destruct (scale_noise_abs_db_clamps (-100) 50 150) as (r & Hr & Heq & _);
      [reflexivity|].
    exists r. split; [exact Hr|]. rewrite Heq. reflexivity.
Defined.

(** ** C8 *)

Lemma order_hist_positions_unparsable_witness :
  order_hist_positions ["DL_hist_foo"; "DL_hist_bar"] [0; 1]%nat = Ok [0; 1]%nat
  /\ selected_positions (metadata_of ["DL_hist_foo"; "DL_hist_bar"] 2 "window_mean")
     = [0; 1]%nat.
Proof.
  apply (order_hist_positions_unparsable
           (metadata_of ["DL_hist_foo"; "DL_hist_bar"] 2 "window_mean")).
  left. reflexivity.
Defined.

(** ** C9 *)

Lemma absent_scaling_witness :
  md_window_scale_mode md_bare = "window_mean"
  /\ md_vmin md_bare = Fin 50 /\ md_vmax md_bare = Fin 150
  /\ predict_with_model no_str_floats first_entry md_bare features_bare
     <> Raise (ValueError MsgNoiseBounds)
  /\ exists r, predict_with_model no_str_floats first_entry md_bare features_bare = Ok r
               /\ Res.base r = Fin 2.
Proof.
  destruct (absent_scaling_defaults no_str_floats first_entry md_bare features_bare)
    as [Hmode Hnoise].
  destruct (Hmode eq_refl eq_refl) as [Hm _].
  destruct (Hnoise eq_refl eq_refl) as (Hmin & Hmax & Hno).
  split; [exact Hm|]. split; [exact Hmin|]. split; [exact Hmax|].
  split; [exact Hno|]. eexists. split; [vm_compute; reflexivity|reflexivity].
Defined.

(** ** C10 *)

Lemma fewer_history_than_window_witness :
  selected_positions md_wide_window = [1; 0]%nat
  /\ exists r,
       predict_with_model no_str_floats first_entry md_wide_window features_two_hist
       = Ok r
       /\ length (Res.x_vector r) = 3%nat.
Proof.
  destruct (fewer_history_than_window no_str_floats first_entry md_wide_window
              features_two_hist)
    as (Hord & _ & Hrun); [reflexivity|reflexivity|].
  split; [reflexivity|].
  destruct Hrun as (base & x & _ & _ & Hlen & Hrun); [reflexivity..|].
  rewrite Hrun. cbn. eexists. split; [reflexivity|]. exact Hlen.
Defined.

(** * Further properties *)

(** ** Further properties of the helpers *)

Lemma filter_enumerate_sorted (f : string -> bool) (names : list string) (k : nat) :
  StronglySorted lt
    ((List.filter (fun p => f p.2) (imap (fun i n => (k + i, n)%nat) names)).*1).
Proof.
  revert k. induction names as [|n names IH]; intros k; cbn; [constructor|].
  assert (StronglySorted lt
            (List.filter (fun p : nat * string => f p.2)
               (imap (fun i n => (k + S i, n)%nat) names)).*1) as Hs.
  { erewrite imap_ext; [apply (IH (S k))|]. intros i x _. cbn. f_equal. lia. }
  assert (forall j, j ∈ (List.filter (fun p : nat * string => f p.2)
               (imap (fun i n => (k + S i, n)%nat) names)).*1 -> (k + 0 < j)%nat) as Hgt.
  { intros j ([j' n'] & -> & Hin)%list_elem_of_fmap.
    apply list_elem_of_In, filter_In in Hin as [Hin _].
    apply list_elem_of_In, elem_of_lookup_imap in Hin as (i & x & [= -> ->] & _).
    cbn. lia. }
  unfold compose. destruct (f n); cbn; [|done].
  constructor; [done|]. by apply Forall_forall.
Qed.

Lemma StronglySorted_lt_NoDup (l : list nat) : StronglySorted lt l -> NoDup l.
Proof.
  induction 1 as [|a l Hs IH Hall]; constructor; [|done].
  intros Hin. apply (proj1 (Forall_forall _ _) Hall) in Hin. lia.
Qed.

Lemma hist_idx_sorted (names : list string) : StronglySorted lt (hist_idx_of names).
Proof. apply (filter_enumerate_sorted (fun n => startswith n "DL_hist_") names 0). Qed.

Lemma noise_idx_sorted (names : list string) : StronglySorted lt (noise_idx_of names).
Proof. apply (filter_enumerate_sorted (fun n => startswith n "noise_") names 0). Qed.

Lemma filter_seq_sorted (f : nat -> bool) (k n : nat) :
  StronglySorted lt (List.filter f (seq k n)).
Proof.
  revert k. induction n as [|n IH]; intros k; cbn; [constructor|].
  destruct (f k); [|apply IH]. constructor; [apply IH|].
  apply Forall_forall. intros j Hj%list_elem_of_In%filter_In.
  destruct Hj as [Hj%in_seq _]. lia.
Qed.

Lemma other_idx_sorted (names : list string) : StronglySorted lt (other_idx_of names).
Proof. apply filter_seq_sorted. Qed.

(** X1.  [split_indices] partitions the indices of [names]: the three
    groups together are a rearrangement of [0 .. len(names)-1], and each
    group lists its indices in increasing order. *)
Theorem split_indices_is_partition (names : list string) :
  (hist_idx_of names ++ noise_idx_of names ++ other_idx_of names)%list
    ≡ₚ seq 0 (length names)
  /\ StronglySorted lt (hist_idx_of names)
  /\ StronglySorted lt (noise_idx_of names)
  /\ StronglySorted lt (other_idx_of names).
Proof.
  split; [|split; [apply hist_idx_sorted|split;
                   [apply noise_idx_sorted|apply other_idx_sorted]]].
  apply NoDup_Permutation.
  - apply NoDup_app. split; [apply StronglySorted_lt_NoDup, hist_idx_sorted|].
    split.
    + intros i Hh [Hn|Ho]%elem_of_app.
      * destruct (split_indices_partition names i (hist_idx_lt _ _ Hh))
          as [(_ & H & _)|[(H & _)|(H & _)]]; done.
      * apply elem_of_other_idx in Ho as (_ & H & _). done.
    + apply NoDup_app. split; [apply StronglySorted_lt_NoDup, noise_idx_sorted|].
      split; [|apply StronglySorted_lt_NoDup, other_idx_sorted].
      intros i Hn Ho. apply elem_of_other_idx in Ho as (_ & _ & H). done.
  - apply NoDup_seq.
  - intros i. rewrite !elem_of_app, elem_of_seq. split.
    + intros [H|[H|H]]; split; try lia.
      * by apply hist_idx_lt. * by apply noise_idx_lt.
      * by apply elem_of_other_idx in H as [].
    + intros [_ Hi]. cbn in Hi.
      destruct (split_indices_partition names i Hi)
        as [(H & _)|[(_ & H & _)|(_ & _ & H)]]; auto.
Qed.

(** ** Further properties of [order_hist_positions] *)

Lemma insertion_sort_sorted_id {A} (l : list (Z * A)) :
  StronglySorted (fun a b => (a.1 <= b.1)%Z) l -> foldr insert_by_key [] l = l.
Proof.
  induction 1 as [|x l Hs IH Hall]; [done|]. cbn. rewrite IH.
  destruct l as [|y l]; [done|]. cbn.
  apply Forall_cons in Hall as [Hxy _].
  destruct (Z.leb_spec x.1 y.1); [done|lia].
Qed.

Lemma zip_keys_sorted (names : list string) (idxs : list nat) (keys : list Z) :
  Forall2 (fun i z => key_at names i = Some z) idxs keys ->
  StronglySorted (key_le names) idxs ->
  forall k, StronglySorted (fun a b : Z * nat => (a.1 <= b.1)%Z)
              (zip keys (seq k (length idxs))).
Proof.
  induction 1 as [|i z idxs keys Hiz HF IH]; intros Hs k; cbn; [constructor|].
  apply StronglySorted_inv in Hs as [Hs Hall].
  constructor; [by apply IH|].
  apply Forall_forall. intros [z' j] Hin. cbn.
  apply elem_of_zip_l, list_elem_of_lookup in Hin as [n Hn].
  destruct (Forall2_lookup_r _ _ _ _ _ HF Hn) as (i' & Hi' & Hkey).
  apply list_elem_of_lookup_2 in Hi'.
  apply (proj1 (Forall_forall _ _) Hall) in Hi'.
  unfold key_le in Hi'. by rewrite Hiz, Hkey in Hi'.
Qed.

(** X2.  With every index in range, [order_hist_positions] returns a
    rearrangement of [hist_idx]: no position is lost or repeated. *)
Theorem order_hist_positions_rearranges (names : list string) (hist_idx : list nat) :
  (forall i, i ∈ hist_idx -> (i < length names)%nat) ->
  exists l, order_hist_positions names hist_idx = Ok l
            /\ l ≡ₚ hist_idx /\ length l = length hist_idx.
Proof.
  intros H. destruct (order_hist_positions_perm names hist_idx H) as (l & Hl & Hp).
  exists l. split; [done|]. split; [done|]. by rewrite Hp.
Qed.

(** X3.  With every index in range and every suffix an integer, the
    positions come back in ascending order of the suffixes. *)
Theorem order_hist_positions_ascending (names : list string) (hist_idx l : list nat) :
  (forall i, i ∈ hist_idx -> (i < length names)%nat) ->
  Forall (fun i => is_Some (key_at names i)) hist_idx ->
  order_hist_positions names hist_idx = Ok l ->
  StronglySorted (key_le names) l.
Proof. apply order_hist_positions_sorted. Qed.

(** X4.  The sort is stable: positions whose suffixes already ascend in the
    given order (ties included) come back unchanged. *)
Theorem order_hist_positions_keeps_ascending (names : list string) (hist_idx : list nat) :
  (forall i, i ∈ hist_idx -> (i < length names)%nat) ->
  StronglySorted (key_le names) hist_idx ->
  Forall (fun i => is_Some (key_at names i)) hist_idx ->
  order_hist_positions names hist_idx = Ok hist_idx.
Proof.
  intros Hlt Hs Hkeys. rewrite (order_hist_positions_eq _ _ Hlt).
  destruct (mapM hist_key _) as [keys|] eqn:E.
  - apply keys_of_mapM in E. unfold sorted_by_key.
    rewrite insertion_sort_sorted_id by (by eapply zip_keys_sorted).
    rewrite snd_zip by (apply Forall2_length in E; rewrite length_seq; lia).
    by rewrite fmap_lookup_seq.
  - done.
Qed.

Lemma mapM_getitem_raise (names : list string) (idxs : list nat) :
  Exists (fun i => (length names <= i)%nat) idxs ->
  mapM (getitem names) idxs = Raise IndexError.
Proof.
  induction 1 as [i idxs Hi|i idxs Hex IH]; cbn.
  - unfold getitem. by rewrite (proj2 (lookup_ge_None names i) Hi).
  - destruct (getitem names i) as [n|e] eqn:E.
    + rewrite result_bind_ok, IH. reflexivity.
    + unfold getitem in E. destruct (names !! i); [done|]. by injection E as <-.
Qed.

(** X5.  An index beyond the end of [feature_names] is not covered by the
    fallback: the [IndexError] of the name lookup escapes. *)
Theorem order_hist_positions_index_error (names : list string) (hist_idx : list nat) :
  Exists (fun i => (length names <= i)%nat) hist_idx ->
  order_hist_positions names hist_idx = Raise IndexError.
Proof.
  intros Hex. unfold order_hist_positions.
  rewrite (mapM_getitem_raise _ _ Hex). destruct hist_idx; [|done].
  by apply Exists_nil in Hex.
Qed.

(** ** Further properties of the window base and the noise scaling *)

Lemma inject_Z_length_succ {A} (a : A) (l : list A) :
  (inject_Z (Z.of_nat (length (a :: l))) == inject_Z (Z.of_nat (length l)) + 1)%Q.
Proof.
  cbn [length]. rewrite Nat2Z.inj_succ, <- Z.add_1_r, inject_Z_plus. reflexivity.
Qed.

Lemma sum_ge_floor (c : Q) (l : list Q) :
  Forall (fun v => (c <= v)%Q) l ->
  (c * inject_Z (Z.of_nat (length l)) <= fold_right Qplus 0 l)%Q.
Proof.
  induction 1 as [|a l Ha Hall IH].
  - cbn [length fold_right]. change (inject_Z (Z.of_nat 0)) with 0%Q. lra.
  - rewrite inject_Z_length_succ, Qmult_plus_distr_r, Qmult_1_r.
    cbn [fold_right]. lra.
Qed.

Lemma length_pos_Q {A} (l : list A) : l <> [] -> (0 < inject_Z (Z.of_nat (length l)))%Q.
Proof.
  intros Hl. destruct l as [|a l]; [done|].
  change 0%Q with (inject_Z 0). rewrite <- Zlt_Qlt. cbn [length]. lia.
Qed.

(** X6.  On a non-empty window whose values are all at least 1e-8 the floor
    does not act: the base is the mean under [window_mean] and the last
    value under [window_anchor]. *)
Theorem compute_window_base_floor_inactive (l : list Q) :
  l <> [] ->
  Forall (fun v => (1e-8 <= v)%Q) l ->
  (exists b, compute_window_base (Fin <$> l) "window_mean" = Ok (Fin b)
             /\ (b == arithmetic_mean l)%Q)
  /\ (exists z, last l = Some z
                /\ compute_window_base (Fin <$> l) "window_anchor" = Ok (Fin z)).
Proof.
  intros Hl Hall. split.
  - assert (1e-8 <= foldl Qplus 0 l / inject_Z (Z.of_nat (length l)))%Q as Hge.
    { apply Qle_shift_div_l; [by apply length_pos_Q|].
      rewrite foldl_Qplus, Qplus_0_l. by apply sum_ge_floor. }
    eexists. split.
    + unfold compute_window_base. cbn [String.eqb Ascii.eqb Bool.eqb].
      rewrite np_mean_Fin, result_bind_ok, py_max_keep by (done || by apply Qle_bool_iff).
      reflexivity.
    + unfold arithmetic_mean. by rewrite foldl_Qplus, Qplus_0_l.
  - destruct (last l) as [z|] eqn:E; [|by apply last_None in E].
    exists z. split; [done|]. unfold compute_window_base, last_item.
    cbn [String.eqb Ascii.eqb Bool.eqb]. rewrite fmap_last, E. cbn [fmap option_fmap option_map].
    rewrite result_bind_ok, py_max_keep; [done|].
    apply last_Some_elem_of in E. apply Qle_bool_iff.
    by apply (proj1 (Forall_forall _ _) Hall).
Qed.

Lemma float_abs_opp (v : float) : float_abs (float_opp v) = float_abs v.
Proof.
  destruct v as [[n d]| | |]; try done. unfold float_abs, float_opp, Qabs, Qopp. cbn.
  by rewrite Z.abs_opp.
Qed.

(** X7.  The noise scaling looks at the magnitude only: a level and its
    negation scale alike, whatever the bounds. *)
Theorem scale_noise_abs_db_sign (v vmin vmax : float) :
  scale_noise_abs_db (float_opp v) vmin vmax = scale_noise_abs_db v vmin vmax.
Proof. unfold scale_noise_abs_db. by rewrite float_abs_opp. Qed.

Lemma ratio_le_0 (a c : Q) : (0 < c)%Q -> (a <= 0)%Q -> (a / c <= 0)%Q.
Proof. intros Hc Ha. apply Qle_shift_div_r; [done|]. lra. Qed.

Lemma ratio_ge_1 (a c : Q) : (0 < c)%Q -> (c <= a)%Q -> (1 <= a / c)%Q.
Proof. intros Hc Ha. apply Qle_shift_div_l; [done|]. lra. Qed.

Lemma ratio_ge_0 (a c : Q) : (0 < c)%Q -> (0 <= a)%Q -> (0 <= a / c)%Q.
Proof. intros Hc Ha. apply Qle_shift_div_l; [done|]. lra. Qed.

Lemma ratio_le_1 (a c : Q) : (0 < c)%Q -> (a <= c)%Q -> (a / c <= 1)%Q.
Proof. intros Hc Ha. apply Qle_shift_div_r; [done|]. lra. Qed.

Lemma ratio_mono (a b c : Q) : (0 < c)%Q -> (a <= b)%Q -> (a / c <= b / c)%Q.
Proof.
  intros Hc Hab. unfold Qdiv. apply Qmult_le_compat_r; [done|].
  apply Qlt_le_weak, Qinv_lt_0_compat, Hc.
Qed.

Lemma clamp01_mono (r s : Q) : (r <= s)%Q -> (clamp01 r <= clamp01 s)%Q.
Proof.
  intros H. unfold clamp01.
  destruct (Qle_bool r 0) eqn:E1; destruct (Qle_bool s 0) eqn:E2;
    destruct (Qle_bool 1 r) eqn:E3; destruct (Qle_bool 1 s) eqn:E4;
    repeat match goal with
      | H : Qle_bool _ _ = true |- _ => apply Qle_bool_iff in H
      | H : Qle_bool _ _ = false |- _ => apply Qle_bool_false in H
      end; lra.
Qed.

Lemma scale_noise_abs_db_Fin (v vmin vmax : Q) :
  (vmin < vmax)%Q ->
  exists r, scale_noise_abs_db (Fin v) (Fin vmin) (Fin vmax) = Ok (Fin r)
            /\ (r == clamp01 ((Qabs v - vmin) / (vmax - vmin)))%Q.
Proof.
  intros H. destruct (noise_scaled_Fin v vmin vmax) as (r & Hr & Heq).
  exists r. by rewrite scale_noise_abs_db_ok, Hr by (by apply float_le_Fin_false).
Qed.

(** X8.  With [vmin < vmax], a magnitude at or below [vmin] scales to 0,
    one at or above [vmax] scales to 1, and one in between scales linearly. *)
Theorem scale_noise_abs_db_saturates (v vmin vmax : Q) :
  (vmin < vmax)%Q ->
  exists r, scale_noise_abs_db (Fin v) (Fin vmin) (Fin vmax) = Ok (Fin r)
    /\ ((Qabs v <= vmin)%Q -> (r == 0)%Q)
    /\ ((vmax <= Qabs v)%Q -> (r == 1)%Q)
    /\ ((vmin <= Qabs v)%Q -> (Qabs v <= vmax)%Q ->
        (r == (Qabs v - vmin) / (vmax - vmin))%Q).
Proof.
  intros H. destruct (scale_noise_abs_db_Fin v vmin vmax H) as (r & Hrun & Heq).
  exists r. split; [done|]. clear Hrun.
  assert (0 < vmax - vmin)%Q as Hc by lra.
  rewrite Heq. unfold clamp01. split; [|split].
  - intros Hle. pose proof (ratio_le_0 (Qabs v - vmin) _ Hc) as Hr.
    destruct (Qle_bool _ 0) eqn:E; [done|]. apply Qle_bool_false in E. lra.
  - intros Hge. pose proof (ratio_ge_1 (Qabs v - vmin) _ Hc) as Hr.
    destruct (Qle_bool _ 0) eqn:E1; [apply Qle_bool_iff in E1; lra|].
    destruct (Qle_bool 1 _) eqn:E2; [done|]. apply Qle_bool_false in E2. lra.
  - intros Hlo Hhi.
    pose proof (ratio_ge_0 (Qabs v - vmin) _ Hc) as Hr0.
    pose proof (ratio_le_1 (Qabs v - vmin) _ Hc) as Hr1.
    destruct (Qle_bool _ 0) eqn:E1; [apply Qle_bool_iff in E1; lra|].
    destruct (Qle_bool 1 _) eqn:E2; [apply Qle_bool_iff in E2; lra|done].
Qed.

(** X9.  With [vmin < vmax] the scaling is monotone in the magnitude. *)
Theorem scale_noise_abs_db_monotone (v w vmin vmax : Q) :
  (vmin < vmax)%Q -> (Qabs v <= Qabs w)%Q ->
  exists r s, scale_noise_abs_db (Fin v) (Fin vmin) (Fin vmax) = Ok (Fin r)
              /\ scale_noise_abs_db (Fin w) (Fin vmin) (Fin vmax) = Ok (Fin s)
              /\ (r <= s)%Q.
Proof.
  intros H Hvw.
  destruct (scale_noise_abs_db_Fin v vmin vmax H) as (r & Hr & Heqr).
  destruct (scale_noise_abs_db_Fin w vmin vmax H) as (s & Hs & Heqs).
  exists r, s. split; [done|]. split; [done|].
  rewrite Heqr, Heqs. apply clamp01_mono, ratio_mono; lra.
Qed.

(** X10.  With finite bounds, [scale_noise_abs_db] raises
    [ZeroDivisionError] exactly when the two bounds are equal, whatever the
    level (NaN and the infinities included), and raises nothing else. *)
Theorem scale_noise_abs_db_zero_division (v : float) (vmin vmax : Q) :
  ((vmax == vmin)%Q ->
   scale_noise_abs_db v (Fin vmin) (Fin vmax) = Raise ZeroDivisionError)
  /\ (~ (vmax == vmin)%Q ->
      scale_noise_abs_db v (Fin vmin) (Fin vmax)
      = Ok (noise_scaled v (Fin vmin) (Fin vmax))).
Proof.
  unfold scale_noise_abs_db, py_div, noise_scaled. cbn [float_sub].
  destruct (Qeq_bool (vmax - vmin) 0) eqn:E.
  - apply Qeq_bool_iff in E. split; [done|]. intros Hne. exfalso. apply Hne. lra.
  - apply Qeq_bool_neq in E. split; [|done]. intros Heq. exfalso. apply E. lra.
Qed.

(** ** What a success of the pipeline certifies *)

Lemma for_each_invariant {A S} (P : S -> Prop) (l : list A)
    (body : S -> A -> result S) (s s' : S) :
  P s ->
  (forall s1 a s2, a ∈ l -> P s1 -> body s1 a = Ok s2 -> P s2) ->
  for_each l body s = Ok s' -> P s'.
Proof.
  revert s. induction l as [|a l IH]; intros s Hs Hstep; cbn.
  - by intros [= <-].
  - destruct (body s a) as [s1|] eqn:E; [|done]. rewrite result_bind_ok.
    apply IH.
    + eapply Hstep; [left|done|done].
    + intros s2 b s3 Hb. apply Hstep. by right.
Qed.

Lemma for_each_ok_inv {A S} (P : S -> Prop) (l : list A)
    (body : S -> A -> result S) (s s' : S) :
  P s ->
  (forall s1 a s2, a ∈ l -> P s1 -> body s1 a = Ok s2 -> P s2) ->
  for_each l body s = Ok s' ->
  forall a, a ∈ l -> exists s1 s2, P s1 /\ body s1 a = Ok s2.
Proof.
  revert s. induction l as [|a l IH]; intros s Hs Hstep; cbn.
  - intros _ b Hb. by apply elem_of_nil in Hb.
  - destruct (body s a) as [s1|] eqn:E; [|done]. rewrite result_bind_ok.
    intros Hrun b [->|Hb]%elem_of_cons.
    + by exists s, s1.
    + eapply (IH s1); [|intros s2 c s3 Hc; apply Hstep; by right|done|done].
      eapply Hstep; [left|done|done].
Qed.

Lemma for_each_raise_inv {A S} (P : S -> Prop) (l : list A)
    (body : S -> A -> result S) (s : S) (e : PyExc) :
  P s ->
  (forall s1 a s2, a ∈ l -> P s1 -> body s1 a = Ok s2 -> P s2) ->
  for_each l body s = Raise e ->
  exists a s1, a ∈ l /\ P s1 /\ body s1 a = Raise e.
Proof.
  revert s. induction l as [|a l IH]; intros s Hs Hstep; cbn; [done|].
  destruct (body s a) as [s1|e1] eqn:E.
  - rewrite result_bind_ok. intros Hrun.
    destruct (IH s1) as (b & s2 & Hb & Hs2 & Hbody); [| |done|].
    + eapply Hstep; [left|done|done].
    + intros s2 c s3 Hc. apply Hstep. by right.
    + exists b, s2. split; [by right|done].
  - intros [= ->]. exists a, s. split; [left|done].
Qed.

Lemma setitem_length {A} (l l' : list A) (i : nat) (v : A) :
  setitem l i v = Ok l' -> length l' = length l.
Proof.
  unfold setitem. destruct (bool_decide _); [|done]. intros [= <-].
  apply length_insert.
Qed.

Section Inversion.

Variable float_of_str : string -> option float.

Lemma noise_step_length (names : list string) (features : gmap string PyVal)
    (vmin vmax : float) (x x' : list float) (pos : nat) :
  noise_step float_of_str names features vmin vmax x pos = Ok x' ->
  length x' = length x
  /\ is_numeric float_of_str features (name_at names pos) = true.
Proof.
  unfold noise_step, getitem, name_at, is_numeric.
  destruct (names !! pos) as [n|]; [|done]. cbn.
  destruct (contains features n); [|done]. cbn.
  destruct (feature_float _ _ _) as [q|]; [|done]. cbn.
  destruct (scale_noise_abs_db _ _ _); [|done]. cbn.
  intros H%setitem_length. done.
Qed.

Lemma other_step_length (names : list string) (features : gmap string PyVal)
    (x x' : list float) (pos : nat) :
  other_step float_of_str names features x pos = Ok x' ->
  length x' = length x
  /\ (contains features (name_at names pos) = true ->
      is_numeric float_of_str features (name_at names pos) = true).
Proof.
  unfold other_step, getitem, name_at, is_numeric.
  destruct (names !! pos) as [n|]; [|done]. cbn.
  destruct (contains features n); [|by intros [= <-]].
  destruct (feature_float _ _ _) as [q|]; [|done]. cbn.
  destruct (setitem x pos q) eqn:E; [|done]. cbn. intros [= <-].
  by apply setitem_length in E.
Qed.

Lemma build_vector_ok_inv (names : list string) (features : gmap string PyVal)
    (mode : string) (vmin vmax : float) (sel noise_idx other_idx : list nat)
    (hist_raw : list float) (base : float) (x : list float) :
  build_vector float_of_str names features mode vmin vmax sel noise_idx other_idx
    hist_raw base = Ok x ->
  forallb (fun i => is_numeric float_of_str features (name_at names i)) noise_idx = true
  /\ forallb (fun i => negb (contains features (name_at names i))
                       || is_numeric float_of_str features (name_at names i))
       other_idx = true.
Proof.
  unfold build_vector.
  destruct (if String.eqb mode "none" then _ else _) as [hs|]; [|done].
  rewrite result_bind_ok.
  destruct (for_each (zip sel hs) _ _) as [x1|]; [|done]. rewrite result_bind_ok.
  destruct (for_each noise_idx _ _) as [x2|] eqn:E2; [|done]. rewrite result_bind_ok.
  intros E3. split; apply forallb_forall; intros i Hi%list_elem_of_In.
  - destruct (for_each_ok_inv (fun _ => True) _ _ _ _ I (fun _ _ _ _ _ _ => I) E2 i Hi)
      as (s1 & s2 & _ & Hstep).
    by apply noise_step_length in Hstep as [_ ?].
  - destruct (for_each_ok_inv (fun _ => True) _ _ _ _ I (fun _ _ _ _ _ _ => I) E3 i Hi)
      as (s1 & s2 & _ & Hstep).
    apply other_step_length in Hstep as [_ Hnum].
    destruct (contains features _); [|done]. by rewrite Hnum.
Qed.

Lemma collect_history_ok_inv (md : Metadata) (features : gmap string PyVal)
    (hr : list float) :
  collect_history float_of_str (md_feature_names md) features (selected_positions md)
  = Ok hr ->
  hr = hist_raw_of float_of_str md features
  /\ forallb (fun i => is_numeric float_of_str features
                         (name_at (md_feature_names md) i))
       (selected_positions md) = true.
Proof.
  rewrite collect_history_eq by apply selected_positions_lt.
  destruct (List.filter _ _); [|done].
  destruct (mapM _ _) as [r|] eqn:E; [|done]. intros [= <-].
  by apply mapM_feature_float_inv in E.
Qed.

Lemma history_accepted_of_checks (md : Metadata) (features : gmap string PyVal) :
  forallb (fun i => is_numeric float_of_str features (name_at (md_feature_names md) i))
    (selected_positions md) = true ->
  existsb (fun v => float_le v (Fin 0)) (hist_raw_of float_of_str md features) = false ->
  history_accepted float_of_str md features = true.
Proof.
  intros Hnum Hpos. unfold history_accepted. rewrite forallb_forall in *.
  intros i Hi. specialize (Hnum i Hi). unfold passes_sign_check.
  rewrite (is_numeric_raw_at _ _ _ _ Hnum).
  destruct (float_le _ (Fin 0)) eqn:Hle; [|done].
  assert (existsb (fun v => float_le v (Fin 0)) (hist_raw_of float_of_str md features) = true)
    as Habs; [|congruence].
  apply existsb_exists. eexists. split; [|exact Hle].
  apply list_elem_of_In, list_elem_of_fmap. exists i.
  split; [done|by apply list_elem_of_In].
Qed.

(** A result is returned only for valid metadata and a feature map that
    the validation lets through. *)
Lemma predict_with_model_ok_inv (model : list float -> option float) (md : Metadata)
    (features : gmap string PyVal) (r : Res.t) :
  predict_with_model float_of_str model md features = Ok r ->
  valid_metadata md = true
  /\ history_accepted float_of_str md features = true
  /\ noise_ok float_of_str md features = true
  /\ others_ok float_of_str md features = true.
Proof.
  intros Hrun.
  assert (passes_config_checks md = true) as Hcfg.
  { apply config_failure_none. destruct (config_failure md) as [m|] eqn:E; [|done].
    rewrite (config_failure_raises _ model md features m E) in Hrun. done. }
  rewrite (predict_with_model_checked _ _ _ _ Hcfg) in Hrun.
  destruct (collect_history _ _ _ _) as [hr|] eqn:Ec; [|done].
  rewrite result_bind_ok in Hrun.
  apply collect_history_ok_inv in Ec as [-> Hnum].
  destruct (existsb _ _) eqn:Hex; [done|].
  pose proof (history_accepted_of_checks _ _ Hnum Hex) as Hh.
  destruct (compute_window_base _ _) as [base|] eqn:Eb; [|done].
  rewrite result_bind_ok in Hrun.
  destruct (build_vector _ _ _ _ _ _ _ _ _ _ _) as [x|] eqn:Ex; [|done].
  apply build_vector_ok_inv in Ex as [Hn Ho].
  unfold valid_metadata. rewrite Hcfg. cbn.
  split; [|done].
  destruct (recognised_mode _) eqn:Hr; [done|].
  by rewrite (compute_window_base_unknown _ _ Hr) in Eb.
Qed.

End Inversion.

Section PipelineExtras.

Variable float_of_str : string -> option float.

(** X11.  A returned result certifies its inputs and is fully determined:
    the metadata is valid, the feature map passed the validation (the
    selected history values convert and none is [<= 0]; the noise values
    convert; the other values convert when present), the vector is the
    expected one for the base that [compute_window_base] gives on the raw
    history, that base is not below 1e-8, the scaled prediction is the
    estimator's answer on that vector, and the prediction is the scaled
    prediction times the base. *)
Theorem predict_with_model_result (model : list float -> option float) (md : Metadata)
    (features : gmap string PyVal) (r : Res.t) :
  predict_with_model float_of_str model md features = Ok r ->
  valid_metadata md = true
  /\ history_accepted float_of_str md features = true
  /\ noise_ok float_of_str md features = true
  /\ others_ok float_of_str md features = true
  /\ compute_window_base (hist_raw_of float_of_str md features)
       (md_window_scale_mode md) = Ok (Res.base r)
  /\ float_lt (Res.base r) (Fin 1e-8) = false
  /\ Res.x_vector r = expected_vector float_of_str md features (Res.base r)
  /\ length (Res.x_vector r) = length (md_feature_names md)
  /\ model (Res.x_vector r) = Some (Res.y_pred_scaled r)
  /\ Res.y_pred r = float_mul (Res.y_pred_scaled r) (Res.base r)
  /\ Res.feature_names r = md_feature_names md.
Proof.
  intros Hrun.
  destruct (predict_with_model_ok_inv _ _ _ _ _ Hrun) as (Hv & Hh & Hn & Ho).
  destruct (predict_with_model_ok float_of_str model md features Hv Hh Hn Ho)
    as (base & Hbase & Hfloor & Heq).
  rewrite Heq in Hrun.
  destruct (model _) as [y|] eqn:Hy; [|done]. injection Hrun as <-. cbn.
  repeat (split; [done|]). split; [apply expected_vector_length|done].
Qed.

Lemma float_lt_le (a b : float) : float_lt a b = true -> float_le a b = true.
Proof.
  destruct a as [p| | |], b as [q| | |]; cbn; try done.
  intros H%negb_true_iff%Qle_bool_false. by apply Qle_bool_iff, Qlt_le_weak.
Qed.

(** The two builtins of the noise scaling on any ratio: NaN for NaN, a
    number between 0 and 1 otherwise (0 for minus infinity, 1 for
    infinity). *)
Lemma py_clamp_range (r : float) :
  (r = NaN -> py_min (py_max r (Fin 0)) (Fin 1) = NaN)
  /\ (py_min (py_max r (Fin 0)) (Fin 1) = NaN
      \/ exists q, py_min (py_max r (Fin 0)) (Fin 1) = Fin q /\ (0 <= q)%Q /\ (q <= 1)%Q).
Proof.
  split; [by intros ->|]. destruct r as [q| | |].
  - right. destruct (py_clamp_clamp01 q) as (c & -> & Heq). exists c.
    split; [done|]. rewrite Heq. apply clamp01_bounds.
  - right. exists 1%Q. split; [done|]. split; [lra|apply Qle_refl].
  - right. exists 0%Q. split; [done|]. split; [apply Qle_refl|lra].
  - by left.
Qed.

Lemma noise_scaled_nan (vmin vmax : float) : noise_scaled NaN vmin vmax = NaN.
Proof. done. Qed.

(** A value that passed the check [v <= 0.0], divided by a base that is
    not below the floor, is not below 0. *)
Lemma hist_scaled_not_negative (mode : string) (base v : float) :
  float_le v (Fin 0) = false -> float_lt base (Fin 1e-8) = false ->
  float_lt (hist_scaled_value mode base v) (Fin 0) = false.
Proof.
  intros Hv Hb. unfold hist_scaled_value. destruct (String.eqb mode "none").
  { destruct (float_lt v (Fin 0)) eqn:E; [|done]. apply float_lt_le in E. congruence. }
  destruct v as [q| | |], base as [b| | |]; try done; cbn in *.
  - apply Qle_bool_false in Hv. apply negb_false_iff, Qle_bool_iff in Hb.
    apply negb_false_iff, Qle_bool_iff.
    apply Qle_shift_div_l; [|lra]. eapply Qlt_le_trans; [|exact Hb]. done.
  - apply negb_false_iff, Qle_bool_iff in Hb. unfold signed_inf.
    destruct (Qeq_bool b 0); [done|].
    assert (Qle_bool 0 b = true) as ->; [|done].
    apply Qle_bool_iff. eapply Qle_trans; [|exact Hb]. done.
Qed.

(** X12.  In a returned vector every noise entry is a number between 0 and
    1 or NaN, and it is NaN when the noise value is NaN; no selected
    history entry is below 0. *)
Theorem x_vector_entry_ranges (model : list float -> option float) (md : Metadata)
    (features : gmap string PyVal) (r : Res.t) :
  predict_with_model float_of_str model md features = Ok r ->
  (forall i, i ∈ noise_idx_of (md_feature_names md) ->
     exists e, Res.x_vector r !! i = Some e
       /\ (e = NaN \/ exists q, e = Fin q /\ (0 <= q)%Q /\ (q <= 1)%Q)
       /\ (raw_at float_of_str (md_feature_names md) features i = NaN -> e = NaN))
  /\ (forall i, i ∈ selected_positions md ->
        exists e, Res.x_vector r !! i = Some e /\ float_lt e (Fin 0) = false).
Proof.
  intros Hrun.
  destruct (predict_with_model_ok_inv _ _ _ _ _ Hrun) as (Hv & Hh & Hn & Ho).
  destruct (predict_with_model_ok float_of_str model md features Hv Hh Hn Ho)
    as (base & Hbase & Hfloor & Heq).
  rewrite Heq in Hrun.
  destruct (model _) as [y|] eqn:Hy; [|done]. injection Hrun as <-. cbn.
  split.
  - intros i Hi. pose proof Hi as (n & Hname & Hp)%elem_of_noise_idx.
    eexists. split; [apply expected_vector_lookup; by apply noise_idx_lt|].
    rewrite (group_transform_not_selected _ _ _ _ _ n Hname), Hp.
    + split; [apply py_clamp_range|]. intros ->. apply noise_scaled_nan.
    + intros (n' & Hname' & Hp')%selected_positions_hist%elem_of_hist_idx.
      rewrite Hname in Hname'. injection Hname' as <-.
      apply prefixes_exclusive in Hp'. congruence.
  - intros i Hi.
    eexists. split; [apply expected_vector_lookup; by apply selected_positions_lt|].
    rewrite group_transform_selected by done.
    apply hist_scaled_not_negative; [|done].
    apply passes_sign_check_raw_at. unfold history_accepted in Hh.
    rewrite forallb_forall in Hh. by apply Hh, list_elem_of_In.
Qed.

Lemma float_mul_1_r (a : float) : float_mul a (Fin 1) = a.
Proof.
  destruct a as [[n d]| | |]; try done. unfold float_mul, Qmult. cbn.
  by rewrite Z.mul_1_r, Pos.mul_1_r.
Qed.

(** X13.  Under [none] the scaling is the identity: the base is 1, the
    selected history entries of the vector are the raw values, and the
    prediction is the estimator's answer itself. *)
Theorem none_mode_is_identity (model : list float -> option float)
    (md : Metadata) (features : gmap string PyVal) (r : Res.t) :
  md_window_scale_mode md = "none" ->
  predict_with_model float_of_str model md features = Ok r ->
  Res.base r = Fin 1
  /\ (forall i, i ∈ selected_positions md ->
        Res.x_vector r !! i
        = Some (raw_at float_of_str (md_feature_names md) features i))
  /\ Res.y_pred r = Res.y_pred_scaled r.
Proof.
  intros Hmode Hrun.
  destruct (predict_with_model_ok_inv _ _ _ _ _ Hrun) as (Hv & Hh & Hn & Ho).
  destruct (predict_with_model_ok float_of_str model md features Hv Hh Hn Ho)
    as (base & Hbase & Hfloor & Heq).
  rewrite Heq in Hrun.
  destruct (model _) as [y|] eqn:Hy; [|done]. injection Hrun as <-. cbn.
  rewrite Hmode in Hbase. injection Hbase as <-.
  split; [done|]. split; [|apply float_mul_1_r].
  intros i Hi. rewrite expected_vector_lookup by (by apply selected_positions_lt).
  rewrite group_transform_selected by done. unfold hist_scaled_value.
  by rewrite Hmode.
Qed.

(** X14.  With a positive [window_size] the pipeline works with the first
    [window_size] of the ordered history positions: their number is the
    smaller of [window_size] and the number of history features. *)
Theorem selected_positions_prefix (md : Metadata) :
  (0 < md_window_size md)%Z ->
  exists ord,
    order_hist_positions (md_feature_names md) (hist_idx_of (md_feature_names md))
    = Ok ord
    /\ selected_positions md = take (Z.to_nat (md_window_size md)) ord
    /\ length (selected_positions md)
       = Nat.min (Z.to_nat (md_window_size md))
           (length (hist_idx_of (md_feature_names md))).
Proof.
  intros _.
  destruct (select_hist_positions_ok (md_feature_names md) (md_window_size md))
    as (ord & Hord & Hperm & Hsel).
  exists ord. split; [done|].
  assert (selected_positions md = take (Z.to_nat (md_window_size md)) ord) as ->.
  { unfold selected_positions. rewrite Hsel.
    destruct (Z.eqb_spec (Z.of_nat (length (hist_idx_of (md_feature_names md))))
                (md_window_size md)) as [Heq|Hne]; cbn; [|done].
    rewrite take_ge; [done|]. rewrite Hperm. lia. }
  split; [done|]. by rewrite length_take, Hperm.
Qed.

Lemma foldl_float_add_nan_l (l : list float) : foldl float_add NaN l = NaN.
Proof. induction l as [|a l IH]; [done|]. cbn [foldl]. exact IH. Qed.

Lemma foldl_float_add_nan (l : list float) (a : float) :
  NaN ∈ l -> foldl float_add a l = NaN.
Proof.
  revert a. induction l as [|b l IH]; intros a; [by intros ?%elem_of_nil|].
  intros [<-|Hin]%elem_of_cons; cbn [foldl].
  - assert (float_add a NaN = NaN) as -> by (by destruct a).
    apply foldl_float_add_nan_l.
  - by apply IH.
Qed.

Lemma np_mean_nan (l : list float) : NaN ∈ l -> np_mean l = NaN.
Proof.
  intros Hin. unfold np_mean. destruct l as [|a l]; [by apply elem_of_nil in Hin|].
  by rewrite foldl_float_add_nan.
Qed.

Lemma float_mul_nan_r (a : float) : float_mul a NaN = NaN.
Proof. by destruct a. Qed.

(** X25.  A NaN history value passes the validation and poisons the
    result.  With valid metadata under [window_mean] and a feature map that
    the validation lets through (the selected history values convert and
    none is [<= 0]; noise and other features in order), one selected
    history value being NaN, the pipeline reaches the estimator and, when
    the estimator answers, returns NaN as base and as prediction. *)
Theorem nan_history_poisons_prediction (model : list float -> option float)
    (md : Metadata) (features : gmap string PyVal) (i : nat) :
  valid_metadata md = true ->
  md_window_scale_mode md = "window_mean" ->
  history_accepted float_of_str md features = true ->
  noise_ok float_of_str md features = true ->
  others_ok float_of_str md features = true ->
  i ∈ selected_positions md ->
  raw_at float_of_str (md_feature_names md) features i = NaN ->
  predict_with_model float_of_str model md features =
    match model (expected_vector float_of_str md features NaN) with
    | Some y =>
        Ok {| Res.y_pred := NaN;
              Res.y_pred_scaled := y;
              Res.base := NaN;
              Res.x_vector := expected_vector float_of_str md features NaN;
              Res.feature_names := md_feature_names md |}
    | None => Raise EstimatorError
    end.
Proof.
  intros Hv Hmode Hh Hn Ho Hi Hnan.
  destruct (predict_with_model_ok float_of_str model md features Hv Hh Hn Ho)
    as (base & Hbase & _ & ->).
  assert (base = NaN) as ->.
  { rewrite Hmode in Hbase. unfold compute_window_base in Hbase.
    cbn [String.eqb Ascii.eqb Bool.eqb] in Hbase.
    rewrite np_mean_nan, result_bind_ok in Hbase; [by injection Hbase as <-|].
    unfold hist_raw_of. apply list_elem_of_fmap. by exists i. }
  destruct (model _) as [y|]; [|done]. by rewrite float_mul_nan_r.
Qed.

End PipelineExtras.

Section Exceptions.

Variable float_of_str : string -> option float.

(** ** The exceptions that leave the pipeline *)

(** [float] raises one of three exceptions. *)
Lemma py_float_raise (v : PyVal) (e : PyExc) :
  py_float float_of_str v = Raise e ->
  (exists s, e = ValueError (MsgFloatOfString s)) \/ e = TypeError \/ e = OverflowError.
Proof.
  destruct v as [f|z|b|s| |]; cbn [py_float]; try done.
  - destruct (_ <? _)%Z; [done|]. intros [= <-]. by right; right.
  - destruct (float_of_str s); [done|]. intros [= <-]. left. by exists s.
  - intros [= <-]. by right; left.
  - intros [= <-]. by right; left.
Qed.

Lemma noise_step_raise_cases (names : list string) (features : gmap string PyVal)
    (vmin vmax : float) (x : list float) (pos : nat) (e : PyExc) :
  (pos < length names)%nat -> length x = length names ->
  float_le vmax vmin = false ->
  noise_step float_of_str names features vmin vmax x pos = Raise e ->
  (contains features (name_at names pos) = false
   /\ e = ValueError (MsgMissingNoise (name_at names pos)))
  \/ (exists v, features !! name_at names pos = Some v
                /\ py_float float_of_str v = Raise e).
Proof.
  intros Hpos Hx Hv. unfold noise_step, getitem.
  destruct (lookup_lt_is_Some_2 names pos Hpos) as [n Hn].
  assert (name_at names pos = n) as -> by (unfold name_at; by rewrite Hn).
  rewrite Hn, result_bind_ok.
  destruct (contains features n) eqn:Hc; cbn [negb]; [|intros [= <-]; by left].
  unfold feature_float, get_feature.
  apply bool_decide_eq_true in Hc as [v Hv']. rewrite Hv', result_bind_ok.
  destruct (py_float float_of_str v) as [f|e'] eqn:Hf.
  - rewrite result_bind_ok, scale_noise_abs_db_ok, result_bind_ok, setitem_ok
      by (done || lia). done.
  - intros [= <-]. right. by exists v.
Qed.

Lemma other_step_raise_cases (names : list string) (features : gmap string PyVal)
    (x : list float) (pos : nat) (e : PyExc) :
  (pos < length names)%nat ->
  other_step float_of_str names features x pos = Raise e ->
  e = ValueError (MsgNotNumeric (name_at names pos)).
Proof.
  intros Hpos. unfold other_step, getitem.
  destruct (lookup_lt_is_Some_2 names pos Hpos) as [n Hn].
  assert (name_at names pos = n) as -> by (unfold name_at; by rewrite Hn).
  rewrite Hn, result_bind_ok. destruct (contains features n); [|done].
  destruct (feature_float _ _ _ ≫= _); cbn; [done|]. by intros [= <-].
Qed.

Lemma build_vector_raise_cases (md : Metadata) (features : gmap string PyVal)
    (base : float) (e : PyExc) :
  passes_config_checks md = true -> float_lt base (Fin 1e-8) = false ->
  build_vector float_of_str (md_feature_names md) features
    (md_window_scale_mode md) (md_vmin md) (md_vmax md)
    (selected_positions md) (noise_idx_of (md_feature_names md))
    (other_idx_of (md_feature_names md))
    (hist_raw_of float_of_str md features) base = Raise e ->
  (exists i, i ∈ noise_idx_of (md_feature_names md)
     /\ ((contains features (name_at (md_feature_names md) i) = false
          /\ e = ValueError (MsgMissingNoise (name_at (md_feature_names md) i)))
         \/ (exists v, features !! name_at (md_feature_names md) i = Some v
                       /\ py_float float_of_str v = Raise e)))
  \/ (exists i, i ∈ other_idx_of (md_feature_names md)
        /\ e = ValueError (MsgNotNumeric (name_at (md_feature_names md) i))).
Proof.
  intros Hcfg Hb. apply passes_config_checks_inv in Hcfg as (_ & _ & Hv & _).
  unfold build_vector. rewrite (hist_scaled_ok _ _ _ _ Hb), result_bind_ok.
  set (g1 := fun i => hist_scaled_value (md_window_scale_mode md) base
                        (raw_at float_of_str (md_feature_names md) features i)).
  rewrite for_each_zip_fmap.
  set (x0 := replicate (length (md_feature_names md)) (Fin 0)).
  assert (length x0 = length (md_feature_names md)) as Hl0 by apply length_replicate.
  destruct (for_each_assign (selected_positions md) (fun _ => true) g1
              (fun x pos => setitem x pos (g1 pos)) x0)
    as (x1 & -> & Hl1 & _ & _).
  { intros pos Hpos. rewrite Hl0. by apply selected_positions_lt. }
  { done. }
  rewrite result_bind_ok.
  set (P := fun x : list float => length x = length (md_feature_names md)).
  assert (P x1) as HP1 by (unfold P; congruence).
  assert (forall s1 a s2, a ∈ noise_idx_of (md_feature_names md) -> P s1 ->
            noise_step float_of_str (md_feature_names md) features
              (md_vmin md) (md_vmax md) s1 a = Ok s2 -> P s2) as Hstep.
  { intros s1 a s2 _ Hs1 [Hlen _]%noise_step_length. unfold P in *. congruence. }
  destruct (for_each (noise_idx_of _) _ x1) as [x2|e2] eqn:E2.
  - rewrite result_bind_ok. intros E3. right.
    pose proof (for_each_invariant P _ _ _ _ HP1 Hstep E2) as HP2.
    apply for_each_raise in E3 as (i & s1 & Hi & Hbody).
    exists i. split; [done|].
    pose proof (proj1 (elem_of_other_idx _ _) Hi) as [Hlt _].
    exact (other_step_raise_cases _ _ _ _ _ Hlt Hbody).
  - rewrite result_bind_raise. intros [= <-]. left.
    destruct (for_each_raise_inv P _ _ _ _ HP1 Hstep E2) as (i & s1 & Hi & Hs1 & Hbody).
    exists i. split; [done|].
    exact (noise_step_raise_cases _ _ _ _ _ _ _ (noise_idx_lt _ _ Hi) Hs1 Hv Hbody).
Qed.

(** X15.  Three kinds of exception leave the pipeline: a [ValueError]; the
    exception that [float] raises on the value of a noise feature, when it
    is a [TypeError] (as for [None], a list or a dictionary) or an
    [OverflowError] (as for an integer too large for a float); and the
    estimator's own failure.  No [IndexError], [KeyError] or
    [ZeroDivisionError] ever leaves it. *)
Theorem predict_with_model_exceptions (model : list float -> option float) (md : Metadata)
    (features : gmap string PyVal) (e : PyExc) :
  predict_with_model float_of_str model md features = Raise e ->
  (exists m, e = ValueError m)
  \/ ((e = TypeError \/ e = OverflowError)
      /\ exists i v, i ∈ noise_idx_of (md_feature_names md)
                     /\ features !! name_at (md_feature_names md) i = Some v
                     /\ py_float float_of_str v = Raise e)
  \/ e = EstimatorError.
Proof.
  intros Hrun. destruct (config_failure md) as [m|] eqn:Hcf.
  { rewrite (config_failure_raises _ model md features m Hcf) in Hrun.
    injection Hrun as <-. left. by eexists. }
  apply config_failure_none in Hcf.
  rewrite (predict_with_model_checked _ _ _ _ Hcf) in Hrun.
  destruct (collect_history _ _ _ _) as [hr|e1] eqn:Ec.
  2: { rewrite result_bind_raise in Hrun. injection Hrun as <-.
       apply collect_history_raise in Ec as (m & -> & _). left. by eexists. }
  rewrite result_bind_ok in Hrun.
  apply collect_history_ok_inv in Ec as [-> Hnum].
  destruct (existsb _ _); [injection Hrun as <-; left; by eexists|].
  destruct (compute_window_base _ _) as [base|e1] eqn:Eb.
  2: { rewrite result_bind_raise in Hrun. injection Hrun as <-.
       destruct (recognised_mode (md_window_scale_mode md)) eqn:Hr.
       - destruct (compute_window_base_recognised
                     (hist_raw_of float_of_str md features) (md_window_scale_mode md))
           as [b Hb']; [|done|congruence].
         unfold hist_raw_of. intros E%fmap_nil_inv.
         by apply (selected_positions_nonempty md).
       - rewrite (compute_window_base_unknown _ _ Hr) in Eb. injection Eb as <-.
         left. by eexists. }
  rewrite result_bind_ok in Hrun.
  pose proof (compute_window_base_floor _ _ _ Eb) as Hb.
  destruct (build_vector _ _ _ _ _ _ _ _ _ _ _) as [x|e1] eqn:Ex.
  2: { rewrite result_bind_raise in Hrun. injection Hrun as <-.
       apply (build_vector_raise_cases _ _ _ _ Hcf Hb) in Ex
         as [(i & Hi & [[_ ->]|(v & Hval & Hf)])|(i & _ & ->)].
       - left. by eexists.
       - destruct (py_float_raise _ _ Hf) as [[s ->]|Hkind].
         + left. by eexists.
         + right. left. split; [done|]. by exists i, v.
       - left. by eexists. }
  rewrite result_bind_ok in Hrun. destruct (model x); [done|].
  injection Hrun as <-. by right; right.
Qed.

End Exceptions.

Section NoiseAndAgreement.

Variable float_of_str : string -> option float.

(** ** The first noise feature that fails *)

Lemma noise_loop_first_failure (model : list float -> option float) (md : Metadata)
    (features : gmap string PyVal) (pre post : list nat) (p : nat) (e : PyExc) :
  valid_metadata md = true ->
  history_accepted float_of_str md features = true ->
  noise_idx_of (md_feature_names md) = (pre ++ p :: post)%list ->
  forallb (fun i => is_numeric float_of_str features
                      (name_at (md_feature_names md) i)) pre = true ->
  (forall x, noise_step float_of_str (md_feature_names md) features
               (md_vmin md) (md_vmax md) x p = Raise e) ->
  predict_with_model float_of_str model md features = Raise e.
Proof.
  intros [Hcfg Hmode]%andb_true_iff Hh Hdec Hpre Hfail.
  destruct (compute_window_base_recognised
              (hist_raw_of float_of_str md features) (md_window_scale_mode md))
    as [base Hbase]; [|done|].
  { unfold hist_raw_of. intros E%fmap_nil_inv.
    by apply (selected_positions_nonempty md). }
  pose proof (compute_window_base_floor _ _ _ Hbase) as Hb.
  rewrite (predict_with_model_checked _ _ _ _ Hcfg).
  rewrite (history_accepted_collect _ _ _ Hh), result_bind_ok.
  rewrite (history_accepted_check _ _ _ Hh), Hbase, result_bind_ok.
  apply passes_config_checks_inv in Hcfg as (_ & _ & Hv & _).
  unfold build_vector. rewrite (hist_scaled_ok _ _ _ _ Hb), result_bind_ok.
  set (g1 := fun i => hist_scaled_value (md_window_scale_mode md) base
                        (raw_at float_of_str (md_feature_names md) features i)).
  rewrite for_each_zip_fmap.
  set (x0 := replicate (length (md_feature_names md)) (Fin 0)).
  assert (length x0 = length (md_feature_names md)) as Hl0 by apply length_replicate.
  destruct (for_each_assign (selected_positions md) (fun _ => true) g1
              (fun x pos => setitem x pos (g1 pos)) x0)
    as (x1 & -> & Hl1 & _ & _).
  { intros pos Hpos. rewrite Hl0. by apply selected_positions_lt. }
  { done. }
  rewrite result_bind_ok, Hdec, for_each_app.
  assert (forall i, i ∈ (pre ++ p :: post)%list -> (i < length (md_feature_names md))%nat)
    as Hlt.
  { intros i Hi. rewrite <- Hdec in Hi. by apply noise_idx_lt. }
  rewrite forallb_forall in Hpre.
  destruct (for_each_assign pre (fun _ => true)
              (fun i => noise_scaled
                          (raw_at float_of_str (md_feature_names md) features i)
                          (md_vmin md) (md_vmax md))
              (noise_step float_of_str (md_feature_names md) features
                 (md_vmin md) (md_vmax md)) x1)
    as (x2 & -> & _ & _ & _).
  { intros pos Hpos. rewrite Hl1, Hl0. apply Hlt, elem_of_app. by left. }
  { intros pos x' Hpos _. apply noise_step_ok; [|by apply Hpre, list_elem_of_In|done].
    apply Hlt, elem_of_app. by left. }
  rewrite result_bind_ok. cbn [for_each]. by rewrite Hfail.
Qed.

Lemma noise_step_bad_value (names : list string) (features : gmap string PyVal)
    (vmin vmax : float) (x : list float) (pos : nat) (v : PyVal) (e : PyExc) :
  (pos < length names)%nat ->
  features !! name_at names pos = Some v ->
  py_float float_of_str v = Raise e ->
  noise_step float_of_str names features vmin vmax x pos = Raise e.
Proof.
  intros Hpos Hv He. unfold noise_step, getitem.
  destruct (lookup_lt_is_Some_2 names pos Hpos) as [n Hn].
  assert (name_at names pos = n) as Hna by (unfold name_at; by rewrite Hn).
  rewrite Hna in Hv. rewrite Hn, result_bind_ok.
  unfold contains, feature_float, get_feature. rewrite Hv.
  rewrite bool_decide_eq_true_2 by (by eexists). cbn [negb].
  by rewrite result_bind_ok, He.
Qed.

(** X16.  A noise value that does not convert is not reported by name: with
    valid metadata and a sound history, the first noise feature whose value
    [float] rejects (the ones before it being numeric) makes the pipeline
    raise the exception of [float] itself: a [TypeError] for [None], a list
    or a dictionary, a [ValueError] for a string and an [OverflowError] for
    an integer. *)
Theorem bad_noise_value_raises_float_error (model : list float -> option float)
    (md : Metadata) (features : gmap string PyVal) (pre post : list nat) (p : nat)
    (v : PyVal) (e : PyExc) :
  valid_metadata md = true ->
  history_ok float_of_str md features = true ->
  noise_idx_of (md_feature_names md) = (pre ++ p :: post)%list ->
  forallb (fun i => is_numeric float_of_str features
                      (name_at (md_feature_names md) i)) pre = true ->
  features !! name_at (md_feature_names md) p = Some v ->
  py_float float_of_str v = Raise e ->
  predict_with_model float_of_str model md features = Raise e
  /\ (v = PyNone -> e = TypeError)
  /\ (forall s, v = PyStr s -> e = ValueError (MsgFloatOfString s))
  /\ (forall z, v = PyInt z -> e = OverflowError)
  /\ (v = PyContainer -> e = TypeError).
Proof.
  intros Hv Hh%history_ok_accepted Hdec Hpre Hval He. split.
  - eapply noise_loop_first_failure; [done..|]. intros x.
    eapply noise_step_bad_value; [|done|done].
    apply noise_idx_lt. rewrite Hdec. apply elem_of_app. right. left.
  - split; [|split; [|split]].
    + intros ->. cbn in He. by injection He as <-.
    + intros s ->. cbn in He. destruct (float_of_str s); [done|]. by injection He as <-.
    + intros z ->. cbn [py_float] in He. destruct (_ <? _)%Z; [done|].
      by injection He as <-.
    + intros ->. cbn in He. by injection He as <-.
Qed.

(** ** Feature maps that agree on the names in use *)

Lemma mapM_result_ext_in {A B} (f g : A -> result B) (l : list A) :
  (forall a, a ∈ l -> f a = g a) -> mapM f l = mapM g l.
Proof.
  induction l as [|a l IH]; intros H; [done|]. cbn.
  rewrite (H a) by left. destruct (g a); [|done]. cbn.
  rewrite IH; [done|]. intros b Hb. apply H. by right.
Qed.

Lemma for_each_ext_in {A S} (l : list A) (b1 b2 : S -> A -> result S) (s : S) :
  (forall a s', a ∈ l -> b1 s' a = b2 s' a) -> for_each l b1 s = for_each l b2 s.
Proof.
  revert s. induction l as [|a l IH]; intros s H; [done|]. cbn.
  rewrite (H a s) by left. destruct (b2 s a); [|done]. cbn.
  apply IH. intros b s' Hb. apply H. by right.
Qed.

Lemma same_reading_lookup (f1 f2 : gmap string PyVal) (n : string) :
  f1 !! n = f2 !! n -> same_reading float_of_str f1 f2 n.
Proof. unfold same_reading, contains, feature_float, get_feature. by intros ->. Qed.

Lemma collect_history_agree (names : list string) (f1 f2 : gmap string PyVal)
    (sel : list nat) :
  (forall i, i ∈ sel -> (i < length names)%nat) ->
  (forall i, i ∈ sel -> same_reading float_of_str f1 f2 (name_at names i)) ->
  collect_history float_of_str names f1 sel = collect_history float_of_str names f2 sel.
Proof.
  intros Hlt Hagree. rewrite !collect_history_eq by done.
  assert (List.filter (fun n => negb (contains f1 n)) (name_at names <$> sel)
          = List.filter (fun n => negb (contains f2 n)) (name_at names <$> sel)) as ->.
  { apply filter_ext_in. intros n (i & -> & Hi)%list_elem_of_In%list_elem_of_fmap.
    f_equal. by apply Hagree. }
  assert (mapM (feature_float float_of_str f1) (name_at names <$> sel)
          = mapM (feature_float float_of_str f2) (name_at names <$> sel)) as ->; [|done].
  apply mapM_result_ext_in. intros n (i & -> & Hi)%list_elem_of_fmap.
  by apply Hagree.
Qed.

Lemma noise_step_agree (names : list string) (f1 f2 : gmap string PyVal)
    (vmin vmax : float) (x : list float) (pos : nat) :
  same_reading float_of_str f1 f2 (name_at names pos) ->
  noise_step float_of_str names f1 vmin vmax x pos
  = noise_step float_of_str names f2 vmin vmax x pos.
Proof.
  intros [Hc Hf]. unfold noise_step, getitem. unfold name_at in Hc, Hf.
  destruct (names !! pos) as [n|]; [|done]. cbn in Hc, Hf. rewrite !result_bind_ok.
  by rewrite Hc, Hf.
Qed.

Lemma other_step_agree (names : list string) (f1 f2 : gmap string PyVal)
    (x : list float) (pos : nat) :
  same_reading float_of_str f1 f2 (name_at names pos) ->
  other_step float_of_str names f1 x pos = other_step float_of_str names f2 x pos.
Proof.
  intros [Hc Hf]. unfold other_step, getitem. unfold name_at in Hc, Hf.
  destruct (names !! pos) as [n|]; [|done]. cbn in Hc, Hf. rewrite !result_bind_ok.
  by rewrite Hc, Hf.
Qed.

Lemma predict_with_model_agree (model : list float -> option float)
    (md : Metadata) (f1 f2 : gmap string PyVal) :
  (forall i, i ∈ selected_positions md
             \/ i ∈ noise_idx_of (md_feature_names md)
             \/ i ∈ other_idx_of (md_feature_names md) ->
             same_reading float_of_str f1 f2 (name_at (md_feature_names md) i)) ->
  predict_with_model float_of_str model md f1
  = predict_with_model float_of_str model md f2.
Proof.
  intros Hagree. destruct (config_failure md) as [m|] eqn:Hcf.
  { by rewrite !(config_failure_raises _ model md _ m Hcf). }
  apply config_failure_none in Hcf.
  rewrite !(predict_with_model_checked _ _ _ _ Hcf).
  rewrite (collect_history_agree _ f1 f2)
    by (apply selected_positions_lt || (intros i Hi; apply Hagree; by left)).
  destruct (collect_history _ _ _ _) as [hr|]; [|done].
  rewrite !result_bind_ok. destruct (existsb _ _); [done|].
  destruct (compute_window_base _ _) as [base|]; [|done].
  rewrite !result_bind_ok.
  assert (build_vector float_of_str (md_feature_names md) f1
            (md_window_scale_mode md) (md_vmin md) (md_vmax md)
            (selected_positions md) (noise_idx_of (md_feature_names md))
            (other_idx_of (md_feature_names md)) hr base
          = build_vector float_of_str (md_feature_names md) f2
              (md_window_scale_mode md) (md_vmin md) (md_vmax md)
              (selected_positions md) (noise_idx_of (md_feature_names md))
              (other_idx_of (md_feature_names md)) hr base) as ->; [|done].
  unfold build_vector.
  destruct (if String.eqb _ _ then _ else _) as [hs|]; [|done].
  rewrite !result_bind_ok.
  destruct (for_each (zip _ _) _ _) as [x1|]; [|done]. rewrite !result_bind_ok.
  rewrite (for_each_ext_in _ _
             (noise_step float_of_str (md_feature_names md) f2 (md_vmin md) (md_vmax md))).
  2: { intros i s' Hi. apply noise_step_agree, Hagree. right. by left. }
  destruct (for_each (noise_idx_of _) _ _) as [x2|]; [|done]. rewrite !result_bind_ok.
  apply for_each_ext_in. intros i s' Hi. apply other_step_agree, Hagree. right. by right.
Qed.

(** X17.  The result depends on the feature map only through the names of
    the selected history features, the noise features and the other
    features: keys outside [feature_names], and history features beyond
    the selected ones, are ignored. *)
Theorem predict_with_model_ignores_unused (model : list float -> option float)
    (md : Metadata) (f1 f2 : gmap string PyVal) :
  (forall i, i ∈ selected_positions md
             \/ i ∈ noise_idx_of (md_feature_names md)
             \/ i ∈ other_idx_of (md_feature_names md) ->
             f1 !! name_at (md_feature_names md) i
             = f2 !! name_at (md_feature_names md) i) ->
  predict_with_model float_of_str model md f1
  = predict_with_model float_of_str model md f2.
Proof.
  intros Hagree. apply predict_with_model_agree.
  intros i Hi. by apply same_reading_lookup, Hagree.
Qed.

End NoiseAndAgreement.

(** ** The routes *)

Lemma dict_is_empty_lookup {A} (m : gmap string A) (k : string) (a : A) :
  m !! k = Some a -> dict_is_empty m = false.
Proof.
  intros H. unfold dict_is_empty. apply bool_decide_eq_false.
  intros Hsize%map_size_empty_inv. by rewrite Hsize, lookup_empty in H.
Qed.

Section RouteFacts.

Variable float_of_str : string -> option float.

(** ** The coercion loop *)

Lemma coerce_features_inr (features : gmap string PyVal) (names : list string)
    (acc c : gmap string PyVal) :
  coerce_features float_of_str features names acc = inr c ->
  forall n,
    (n ∈ names -> exists q, feature_float float_of_str features n = Ok q
                            /\ c !! n = Some (PyFloat q))
    /\ ((n ∉ names) -> c !! n = acc !! n).
Proof.
  revert acc. induction names as [|fn rest IH]; intros acc; cbn.
  - intros [= <-] n. split; [by intros ?%elem_of_nil|done].
  - destruct (feature_float _ _ fn) as [q0|] eqn:E; [|done].
    intros Hc n. destruct (IH _ Hc n) as [Hin Hout]. split.
    + intros Hn. destruct (decide (n ∈ rest)) as [Hr|Hr]; [by apply Hin|].
      apply elem_of_cons in Hn as [->|Hn]; [|done].
      exists q0. split; [done|]. rewrite Hout by done. apply lookup_insert_eq.
    + intros Hn. apply not_elem_of_cons in Hn as [Hne Hr].
      rewrite Hout by done. by apply lookup_insert_ne.
Qed.

Lemma coerce_features_numeric (features : gmap string PyVal) (names : list string)
    (acc : gmap string PyVal) :
  forallb (is_numeric float_of_str features) names = true ->
  exists c, coerce_features float_of_str features names acc = inr c.
Proof.
  revert acc. induction names as [|fn rest IH]; intros acc; cbn; [by eexists|].
  intros [Hfn Hrest]%andb_true_iff. unfold is_numeric in Hfn.
  destruct (feature_float _ _ fn); [|done]. by apply IH.
Qed.

Lemma coerce_features_inl (features : gmap string PyVal) (names : list string)
    (acc : gmap string PyVal) (fn : string) :
  coerce_features float_of_str features names acc = inl fn ->
  fn ∈ names /\ is_numeric float_of_str features fn = false.
Proof.
  revert acc. induction names as [|n rest IH]; intros acc; cbn; [done|].
  destruct (feature_float _ _ n) as [q|] eqn:E.
  - intros [Hin Hnum]%IH. split; [by right|done].
  - intros [= <-]. split; [left|]. unfold is_numeric. by rewrite E.
Qed.

Lemma coerced_same_reading (features c : gmap string PyVal) (names : list string)
    (n : string) :
  coerce_features float_of_str features names ∅ = inr c ->
  n ∈ names -> same_reading float_of_str c features n.
Proof.
  intros Hc Hn. destruct (proj1 (coerce_features_inr _ _ _ _ Hc n) Hn) as (q & Hq & Hl).
  split.
  - rewrite (feature_float_contains _ _ _ _ Hq). unfold contains.
    apply bool_decide_eq_true_2. by rewrite Hl.
  - rewrite Hq. unfold feature_float, get_feature. by rewrite Hl.
Qed.

Lemma name_at_elem_of (names : list string) (i : nat) :
  (i < length names)%nat -> name_at names i ∈ names.
Proof.
  intros Hi. destruct (lookup_lt_is_Some_2 names i Hi) as [n Hn].
  unfold name_at. rewrite Hn. by eapply list_elem_of_lookup_2.
Qed.

Lemma used_index_lt (md : Metadata) (i : nat) :
  i ∈ selected_positions md
  \/ i ∈ noise_idx_of (md_feature_names md)
  \/ i ∈ other_idx_of (md_feature_names md) ->
  (i < length (md_feature_names md))%nat.
Proof.
  intros [H|[H|H]].
  - by apply selected_positions_lt.
  - by apply noise_idx_lt.
  - by apply elem_of_other_idx in H as [].
Qed.

(** The pipeline on the coerced dictionary is the pipeline on the
    dictionary of the request. *)
Lemma predict_with_model_coerced (model : list float -> option float) (md : Metadata)
    (features c : gmap string PyVal) :
  coerce_features float_of_str features (md_feature_names md) ∅ = inr c ->
  predict_with_model float_of_str model md c
  = predict_with_model float_of_str model md features.
Proof.
  intros Hc. apply predict_with_model_agree. intros i Hi.
  eapply coerced_same_reading; [done|]. by apply name_at_elem_of, used_index_lt.
Qed.


(** ** [predict] *)

Lemma request_context_inv (app : App) (req : Request) (tag : string) (entry : Entry)
    (d : gmap string PyVal) :
  request_context app req = Some (tag, entry, d) ->
  is_json req = true
  /\ exists payload c s,
       get_json req = Some payload
       /\ py_or (payload_model payload) (default_model_name app) = Some (String c s)
       /\ tag = String c s
       /\ app_models app !! tag = Some entry
       /\ payload_features payload = Some (FeaturesDict d).
Proof.
  unfold request_context, resolve_tag.
  destruct (is_json req); [|done]. destruct (get_json req) as [payload|]; [|done].
  cbn. destruct (py_or _ _) as [[|c s]|] eqn:Hor; [done| |done]. cbn.
  destruct (app_models app !! String c s) as [en|] eqn:Hen; [|done]. cbn.
  destruct (payload_features payload) as [[d'|]|] eqn:Hf; [|done|done].
  intros [= <- <- <-]. split; [done|]. by exists payload, c, s.
Qed.

(** From the feature checks on, the route is this case analysis. *)
Lemma predict_route_checked (app : App) (req : Request) (tag : string)
    (entry : Entry) (d : gmap string PyVal) :
  request_context app req = Some (tag, entry, d) ->
  md_feature_names (entry_metadata entry) <> [] ->
  predict_route float_of_str app req =
    if dict_is_empty d then (JsonError ErrFeaturesField, 400%Z) else
    match missing_features (entry_metadata entry) d with
    | (_ :: _) as missing => (JsonError (ErrMissingFeatures missing), 400%Z)
    | [] =>
        match coerce_features float_of_str d (md_feature_names (entry_metadata entry)) ∅ with
        | inl fn => (JsonError (ErrNotNumeric fn), 400%Z)
        | inr c =>
            match predict_with_model float_of_str (entry_model entry)
                    (entry_metadata entry) c with
            | Ok result => (JsonPrediction (Res.y_pred result) tag, 200%Z)
            | Raise e => (JsonError (ErrPredictionFailed e), 500%Z)
            end
        end
    end.
Proof.
  intros (Hj & payload & c & s & Hp & Hor & -> & Hen & Hf)%request_context_inv Hnames.
  unfold predict_route, missing_features.
  rewrite Hj, Hp. cbn [negb]. rewrite (dict_is_empty_lookup _ _ _ Hen), Hor, Hen.
  case_bool_decide; [done|]. rewrite Hf.
  destruct (dict_is_empty d); [done|]. by destruct (List.filter _ _).
Qed.

Lemma numeric_no_missing (md : Metadata) (d : gmap string PyVal) :
  forallb (is_numeric float_of_str d) (md_feature_names md) = true ->
  missing_features md d = [].
Proof.
  intros Hnum. rewrite forallb_forall in Hnum. unfold missing_features.
  destruct (List.filter _ _) as [|n l] eqn:E; [done|]. exfalso.
  assert (In n (n :: l)) as Hin by (by left). rewrite <- E in Hin.
  apply filter_In in Hin as [Hin Hc]. apply Hnum in Hin. unfold is_numeric in Hin.
  destruct (feature_float _ _ _) as [q|] eqn:Hq; [|done].
  apply feature_float_contains in Hq. by rewrite Hq in Hc.
Qed.

Lemma numeric_not_empty (md : Metadata) (d : gmap string PyVal) :
  md_feature_names md <> [] ->
  forallb (is_numeric float_of_str d) (md_feature_names md) = true ->
  dict_is_empty d = false.
Proof.
  intros Hne Hnum. destruct (md_feature_names md) as [|n l]; [done|].
  cbn in Hnum. apply andb_true_iff in Hnum as [Hn _]. unfold is_numeric in Hn.
  destruct (feature_float _ _ _) as [q|] eqn:Hq; [|done].
  apply feature_float_contains in Hq. unfold contains in Hq.
  apply bool_decide_eq_true in Hq as [v Hv]. by eapply dict_is_empty_lookup.
Qed.

Lemma predict_route_numeric (app : App) (req : Request) (tag : string)
    (entry : Entry) (d : gmap string PyVal) :
  request_context app req = Some (tag, entry, d) ->
  md_feature_names (entry_metadata entry) <> [] ->
  forallb (is_numeric float_of_str d) (md_feature_names (entry_metadata entry)) = true ->
  predict_route float_of_str app req =
    match predict_with_model float_of_str (entry_model entry) (entry_metadata entry) d with
    | Ok result => (JsonPrediction (Res.y_pred result) tag, 200%Z)
    | Raise e => (JsonError (ErrPredictionFailed e), 500%Z)
    end.
Proof.
  intros Hctx Hne Hnum. rewrite (predict_route_checked _ _ _ _ _ Hctx Hne).
  rewrite (numeric_not_empty _ _ Hne Hnum), (numeric_no_missing _ _ Hnum).
  destruct (coerce_features_numeric d _ ∅ Hnum) as [c Hc].
  rewrite Hc. by rewrite (predict_with_model_coerced _ _ _ _ Hc).
Qed.

Lemma all_numeric_at (md : Metadata) (d : gmap string PyVal) (i : nat) :
  forallb (is_numeric float_of_str d) (md_feature_names md) = true ->
  (i < length (md_feature_names md))%nat ->
  is_numeric float_of_str d (name_at (md_feature_names md) i) = true.
Proof.
  intros Hnum Hi. rewrite forallb_forall in Hnum.
  by apply Hnum, list_elem_of_In, name_at_elem_of.
Qed.

Lemma all_numeric_conditions (md : Metadata) (d : gmap string PyVal) :
  forallb (is_numeric float_of_str d) (md_feature_names md) = true ->
  forallb (fun i => is_numeric float_of_str d (name_at (md_feature_names md) i))
    (selected_positions md) = true
  /\ noise_ok float_of_str md d = true
  /\ others_ok float_of_str md d = true.
Proof.
  intros Hnum. unfold noise_ok, others_ok. rewrite !forallb_forall.
  split; [|split]; intros i Hi%list_elem_of_In.
  - by apply all_numeric_at, selected_positions_lt.
  - by apply all_numeric_at, noise_idx_lt.
  - cbn. rewrite all_numeric_at; [by rewrite orb_true_r|done|].
    by apply elem_of_other_idx in Hi as [].
Qed.

Lemma nonpositive_history_raises (model : list float -> option float) (md : Metadata)
    (d : gmap string PyVal) :
  passes_config_checks md = true ->
  forallb (fun i => is_numeric float_of_str d (name_at (md_feature_names md) i))
    (selected_positions md) = true ->
  history_accepted float_of_str md d = false ->
  predict_with_model float_of_str model md d = Raise (ValueError MsgHistNotPositive).
Proof.
  intros Hcfg Hnum Hbad. rewrite (predict_with_model_checked _ _ _ _ Hcfg).
  rewrite collect_history_ok by (apply selected_positions_lt || done).
  rewrite result_bind_ok. fold (hist_raw_of float_of_str md d).
  destruct (existsb _ _) eqn:Hex; [done|].
  rewrite (history_accepted_of_checks _ _ _ Hnum Hex) in Hbad. done.
Qed.

(** A selected history value that is [<= 0] means the history is not
    accepted. *)
Lemma not_accepted_at (md : Metadata) (d : gmap string PyVal) (i : nat) (f : float) :
  i ∈ selected_positions md ->
  feature_float float_of_str d (name_at (md_feature_names md) i) = Ok f ->
  float_le f (Fin 0) = true ->
  history_accepted float_of_str md d = false.
Proof.
  intros Hi Hf Hle. apply not_true_iff_false. unfold history_accepted.
  rewrite forallb_forall. intros Hall. apply list_elem_of_In, Hall in Hi.
  unfold passes_sign_check in Hi. by rewrite Hf, Hle in Hi.
Qed.

(** On a dictionary with a numeric value for every feature name, the
    pipeline returns or fails in one of three ways. *)
Lemma pipeline_on_numeric (model : list float -> option float) (md : Metadata)
    (d : gmap string PyVal) :
  forallb (is_numeric float_of_str d) (md_feature_names md) = true ->
  (exists r, predict_with_model float_of_str model md d = Ok r)
  \/ predict_with_model float_of_str model md d = Raise EstimatorError
  \/ (exists m, predict_with_model float_of_str model md d = Raise (ValueError m)
                /\ (is_config_msg m = true \/ m = MsgHistNotPositive)).
Proof.
  intros Hnum. destruct (all_numeric_conditions _ _ Hnum) as (Hsel & Hn & Ho).
  destruct (config_failure md) as [m|] eqn:Hcf.
  { right. right. exists m. split; [by apply config_failure_raises|].
    left. by eapply config_failure_is_config. }
  apply config_failure_none in Hcf.
  destruct (history_accepted float_of_str md d) eqn:Hh.
  2: { right. right. eexists. split; [by apply nonpositive_history_raises|by right]. }
  destruct (recognised_mode (md_window_scale_mode md)) eqn:Hr.
  2: { right. right. eexists. split; [by apply unknown_mode_raises|by left]. }
  destruct (predict_with_model_ok float_of_str model md d) as (base & _ & _ & ->);
    [by (unfold valid_metadata; rewrite Hcf, Hr)|done..|].
  destruct (model _); [left; by eexists|right; by left].
Qed.

Lemma coerce_features_all_numeric (d c : gmap string PyVal) (names : list string) :
  coerce_features float_of_str d names ∅ = inr c ->
  forallb (is_numeric float_of_str d) names = true.
Proof.
  intros Hc. apply forallb_forall. intros n Hn%list_elem_of_In.
  destruct (proj1 (coerce_features_inr _ _ _ _ Hc n) Hn) as (q & Hq & _).
  unfold is_numeric. by rewrite Hq.
Qed.

(** Every answer of [predict] is either the pipeline's outcome on a fully
    numeric dictionary or one of the route's own errors. *)
Lemma predict_route_inv (app : App) (req : Request) :
  (exists tag entry d,
     request_context app req = Some (tag, entry, d)
     /\ md_feature_names (entry_metadata entry) <> []
     /\ forallb (is_numeric float_of_str d) (md_feature_names (entry_metadata entry))
        = true)
  \/ (exists err s, predict_route float_of_str app req = (JsonError err, s)
                    /\ (forall e, err <> ErrPredictionFailed e)
                    /\ (s = 400 \/ s = 404 \/ s = 415 \/ s = 500)%Z).
Proof.
  unfold predict_route, request_context, resolve_tag.
  destruct (is_json req); cbn [negb]; [|right; do 2 eexists; split; [done|]; split; auto 6].
  destruct (get_json req) as [payload|]; [|right; do 2 eexists; split; [done|]; split; auto 6].
  destruct (dict_is_empty _); [right; do 2 eexists; split; [done|]; split; auto 6|].
  cbn. destruct (py_or _ _) as [[|c s]|];
    [right; do 2 eexists; split; [done|]; split; auto 6| |
     right; do 2 eexists; split; [done|]; split; auto 6].
  cbn. destruct (app_models app !! String c s) as [entry|];
    [|right; do 2 eexists; split; [done|]; split; auto 6].
  cbn. case_bool_decide as Hne; [right; do 2 eexists; split; [done|]; split; auto 6|].
  destruct (payload_features payload) as [[d|]|];
    [|right; do 2 eexists; split; [done|]; split; auto 6..].
  destruct (dict_is_empty d); [right; do 2 eexists; split; [done|]; split; auto 6|].
  destruct (List.filter _ _); [|right; do 2 eexists; split; [done|]; split; auto 6].
  destruct (coerce_features _ _ _ _) as [fn|c0] eqn:Hc;
    [right; do 2 eexists; split; [done|]; split; auto 6|].
  left. exists (String c s), entry, d. split; [done|]. split; [done|].
  by eapply coerce_features_all_numeric.
Qed.

(** X18.  Once the request, the tag and the registry entry are resolved and
    every feature name has a numeric value in the dictionary, the route
    answers with the pipeline's outcome on that dictionary: 200 and
    [y_pred] when it returns, 500 and the exception when it raises.  The
    coercion to floats changes nothing. *)
Theorem predict_route_serves_pipeline (app : App) (req : Request) (tag : string)
    (entry : Entry) (d : gmap string PyVal) :
  request_context app req = Some (tag, entry, d) ->
  md_feature_names (entry_metadata entry) <> [] ->
  forallb (is_numeric float_of_str d) (md_feature_names (entry_metadata entry)) = true ->
  predict_route float_of_str app req =
    match predict_with_model float_of_str (entry_model entry) (entry_metadata entry) d with
    | Ok result => (JsonPrediction (Res.y_pred result) tag, 200%Z)
    | Raise e => (JsonError (ErrPredictionFailed e), 500%Z)
    end.
Proof. apply predict_route_numeric. Qed.

(** X19.  When [predict] reports a failed prediction, the status is 500 and
    the exception is the estimator's failure, a configuration error, or the
    error of a non-positive history value: the route's own checks leave no
    other validation error of the pipeline reachable. *)
Theorem predict_route_pipeline_errors (app : App) (req : Request) (e : PyExc) (s : Z) :
  predict_route float_of_str app req = (JsonError (ErrPredictionFailed e), s) ->
  s = 500%Z
  /\ (e = EstimatorError
      \/ exists m, e = ValueError m
                   /\ (is_config_msg m = true \/ m = MsgHistNotPositive)).
Proof.
  intros Hroute.
  destruct (predict_route_inv app req)
    as [(tag & entry & d & Hctx & Hne & Hnum)|(err & s' & Heq & Hno & _)].
  2: { rewrite Heq in Hroute. injection Hroute as -> ->. by destruct (Hno e). }
  rewrite (predict_route_numeric _ _ _ _ _ Hctx Hne Hnum) in Hroute.
  destruct (pipeline_on_numeric (entry_model entry) _ _ Hnum)
    as [[r Hr]|[Hr|(m & Hr & Hm)]]; rewrite Hr in Hroute.
  - done.
  - injection Hroute as <- <-. split; [done|by left].
  - injection Hroute as <- <-. split; [done|]. right. by exists m.
Qed.

(** X20.  A 200 answer of [predict] certifies the request: the tag resolved
    to a registry entry, every feature name was supplied, the pipeline
    returned on the dictionary of the request, and the body carries its
    [y_pred] and the tag. *)
Theorem predict_route_ok_certifies (app : App) (req : Request) (b : Body) :
  predict_route float_of_str app req = (b, 200%Z) ->
  exists tag entry d r,
    request_context app req = Some (tag, entry, d)
    /\ missing_features (entry_metadata entry) d = []
    /\ predict_with_model float_of_str (entry_model entry) (entry_metadata entry) d
       = Ok r
    /\ b = JsonPrediction (Res.y_pred r) tag.
Proof.
  intros Hroute.
  destruct (predict_route_inv app req)
    as [(tag & entry & d & Hctx & Hne & Hnum)|(err & s' & Heq & _ & Hs)].
  2: { rewrite Heq in Hroute. injection Hroute as <- ->.
       destruct Hs as [?|[?|[?|?]]]; done. }
  rewrite (predict_route_numeric _ _ _ _ _ Hctx Hne Hnum) in Hroute.
  destruct (predict_with_model _ _ _ d) as [r|] eqn:Hr; [|done].
  injection Hroute as <-. exists tag, entry, d, r.
  split; [done|]. split; [by apply numeric_no_missing|done].
Qed.

(** X21.  A selected history value that converts to a float that is [<= 0]
    (zero, a negative number, minus infinity) is answered with 500 and the
    pipeline's error, not with 400: the route checks presence and
    conversion only.  (NaN is not [<= 0]: the pipeline lets it through.) *)
Theorem predict_route_nonpositive_history (app : App) (req : Request) (tag : string)
    (entry : Entry) (d : gmap string PyVal) (i : nat) (f : float) :
  request_context app req = Some (tag, entry, d) ->
  passes_config_checks (entry_metadata entry) = true ->
  forallb (is_numeric float_of_str d) (md_feature_names (entry_metadata entry)) = true ->
  i ∈ selected_positions (entry_metadata entry) ->
  feature_float float_of_str d (name_at (md_feature_names (entry_metadata entry)) i)
  = Ok f ->
  float_le f (Fin 0) = true ->
  predict_route float_of_str app req
  = (JsonError (ErrPredictionFailed (ValueError MsgHistNotPositive)), 500%Z).
Proof.
  intros Hctx Hcfg Hnum Hi Hf Hle.
  pose proof (passes_config_checks_inv _ Hcfg) as (Hne & _).
  rewrite (predict_route_numeric _ _ _ _ _ Hctx Hne Hnum).
  destruct (all_numeric_conditions _ _ Hnum) as (Hsel & _ & _).
  by rewrite (nonpositive_history_raises _ _ _ Hcfg Hsel (not_accepted_at _ _ _ _ Hi Hf Hle)).
Qed.

(** X22.  The route is stricter than the pipeline about absent features:
    with a dictionary that the pipeline accepts (so that the absent names
    are features of the other group or history features beyond the window),
    a missing feature name is answered with 400 and the list of the missing
    names, while the pipeline itself would build its vector without them,
    0.0 in the place of an absent other feature, and reach the estimator. *)
Theorem predict_route_requires_every_name (app : App) (req : Request) (tag : string)
    (entry : Entry) (d : gmap string PyVal) :
  request_context app req = Some (tag, entry, d) ->
  valid_metadata (entry_metadata entry) = true ->
  history_accepted float_of_str (entry_metadata entry) d = true ->
  noise_ok float_of_str (entry_metadata entry) d = true ->
  others_ok float_of_str (entry_metadata entry) d = true ->
  missing_features (entry_metadata entry) d <> [] ->
  predict_route float_of_str app req
  = (JsonError (ErrMissingFeatures (missing_features (entry_metadata entry) d)), 400%Z)
  /\ exists base,
       predict_with_model float_of_str (entry_model entry) (entry_metadata entry) d
       = match entry_model entry
                 (expected_vector float_of_str (entry_metadata entry) d base) with
         | Some y =>
             Ok {| Res.y_pred := float_mul y base;
                   Res.y_pred_scaled := y;
                   Res.base := base;
                   Res.x_vector :=
                     expected_vector float_of_str (entry_metadata entry) d base;
                   Res.feature_names := md_feature_names (entry_metadata entry) |}
         | None => Raise EstimatorError
         end.
Proof.
  intros Hctx Hv Hh Hn Ho Hmiss. split.
  - pose proof Hv as [Hcfg _]%andb_true_iff.
    pose proof (passes_config_checks_inv _ Hcfg) as (Hne & _).
    rewrite (predict_route_checked _ _ _ _ _ Hctx Hne).
    assert (dict_is_empty d = false) as ->.
    { pose proof (selected_positions_nonempty _ Hcfg) as Hsel.
      destruct (selected_positions (entry_metadata entry)) as [|i l] eqn:E; [done|].
      unfold history_accepted in Hh. rewrite E in Hh. cbn in Hh.
      apply andb_true_iff in Hh as [Hi _]. unfold passes_sign_check in Hi.
      destruct (feature_float _ _ _) as [q|] eqn:Hq; [|done].
      apply feature_float_contains in Hq. unfold contains in Hq.
      apply bool_decide_eq_true in Hq as [v Hv']. by eapply dict_is_empty_lookup. }
    by destruct (missing_features _ _).
  - destruct (predict_with_model_ok float_of_str (entry_model entry) _ d Hv Hh Hn Ho)
      as (base & _ & _ & Hrun).
    by exists base.
Qed.

End RouteFacts.

(** ** [schema] *)

Lemma example_features_acc (names : list string) (acc : gmap string PyVal) (n : string) :
  foldl (fun acc name =>
           match example_data !! name with
           | Some v => <[name := v]> acc
           | None => <[name := PyFloat (Fin 0)]> acc
           end) acc names !! n
  = if bool_decide (n ∈ names)
    then Some (default (PyFloat (Fin 0)) (example_data !! n))
    else acc !! n.
Proof.
  revert acc. induction names as [|m names IH]; intros acc; cbn [foldl].
  - by rewrite bool_decide_eq_false_2 by apply not_elem_of_nil.
  - rewrite IH. destruct (decide (n ∈ names)) as [Hin|Hnin].
    + rewrite !bool_decide_eq_true_2; [done|by right|done].
    + rewrite (bool_decide_eq_false_2 _ Hnin).
      destruct (decide (n = m)) as [->|Hne].
      * rewrite bool_decide_eq_true_2 by left.
        destruct (example_data !! m); by rewrite lookup_insert_eq.
      * rewrite bool_decide_eq_false_2 by (by intros [?|?]%elem_of_cons).
        destruct (example_data !! m); by rewrite lookup_insert_ne.
Qed.

Lemma example_features_lookup (names : list string) (n : string) :
  example_features names !! n
  = if bool_decide (n ∈ names)
    then Some (default (PyFloat (Fin 0)) (example_data !! n))
    else None.
Proof. unfold example_features. by rewrite example_features_acc, lookup_empty. Qed.

Lemma example_data_float (n : string) (v : PyVal) :
  example_data !! n = Some v -> exists q, v = PyFloat q.
Proof.
  unfold example_data. intros H%elem_of_list_to_map_2.
  repeat (apply elem_of_cons in H as [[= -> ->]|H]; [by eexists|]).
  by apply elem_of_nil in H.
Qed.

Section SchemaFacts.

Variable float_of_str : string -> option float.

Lemma example_features_value (names : list string) (n : string) :
  n ∈ names ->
  exists q, example_features names !! n = Some (PyFloat q)
            /\ feature_float float_of_str (example_features names) n = Ok q
            /\ (example_data !! n = None -> q = Fin 0).
Proof.
  intros Hn. pose proof (example_features_lookup names n) as Hl.
  rewrite bool_decide_eq_true_2 in Hl by done.
  destruct (example_data !! n) as [v|] eqn:E.
  - destruct (example_data_float _ _ E) as [q ->]. exists q.
    split; [done|]. split; [|done]. unfold feature_float, get_feature. by rewrite Hl.
  - exists (Fin 0). split; [done|]. split; [|done].
    unfold feature_float, get_feature. by rewrite Hl.
Qed.

Lemma example_features_numeric (names : list string) :
  forallb (is_numeric float_of_str (example_features names)) names = true.
Proof.
  apply forallb_forall. intros n Hn%list_elem_of_In.
  destruct (example_features_value names n Hn) as (q & _ & Hq & _).
  unfold is_numeric. by rewrite Hq.
Qed.

Lemma schema_route_ok (app : App) (arg : option string) (b : SchemaBody) (s : Z) :
  schema_route app arg = (JsonSchema b, s) ->
  exists entry,
    s = 200%Z
    /\ app_models app !! schema_model_tag b = Some entry
    /\ schema_feature_names b = md_feature_names (entry_metadata entry)
    /\ schema_window_size b = md_window_size (entry_metadata entry)
    /\ request_context app (example_request b)
       = Some (schema_model_tag b, entry,
               example_features (md_feature_names (entry_metadata entry))).
Proof.
  unfold schema_route.
  destruct (py_or arg _) as [[|c t]|]; [done| |done].
  destruct (app_models app !! String c t) as [entry|] eqn:Hen; [|done].
  intros [= <- <-]. exists entry. cbn. repeat (split; [done|]).
  unfold request_context, resolve_tag. cbn. by rewrite Hen.
Qed.

(** X23.  The example that [schema] hands out passes every check of
    [predict]: replayed against the same registry, with a model that has
    feature names, it is answered with the pipeline's outcome on the example
    features, never with 400, 404 or 415.  The example has exactly the
    feature names as keys. *)
Theorem schema_example_reaches_pipeline (app : App) (arg : option string)
    (b : SchemaBody) (s : Z) :
  schema_route app arg = (JsonSchema b, s) ->
  schema_feature_names b <> [] ->
  exists entry,
    app_models app !! schema_model_tag b = Some entry
    /\ (forall n, is_Some (example_features (schema_feature_names b) !! n)
                  <-> n ∈ schema_feature_names b)
    /\ predict_route float_of_str app (example_request b) =
       match predict_with_model float_of_str (entry_model entry) (entry_metadata entry)
               (example_features (schema_feature_names b)) with
       | Ok result => (JsonPrediction (Res.y_pred result) (schema_model_tag b), 200%Z)
       | Raise e => (JsonError (ErrPredictionFailed e), 500%Z)
       end.
Proof.
  intros (entry & _ & Hen & Hnames & _ & Hctx)%schema_route_ok Hne.
  exists entry. split; [done|]. split.
  - intros n. rewrite example_features_lookup. case_bool_decide; [|split; [by intros []|done]].
    split; [done|]. intros _. by eexists.
  - rewrite Hnames in *.
    by apply predict_route_numeric; [|done|apply example_features_numeric].
Qed.

(** X24.  The example gives 0.0 to every name outside its table, so for a
    model one of whose selected history features is outside the table the
    example of [schema] is refused by [predict] with 500 and the error of a
    non-positive history value. *)
Theorem schema_example_rejected_outside_table (app : App) (arg : option string)
    (b : SchemaBody) (s : Z) (entry : Entry) (i : nat) :
  schema_route app arg = (JsonSchema b, s) ->
  app_models app !! schema_model_tag b = Some entry ->
  passes_config_checks (entry_metadata entry) = true ->
  i ∈ selected_positions (entry_metadata entry) ->
  example_data !! name_at (md_feature_names (entry_metadata entry)) i = None ->
  predict_route float_of_str app (example_request b)
  = (JsonError (ErrPredictionFailed (ValueError MsgHistNotPositive)), 500%Z).
Proof.
  intros (entry' & _ & Hen' & Hnames & _ & Hctx)%schema_route_ok Hen Hcfg Hi Hout.
  rewrite Hen in Hen'. injection Hen' as <-.
  pose proof (passes_config_checks_inv _ Hcfg) as (Hne & _).
  rewrite (predict_route_numeric _ _ _ _ _ _ Hctx Hne (example_features_numeric _)).
  destruct (all_numeric_conditions _ _ _ (example_features_numeric
              (md_feature_names (entry_metadata entry)))) as (Hsel & _ & _).
  rewrite (nonpositive_history_raises _ _ _ _ Hcfg Hsel); [done|].
  pose proof (selected_positions_lt _ _ Hi) as Hlt.
  destruct (example_features_value (md_feature_names (entry_metadata entry))
              (name_at (md_feature_names (entry_metadata entry)) i))
    as (q & _ & Hq & Hzero).
  { by apply name_at_elem_of. }
  rewrite (Hzero Hout) in Hq. by eapply not_accepted_at.
Qed.

End SchemaFacts.

(** ** Instances of the further properties *)

Ltac in_range_list :=
  let i := fresh "i" in
  let Hi := fresh "Hi" in
  intros i Hi;
  repeat (apply elem_of_cons in Hi as [->|Hi]; [cbn; lia|]);
  by apply elem_of_nil in Hi.

Lemma order_hist_positions_rearranges_witness :
  exists l, order_hist_positions ["DL_hist_1"; "x"; "DL_hist_0"] [0; 2]%nat = Ok l
            /\ l ≡ₚ [0; 2]%nat /\ length l = 2%nat.
Proof.
  apply (order_hist_positions_rearranges ["DL_hist_1"; "x"; "DL_hist_0"] [0; 2]%nat).
  in_range_list.
Defined.

Lemma order_hist_positions_ascending_witness :
  StronglySorted (key_le ["DL_hist_1"; "x"; "DL_hist_0"]) [2; 0]%nat.
Proof.
  apply (order_hist_positions_ascending ["DL_hist_1"; "x"; "DL_hist_0"] [0; 2]%nat).
  - in_range_list.
  - repeat constructor; by eexists.
  - reflexivity.
Defined.

Lemma order_hist_positions_keeps_ascending_witness :
  order_hist_positions ["DL_hist_3"; "DL_hist_3"; "DL_hist_5"] [0; 1; 2]%nat
  = Ok [0; 1; 2]%nat.
Proof.
  apply (order_hist_positions_keeps_ascending
           ["DL_hist_3"; "DL_hist_3"; "DL_hist_5"] [0; 1; 2]%nat).
  - in_range_list.
  - repeat first [apply SSorted_nil | apply SSorted_cons | apply Forall_nil_2
                 | apply Forall_cons_2];
      vm_compute; discriminate.
  - repeat constructor; by eexists.
Defined.

Lemma order_hist_positions_index_error_witness :
  order_hist_positions ["DL_hist_0"] [0; 3]%nat = Raise IndexError.
Proof.
  apply (order_hist_positions_index_error ["DL_hist_0"] [0; 3]%nat).
  right. left. cbn. lia.
Defined.

Lemma compute_window_base_floor_inactive_witness :
  (exists b, compute_window_base [Fin 2; Fin 4] "window_mean" = Ok (Fin b)
             /\ (b == arithmetic_mean [2; 4])%Q)
  /\ (exists z, last [2; 4]%Q = Some z
                /\ compute_window_base [Fin 2; Fin 4] "window_anchor" = Ok (Fin z)).
Proof.
  apply (compute_window_base_floor_inactive [2; 4]%Q); [discriminate|].
  repeat constructor; vm_compute; discriminate.
Defined.

Lemma scale_noise_abs_db_saturates_witness :
  exists r, scale_noise_abs_db (Fin (-200)) (Fin 50) (Fin 150) = Ok (Fin r)
            /\ (r == 1)%Q.
Proof.
  destruct (scale_noise_abs_db_saturates (-200) 50 150) as (r & Hr & _ & Hhi & _);
    [reflexivity|].
  exists r. split; [exact Hr|]. apply Hhi. vm_compute. discriminate.
Defined.

Lemma scale_noise_abs_db_monotone_witness :
  exists r s, scale_noise_abs_db (Fin (-90)) (Fin 50) (Fin 150) = Ok (Fin r)
              /\ scale_noise_abs_db (Fin 120) (Fin 50) (Fin 150) = Ok (Fin s)
              /\ (r <= s)%Q.
Proof.
  apply (scale_noise_abs_db_monotone (-90) 120 50 150); [reflexivity|].
  vm_compute. discriminate.
Defined.

Lemma scale_noise_abs_db_zero_division_witness :
  scale_noise_abs_db (Fin (-90)) (Fin 50) (Fin 50) = Raise ZeroDivisionError
  /\ scale_noise_abs_db NaN (Fin 50) (Fin 50) = Raise ZeroDivisionError.
Proof.
  split.
  - apply (scale_noise_abs_db_zero_division (Fin (-90)) 50 50). reflexivity.
  - apply (scale_noise_abs_db_zero_division NaN 50 50). reflexivity.
Defined.

Lemma predict_with_model_result_witness :
  exists r, predict_with_model no_str_floats first_entry md_mixed features_mixed = Ok r
            /\ valid_metadata md_mixed = true
            /\ length (Res.x_vector r) = 3%nat
            /\ Res.y_pred r = float_mul (Res.y_pred_scaled r) (Res.base r).
Proof.
  assert (exists r, predict_with_model no_str_floats first_entry md_mixed features_mixed
                    = Ok r) as [r Hr] by (eexists; vm_compute; reflexivity).
  exists r. split; [exact Hr|].
  destruct (predict_with_model_result no_str_floats first_entry md_mixed features_mixed
              r Hr) as (Hv & _ & _ & _ & _ & _ & _ & Hlen & _ & Hy & _).
  split; [exact Hv|]. split; [exact Hlen|exact Hy].
Defined.

Lemma x_vector_entry_ranges_witness :
  exists r q, predict_with_model no_str_floats first_entry md_mixed features_mixed = Ok r
              /\ Res.x_vector r !! 1%nat = Some (Fin q) /\ (0 <= q)%Q /\ (q <= 1)%Q.
Proof.
  assert (exists r, predict_with_model no_str_floats first_entry md_mixed features_mixed
                    = Ok r) as [r Hr] by (eexists; vm_compute; reflexivity).
  destruct (x_vector_entry_ranges no_str_floats first_entry md_mixed features_mixed
              r Hr) as [Hnoise _].
  destruct (Hnoise 1%nat) as (e & He & [->|(q & -> & Hq)] & _); [vm_compute; left| |].
  - exfalso. vm_compute in Hr. injection Hr as <-. discriminate He.
  - exists r, q. split; [exact Hr|]. split; [exact He|exact Hq].
Defined.

Lemma none_mode_is_identity_witness :
  exists r, predict_with_model no_str_floats first_entry md_none features_mixed = Ok r
            /\ Res.base r = Fin 1
            /\ Res.x_vector r !! 0%nat = Some (Fin 4)
            /\ Res.y_pred r = Res.y_pred_scaled r.
Proof.
  assert (exists r, predict_with_model no_str_floats first_entry md_none features_mixed
                    = Ok r) as [r Hr] by (eexists; vm_compute; reflexivity).
  destruct (none_mode_is_identity no_str_floats first_entry md_none features_mixed r
              eq_refl Hr) as (Hbase & Hhist & Hy).
  exists r. split; [exact Hr|]. split; [exact Hbase|]. split; [|exact Hy].
  apply (Hhist 0%nat). vm_compute. left.
Defined.

Lemma nan_history_poisons_prediction_witness :
  exists r, predict_with_model no_str_floats first_entry md_two_hist features_nan_history
            = Ok r
            /\ Res.base r = NaN /\ Res.y_pred r = NaN.
Proof.
  rewrite (nan_history_poisons_prediction no_str_floats first_entry md_two_hist
             features_nan_history 1%nat);
    [|reflexivity|reflexivity|reflexivity|reflexivity|reflexivity|vm_compute; left
     |reflexivity].
  eexists. split; [reflexivity|]. split; reflexivity.
Defined.

Lemma selected_positions_prefix_witness :
  selected_positions md_narrow_window = [0; 1]%nat
  /\ length (selected_positions md_narrow_window) = 2%nat.
Proof.
  destruct (selected_positions_prefix md_narrow_window) as (ord & Hord & Hsel & Hlen);
    [reflexivity|].
  split; [|exact Hlen]. rewrite Hsel.
  vm_compute in Hord. injection Hord as <-. reflexivity.
Defined.

Lemma predict_with_model_exceptions_witness :
  (exists m, TypeError = ValueError m)
  \/ ((TypeError = TypeError \/ TypeError = OverflowError)
      /\ exists i v, i ∈ noise_idx_of (md_feature_names md_mixed)
                     /\ features_none_noise !! name_at (md_feature_names md_mixed) i
                        = Some v
                     /\ py_float no_str_floats v = Raise TypeError)
  \/ TypeError = EstimatorError.
Proof.
  apply (predict_with_model_exceptions no_str_floats first_entry md_mixed
           features_none_noise).
  vm_compute. reflexivity.
Defined.

Lemma bad_noise_value_witness :
  predict_with_model no_str_floats first_entry md_mixed features_none_noise
  = Raise TypeError.
Proof.
  apply (bad_noise_value_raises_float_error no_str_floats first_entry md_mixed
           features_none_noise [] [] 1%nat PyNone TypeError); reflexivity.
Defined.

Lemma predict_with_model_ignores_unused_witness :
  predict_with_model no_str_floats first_entry md_mixed features_mixed
  = predict_with_model no_str_floats first_entry md_mixed features_mixed_junk.
Proof.
  apply (predict_with_model_ignores_unused no_str_floats first_entry md_mixed).
  assert (selected_positions md_mixed = [0]%nat) as -> by reflexivity.
  assert (noise_idx_of (md_feature_names md_mixed) = [1]%nat) as -> by reflexivity.
  assert (other_idx_of (md_feature_names md_mixed) = [2]%nat) as -> by reflexivity.
  intros i [Hi|[Hi|Hi]];
    (apply elem_of_cons in Hi as [->|Hi]; [vm_compute; reflexivity|]);
    by apply elem_of_nil in Hi.
Defined.

Lemma predict_route_serves_pipeline_witness :
  predict_route no_str_floats app_mixed (request_of features_mixed)
  = (JsonPrediction (Fin (16 # 4)) "mixed", 200%Z).
Proof.
  rewrite (predict_route_serves_pipeline no_str_floats app_mixed
             (request_of features_mixed) "mixed" entry_mixed features_mixed);
    [vm_compute; reflexivity| vm_compute; reflexivity| discriminate| reflexivity].
Defined.

Lemma predict_route_pipeline_errors_witness :
  500%Z = 500%Z
  /\ (ValueError MsgHistNotPositive = EstimatorError
      \/ exists m, ValueError MsgHistNotPositive = ValueError m
                   /\ (is_config_msg m = true \/ m = MsgHistNotPositive)).
Proof.
  apply (predict_route_pipeline_errors no_str_floats app_mixed
           (request_of features_zero_history)).
  vm_compute. reflexivity.
Defined.

Lemma predict_route_ok_certifies_witness :
  exists tag entry d r,
    request_context app_mixed (request_of features_mixed) = Some (tag, entry, d)
    /\ missing_features (entry_metadata entry) d = []
    /\ predict_with_model no_str_floats (entry_model entry) (entry_metadata entry) d
       = Ok r
    /\ JsonPrediction (Fin (16 # 4)) "mixed" = JsonPrediction (Res.y_pred r) tag.
Proof.
  apply (predict_route_ok_certifies no_str_floats app_mixed (request_of features_mixed)).
  vm_compute. reflexivity.
Defined.

Lemma predict_route_nonpositive_history_witness :
  predict_route no_str_floats app_mixed (request_of features_zero_history)
  = (JsonError (ErrPredictionFailed (ValueError MsgHistNotPositive)), 500%Z).
Proof.
  apply (predict_route_nonpositive_history no_str_floats app_mixed
           (request_of features_zero_history) "mixed" entry_mixed features_zero_history
           0%nat (Fin 0)).
  - vm_compute. reflexivity.
  - reflexivity.
  - reflexivity.
  - vm_compute. left.
  - reflexivity.
  - reflexivity.
Defined.

Lemma predict_route_requires_every_name_witness :
  predict_route no_str_floats app_mixed (request_of features_no_extra)
  = (JsonError (ErrMissingFeatures ["extra"]), 400%Z)
  /\ exists r, predict_with_model no_str_floats first_entry md_mixed features_no_extra
               = Ok r
               /\ Res.x_vector r !! 2%nat = Some (Fin 0).
Proof.
  destruct (predict_route_requires_every_name no_str_floats app_mixed
              (request_of features_no_extra) "mixed" entry_mixed features_no_extra)
    as [Hroute (base & Hrun)];
    [vm_compute; reflexivity| reflexivity| reflexivity| reflexivity| reflexivity|
     vm_compute; discriminate|].
  split; [rewrite Hroute; vm_compute; reflexivity|].
  eexists. split; [vm_compute; reflexivity|reflexivity].
Defined.

Lemma schema_example_reaches_pipeline_witness :
  exists y, predict_route no_str_floats app_table
              (example_request (schema_body_of app_table "table"
                                  (entry_metadata entry_table)))
            = (JsonPrediction y "table", 200%Z).
Proof.
  destruct (schema_example_reaches_pipeline no_str_floats app_table None
              (schema_body_of app_table "table" (entry_metadata entry_table)) 200%Z)
    as (entry & Hen & _ & Hroute); [vm_compute; reflexivity|discriminate|].
  assert (entry = entry_table) as ->.
  { vm_compute in Hen. injection Hen as <-. reflexivity. }
  rewrite Hroute. eexists. vm_compute. reflexivity.
Defined.

Lemma schema_example_rejected_witness :
  predict_route no_str_floats app_outside
    (example_request (schema_body_of app_outside "outside"
                        (entry_metadata entry_outside)))
  = (JsonError (ErrPredictionFailed (ValueError MsgHistNotPositive)), 500%Z).
Proof.
  apply (schema_example_rejected_outside_table no_str_floats app_outside None
           (schema_body_of app_outside "outside" (entry_metadata entry_outside))
           200%Z entry_outside 1%nat).
  - vm_compute. reflexivity.
  - vm_compute. reflexivity.
  - reflexivity.
  - vm_compute. right. left.
  - vm_compute. reflexivity.
Defined.

